(** * robust_csv_parser: a shallow embedding of [RobustCSVParser]

    The development follows [robust_csv_parser.py].  A document is the text
    that [fp.read()] returns, a list of characters; offsets are natural
    numbers.  The three libraries the parser calls ([re], [pandas],
    [logging]) are modelled by small executable definitions, each with the
    fragment it covers written at its head.  The parser's own methods
    ([__init__], [parse], [parse_multifile], [_parse_frame]) are translated
    statement by statement in [Module RobustCSVParser]. *)

From Stdlib Require Import List Ascii String NArith ZArith Lia Bool Arith Sorted.
Import ListNotations.

Set Implicit Arguments.

(** ** Text

    A character is a code point below 256; a text with other characters
    is outside the embedding. *)

Definition text := list ascii.

Definition NUL : ascii := ascii_of_nat 0.
Definition TAB : ascii := ascii_of_nat 9.
Definition LF : ascii := ascii_of_nat 10.
Definition CR : ascii := ascii_of_nat 13.
Definition DQUOTE : ascii := ascii_of_nat 34.
Definition SQUOTE : ascii := ascii_of_nat 39.
Definition BACKSLASH : ascii := ascii_of_nat 92.

(** A Python string literal, read with its escapes [\n], [\0], [\t], [\r]
    and [\\]; any other character stands for itself. *)
Fixpoint py (s : string) : text :=
  match s with
  | EmptyString => []
  | String c EmptyString => [c]
  | String c (String d rest as tl) =>
      if Ascii.eqb c BACKSLASH then
        if Ascii.eqb d "n" then LF :: py rest
        else if Ascii.eqb d "0" then NUL :: py rest
        else if Ascii.eqb d "t" then TAB :: py rest
        else if Ascii.eqb d "r" then CR :: py rest
        else if Ascii.eqb d BACKSLASH then BACKSLASH :: py rest
        else c :: py tl
      else c :: py tl
  end.

Definition text_eqb (a b : text) : bool :=
  String.eqb (string_of_list_ascii a) (string_of_list_ascii b).

Fixpoint starts_with (pre s : text) : bool :=
  match pre, s with
  | [], _ => true
  | _ :: _, [] => false
  | a :: pre', b :: s' => Ascii.eqb a b && starts_with pre' s'
  end.

Definition is_some {A : Type} (o : option A) : bool :=
  match o with Some _ => true | None => false end.

(** ** Outcomes of Python code: a value, or an exception that propagates *)

Inductive exn : Type :=
| TypeError
| ValueError
| ParserError          (* pandas.errors.ParserError, a ValueError *)
| EmptyDataError       (* pandas.errors.EmptyDataError, a ValueError *)
| KeyError
| IndexError
| OverflowError
| UnknownTimeZoneError (* a KeyError *)
| InvalidTimeError     (* ambiguous or non-existent wall time *)
| UserError.           (* any other Exception raised by a callback *)

Definition isinstance_ValueError (e : exn) : bool :=
  match e with
  | ValueError | ParserError | EmptyDataError => true
  | _ => false
  end.

Inductive outcome (A : Type) : Type :=
| Ok (a : A)
| Raised (e : exn).

Arguments Ok {A} a.
Arguments Raised {A} e.

(** ** Built-in [str] and [int] operations the parser uses *)

Module Py.

(** [s.replace(NUL, empty)] *)
Definition replace_nul (s : text) : text :=
  filter (fun c => negb (Ascii.eqb c NUL)) s.

(** [fp.readline()] on a stream at offset 0: the first line with its
    newline, or the whole text when it has none. *)
Fixpoint readline (s : text) : text :=
  match s with
  | [] => []
  | c :: rest => if Ascii.eqb c LF then [c] else c :: readline rest
  end.

(** [s.split(sep)[0]] for a one-character separator: the text before the
    first separator. *)
Fixpoint split_first (sep : ascii) (s : text) : text :=
  match s with
  | [] => []
  | c :: rest => if Ascii.eqb c sep then [] else c :: split_first sep rest
  end.

(** [s[slice(a, b)]] for offsets that are [None] or non-negative. *)
Definition slice (s : text) (a b : option nat) : text :=
  let lo := match a with Some i => i | None => 0 end in
  match b with
  | Some hi => firstn (hi - lo) (skipn lo s)
  | None => skipn lo s
  end.

(** A decimal digit, for [int] and for [\d] of [re]: among the characters
    below 256 these are [0] to [9]. *)
Definition is_digit (c : ascii) : bool :=
  let n := nat_of_ascii c in (48 <=? n) && (n <=? 57).

Definition digit_val (c : ascii) : Z := Z.of_nat (nat_of_ascii c - 48).

(** [int(ds)] for a run of decimal digits. *)
Definition int_of_digits (ds : text) : Z :=
  fold_left (fun acc c => (10 * acc + digit_val c)%Z) ds 0%Z.

Definition digit_char (n : nat) : ascii := ascii_of_nat (48 + n).

Fixpoint digits_of_N_aux (fuel : nat) (n : N) (acc : text) : text :=
  match fuel with
  | 0 => acc
  | S fuel' =>
      let acc' := digit_char (N.to_nat (n mod 10)) :: acc in
      if (n <? 10)%N then acc' else digits_of_N_aux fuel' (n / 10) acc'
  end.

(** [str(n)] for [n >= 0]: a number has no more decimal digits than
    binary ones, so one round for each bit is enough. *)
Definition str_of_N (n : N) : text := digits_of_N_aux (S (N.size_nat n)) n [].

Definition str_of_nat (n : nat) : text := str_of_N (N.of_nat n).

(** [str(z)], as an f-string formats an [int]. *)
Definition str_of_int (z : Z) : text :=
  match z with
  | Z0 => py "0"
  | Zpos p => str_of_N (Npos p)
  | Zneg p => py "-" ++ str_of_N (Npos p)
  end.

End Py.

(** ** The [re] module

    A compiled regular expression is carried by its source text and by what
    the backtracking engine answers on it: [re_lens r s p] lists the
    lengths of the matches of [r] in [s] that start at offset [p], in the
    order in which the engine finds them.  [finditer] and [search] are the
    engine's scanning loops over that answer. *)

Module Re.

Record regex : Type := {
  re_source : text;
  re_lens : text -> nat -> list nat
}.

(** [re.escape]: a backslash before each character of
    [()[]{}?*+-|^$\.&~# \t\n\r\v\f]. *)
Definition special_chars : text :=
  py "()[]{}?*+-|^$\\.&~# \t\n\r" ++ [ascii_of_nat 11; ascii_of_nat 12].

Definition escape (s : text) : text :=
  flat_map
    (fun c => if existsb (Ascii.eqb c) special_chars then [BACKSLASH; c] else [c])
    s.

(** The pattern [re.escape(h)] matches the text [h] itself and nothing
    else. *)
Definition literal (h : text) : regex :=
  {| re_source := escape h;
     re_lens := fun s p => if starts_with h (skipn p s) then [List.length h] else [] |}.

(** The pattern [.]: one character that is not a newline. *)
Definition dot : regex :=
  {| re_source := py ".";
     re_lens := fun s p =>
       match nth_error s p with
       | Some c => if Ascii.eqb c LF then [] else [1]
       | None => []
       end |}.

Definition is_quote (c : ascii) : bool :=
  Ascii.eqb c SQUOTE || Ascii.eqb c DQUOTE.

(** Characters up to the next newline: what a greedy [.*] consumes. *)
Fixpoint line_rest (s : text) : nat :=
  match s with
  | [] => 0
  | c :: rest => if Ascii.eqb c LF then 0 else S (line_rest rest)
  end.

(** The offset at which [.*$] ends when it starts at [i] under
    [re.MULTILINE]: the next newline, or the end of the text. *)
Definition eol (s : text) (i : nat) : nat := i + line_rest (skipn i s).

(** End offsets of the matches of the header pattern (an optional quote
    character, the group [body], then [.*$]) that start at [p]: the greedy
    [?] tries the quote first, then each match of the group, and [.*$] runs
    to the end of the line. *)
Definition header_ends (body : regex) (s : text) (p : nat) : list nat :=
  (match nth_error s p with
   | Some c =>
       if is_quote c
       then map (fun l => eol s (S p + l)) (re_lens body s (S p))
       else []
   | None => []
   end)
  ++ map (fun l => eol s (p + l)) (re_lens body s p).

(** The pattern that [parse] compiles with [re.MULTILINE]: a character
    class of the two quote characters (the double quote written with a
    backslash, as in the raw f-string), [?], the group around [body], and
    [.*$]. *)
Definition header_pattern (body : regex) : regex :=
  {| re_source :=
       py "['" ++ [BACKSLASH; DQUOTE] ++ py "]?(" ++ re_source body ++ py ").*$";
     re_lens := fun s p => map (fun e => e - p) (header_ends body s p) |}.

(** One attempt of the engine at offset [p]: the first match, an empty one
    being refused when the previous match was empty and ended here. *)
Definition match_at (r : regex) (s : text) (p : nat) (must_advance : bool)
  : option nat :=
  find (fun l => negb (must_advance && (l =? 0))) (re_lens r s p).

(** The scanner behind [re.finditer]: offsets [p], [p+1], ... are tried in
    turn, those before [pos] (inside the previous match) are skipped, and
    after an empty match the same offset is tried once more for a match
    that advances.  [n] counts the offsets left, the end of the text
    included. *)
Fixpoint scan (r : regex) (s : text) (n p pos : nat) : list (nat * nat) :=
  match n with
  | 0 => []
  | S n' =>
      if p <? pos then scan r s n' (S p) pos
      else
        match match_at r s p false with
        | None => scan r s n' (S p) pos
        | Some 0 =>
            (p, p) ::
            match match_at r s p true with
            | Some l => (p, p + l) :: scan r s n' (S p) (p + l)
            | None => scan r s n' (S p) p
            end
        | Some l => (p, p + l) :: scan r s n' (S p) (p + l)
        end
  end.

(** [re.finditer(r, s)]: the (start, end) offsets of the matches. *)
Definition finditer (r : regex) (s : text) : list (nat * nat) :=
  scan r s (S (List.length s)) 0 0.

(** [bool(re.search(r, s))] *)
Definition search (r : regex) (s : text) : bool :=
  existsb (fun p => match match_at r s p false with Some _ => true | None => false end)
          (seq 0 (S (List.length s))).

(** [re.search] of [UTC(\+\d+)] in [s]: group 1 of the leftmost match, the
    plus sign with the longest run of digits after it. *)
Fixpoint take_digits (s : text) : text :=
  match s with
  | c :: rest => if Py.is_digit c then c :: take_digits rest else []
  | [] => []
  end.

Fixpoint search_utc (s : text) : option text :=
  match s with
  | [] => None
  | c :: rest =>
      if starts_with (py "UTC+") s then
        match take_digits (skipn 4 s) with
        | [] => search_utc rest
        | ds => Some ("+"%char :: ds)
        end
      else search_utc rest
  end.

End Re.

(** ** The [pandas] calls of the parser

    Cells hold the token read from the file, or nothing for a missing value
    (NaN); a number is its token, and the type the reader infers for a
    column is computed from the tokens where a cast asks for it.  The
    table reader is the C parser under the options [parse]
    passes ([sep], [header=0], [on_bad_lines=warn]) with the defaults for
    the rest: double-quote quoting with doubled quotes, blank lines
    skipped, no comment or escape character.  Of the pass-through options
    the model knows [index_col], [parse_dates], [date_format] and [dtype]
    (signed integer types and [object]).  Column labels of one frame are
    taken as distinct. *)

Module Pd.

Definition cell := option text.

Inductive label : Type :=
| LPos (i : nat)              (* a position of the default RangeIndex *)
| LVal (c : cell)             (* a value of the index column *)
| LTuple (cs : list cell)     (* a row of several index columns *)
| LTimestamp (t : option Z).  (* an instant, nanoseconds of UTC, or NaT *)

Record frame : Type := {
  index_name : option text;
  index_tz : option text;           (* the zone of a DatetimeIndex *)
  index : list label;
  cols : list (text * list cell);   (* label and values, in column order *)
  attrs_source : option text        (* attrs[source] *)
}.

Definition columns (df : frame) : list text := map fst (cols df).
Definition n_rows (df : frame) : nat := List.length (index df).

Inductive dtype : Type := Int8 | Int16 | Int32 | Int64 | Object.

Inductive dtype_arg : Type :=
| DtAll (d : dtype)                  (* one type for every column *)
| DtMap (m : list (text * dtype)).   (* column label to type *)

(** *** The tokenizer (tokenizer.c, [tokenize_bytes]) *)

Inductive tstate : Type :=
| START_RECORD | START_FIELD | IN_FIELD | IN_QUOTED_FIELD
| QUOTE_IN_QUOTED_FIELD | EAT_CRNL | EAT_CRNL_NOP | WHITESPACE_LINE.

(** A skipped line: its number in the file, the fields expected and seen. *)
Record bad_line : Type := { bl_line : nat; bl_expected : nat; bl_saw : nat }.

Record tok : Type := {
  t_state : tstate;
  t_field : text;               (* the field being read *)
  t_fields : list text;         (* the fields of the line being read *)
  t_lines : list (list text);   (* the lines kept so far *)
  t_ws : text;                  (* the blanks of a line that is blank so far *)
  t_file_lines : nat;
  t_warn : list bad_line
}.

Definition tok_init : tok :=
  {| t_state := START_RECORD; t_field := []; t_fields := []; t_lines := [];
     t_ws := []; t_file_lines := 0; t_warn := [] |}.

Definition set_state (st : tstate) (t : tok) : tok :=
  {| t_state := st; t_field := t_field t; t_fields := t_fields t;
     t_lines := t_lines t; t_ws := t_ws t; t_file_lines := t_file_lines t;
     t_warn := t_warn t |}.

Definition push_char (c : ascii) (t : tok) : tok :=
  {| t_state := t_state t; t_field := t_field t ++ [c]; t_fields := t_fields t;
     t_lines := t_lines t; t_ws := t_ws t; t_file_lines := t_file_lines t;
     t_warn := t_warn t |}.

Definition end_field (t : tok) : tok :=
  {| t_state := t_state t; t_field := []; t_fields := t_fields t ++ [t_field t];
     t_lines := t_lines t; t_ws := t_ws t; t_file_lines := t_file_lines t;
     t_warn := t_warn t |}.

Definition skip_line (st : tstate) (t : tok) : tok :=
  {| t_state := st; t_field := t_field t; t_fields := t_fields t;
     t_lines := t_lines t; t_ws := []; t_file_lines := S (t_file_lines t);
     t_warn := t_warn t |}.

(** [end_line]: from the third line on (the header is line 0), a line with
    more fields than the line before it is skipped with a warning; from
    the second line on, a shorter line is filled up with empty fields. *)
Definition end_line (st : tstate) (t : tok) : tok :=
  let lines := List.length (t_lines t) in
  let fields := List.length (t_fields t) in
  let ex_fields := List.length (last (t_lines t) []) in
  if (2 <=? lines) && (ex_fields <? fields) then
    {| t_state := st; t_field := t_field t; t_fields := [];
       t_lines := t_lines t; t_ws := t_ws t;
       t_file_lines := S (t_file_lines t);
       t_warn := t_warn t ++
                 [{| bl_line := S (t_file_lines t); bl_expected := ex_fields;
                     bl_saw := fields |}] |}
  else
    let padded :=
      if 1 <=? lines then t_fields t ++ repeat [] (ex_fields - fields)
      else t_fields t in
    {| t_state := st; t_field := t_field t; t_fields := [];
       t_lines := t_lines t ++ [padded]; t_ws := t_ws t;
       t_file_lines := S (t_file_lines t); t_warn := t_warn t |}.

Definition is_blank (c : ascii) : bool :=
  Ascii.eqb c " " || Ascii.eqb c TAB.

Section Tokenizer.

Variable sep : ascii.

Definition step_in_field (c : ascii) (t : tok) : tok :=
  if Ascii.eqb c LF then end_line START_RECORD (end_field t)
  else if Ascii.eqb c CR then set_state EAT_CRNL (end_field t)
  else if Ascii.eqb c sep then set_state START_FIELD (end_field t)
  else push_char c t.

Definition step_start_field (c : ascii) (t : tok) : tok :=
  if Ascii.eqb c LF then end_line START_RECORD (end_field t)
  else if Ascii.eqb c CR then set_state EAT_CRNL (end_field t)
  else if Ascii.eqb c DQUOTE then set_state IN_QUOTED_FIELD t
  else if Ascii.eqb c sep then end_field t
  else set_state IN_FIELD (push_char c t).

Definition step_start_record (c : ascii) (t : tok) : tok :=
  if Ascii.eqb c LF then skip_line START_RECORD t
  else if Ascii.eqb c CR then skip_line EAT_CRNL_NOP t
  else if is_blank c && negb (Ascii.eqb c sep) then
    {| t_state := WHITESPACE_LINE; t_field := t_field t; t_fields := t_fields t;
       t_lines := t_lines t; t_ws := [c]; t_file_lines := t_file_lines t;
       t_warn := t_warn t |}
  else step_start_field c (set_state START_FIELD t).

(** In [WHITESPACE_LINE] a character that is no blank sends the tokenizer
    back to the start of the line in state [START_FIELD]: the blanks
    passed are read again as the start of a field, then the character. *)
Definition step_whitespace_line (c : ascii) (t : tok) : tok :=
  if Ascii.eqb c LF then skip_line START_RECORD t
  else if Ascii.eqb c CR then skip_line EAT_CRNL_NOP t
  else if is_blank c && negb (Ascii.eqb c sep) then
    {| t_state := WHITESPACE_LINE; t_field := t_field t; t_fields := t_fields t;
       t_lines := t_lines t; t_ws := t_ws t ++ [c];
       t_file_lines := t_file_lines t; t_warn := t_warn t |}
  else
    step_in_field c
      {| t_state := IN_FIELD; t_field := t_ws t; t_fields := t_fields t;
         t_lines := t_lines t; t_ws := []; t_file_lines := t_file_lines t;
         t_warn := t_warn t |}.

Definition step_in_quoted_field (c : ascii) (t : tok) : tok :=
  if Ascii.eqb c DQUOTE then set_state QUOTE_IN_QUOTED_FIELD t
  else push_char c t.

Definition step_quote_in_quoted_field (c : ascii) (t : tok) : tok :=
  if Ascii.eqb c DQUOTE then set_state IN_QUOTED_FIELD (push_char c t)
  else if Ascii.eqb c sep then set_state START_FIELD (end_field t)
  else if Ascii.eqb c LF then end_line START_RECORD (end_field t)
  else if Ascii.eqb c CR then set_state EAT_CRNL (end_field t)
  else set_state IN_FIELD (push_char c t).

Definition step_eat_crnl (c : ascii) (t : tok) : tok :=
  if Ascii.eqb c LF then end_line START_RECORD t
  else if Ascii.eqb c sep then end_field (end_line START_FIELD t)
  else step_start_record c (end_line START_RECORD t).

Definition step_eat_crnl_nop (c : ascii) (t : tok) : tok :=
  if Ascii.eqb c CR || Ascii.eqb c LF then set_state START_RECORD t
  else step_start_record c (set_state START_RECORD t).

Definition step (t : tok) (c : ascii) : tok :=
  match t_state t with
  | START_RECORD => step_start_record c t
  | START_FIELD => step_start_field c t
  | IN_FIELD => step_in_field c t
  | IN_QUOTED_FIELD => step_in_quoted_field c t
  | QUOTE_IN_QUOTED_FIELD => step_quote_in_quoted_field c t
  | EAT_CRNL => step_eat_crnl c t
  | EAT_CRNL_NOP => step_eat_crnl_nop c t
  | WHITESPACE_LINE => step_whitespace_line c t
  end.

(** [parser_handle_eof]: the end of the text inside a quoted field is an
    error; a line in progress is closed. *)
Definition handle_eof (t : tok) : outcome tok :=
  match t_state t with
  | START_RECORD | WHITESPACE_LINE | EAT_CRNL_NOP => Ok t
  | IN_QUOTED_FIELD => Raised ParserError
  | START_FIELD | IN_FIELD | QUOTE_IN_QUOTED_FIELD =>
      Ok (end_line START_RECORD (end_field t))
  | EAT_CRNL => Ok (end_line START_RECORD t)
  end.

Definition tokenize (s : text) : outcome tok :=
  handle_eof (fold_left step s tok_init).

End Tokenizer.

(** *** [read_csv] *)

(** The texts read as a missing value ([STR_NA_VALUES]). *)
Definition na_values : list text :=
  map py ["-1.#IND"; "1.#QNAN"; "1.#IND"; "-1.#QNAN"; "#N/A N/A"; "#N/A";
          "N/A"; "n/a"; "NA"; "<NA>"; "#NA"; "NULL"; "null"; "NaN"; "-NaN";
          "nan"; "-nan"; "None"; ""]%string.

Definition to_cell (field : text) : cell :=
  if existsb (text_eqb field) na_values then None else Some field.

(** *** Numbers in the file

    How the C parser reads a field as a number ([str_to_int64],
    [str_to_uint64], [precise_xstrtod] and [to_boolean] of tokenizer.c),
    and how [int] reads a text.  A float is kept as the decimal that the
    field writes: its rounding to a binary float is not modelled. *)

(** [isspace_ascii]: the blank and the characters 9 to 13. *)
Definition is_space (c : ascii) : bool :=
  let n := nat_of_ascii c in (n =? 32) || ((9 <=? n) && (n <=? 13)).

(** White space for [str.strip] and [int], among the characters below
    256. *)
Definition is_py_space (c : ascii) : bool :=
  let n := nat_of_ascii c in
  ((9 <=? n) && (n <=? 13)) || ((28 <=? n) && (n <=? 32))
  || (n =? 133) || (n =? 160).

Fixpoint drop_while (f : ascii -> bool) (s : text) : text :=
  match s with
  | c :: rest => if f c then drop_while f rest else s
  | [] => []
  end.

Definition lstrip (s : text) : text := drop_while is_space s.

(** The digits a text begins with, and what follows them. *)
Fixpoint digits_of (s : text) : text * text :=
  match s with
  | c :: rest =>
      if Py.is_digit c then let (ds, r) := digits_of rest in (c :: ds, r)
      else ([], s)
  | [] => ([], [])
  end.

(** The sign a text begins with, if any, and what follows it. *)
Definition sign_of (s : text) : bool * text :=
  match s with
  | c :: rest =>
      if Ascii.eqb c "-" then (true, rest)
      else if Ascii.eqb c "+" then (false, rest)
      else (false, s)
  | [] => (false, [])
  end.

Definition signed (negative : bool) (z : Z) : Z :=
  if negative then (- z)%Z else z.

Definition INT64_MIN : Z := - 2 ^ 63.
Definition INT64_MAX : Z := 2 ^ 63 - 1.
Definition UINT64_MAX : Z := 2 ^ 64 - 1.

Definition in_int64 (z : Z) : bool :=
  (INT64_MIN <=? z)%Z && (z <=? INT64_MAX)%Z.

(** What a conversion answers: the value, an overflow of the type, or a
    field that is no number of the kind. *)
Inductive conversion (A : Type) : Type :=
| Converted (a : A)
| Overflow
| Invalid.

Arguments Converted {A} a.
Arguments Overflow {A}.
Arguments Invalid {A}.

(** [str_to_int64]: white space, a sign, digits, white space.  The
    overflow is met while the digits are read, before what follows them
    is looked at. *)
Definition str_to_int64 (field : text) : conversion Z :=
  let (negative, p) := sign_of (lstrip field) in
  let (ds, rest) := digits_of p in
  match ds with
  | [] => Invalid
  | _ =>
      let z := signed negative (Py.int_of_digits ds) in
      if in_int64 z then
        match lstrip rest with
        | [] => Converted z
        | _ => Invalid
        end
      else Overflow
  end.

(** [str_to_uint64]: a field that begins with a minus sign is noted as a
    signed integer and not read further ([None]). *)
Definition str_to_uint64 (field : text) : conversion (option Z) :=
  match lstrip field with
  | c :: rest =>
      if Ascii.eqb c "-" then Converted None
      else
        let (ds, rest') := digits_of (if Ascii.eqb c "+" then rest else c :: rest) in
        match ds with
        | [] => Invalid
        | _ =>
            let n := Py.int_of_digits ds in
            if (n <=? UINT64_MAX)%Z then
              match lstrip rest' with
              | [] => Converted (Some n)
              | _ => Invalid
              end
            else Overflow
        end
  | [] => Invalid
  end.

(** A float: the decimal [m * 10^e], or an infinity. *)
Inductive number : Type :=
| Finite (m e : Z)
| Infinity (negative : bool).

Definition lower (c : ascii) : ascii :=
  let n := nat_of_ascii c in
  if (65 <=? n) && (n <=? 90) then ascii_of_nat (n + 32) else c.

(** [strcasecmp(a, b) == 0] *)
Definition text_ieqb (a b : text) : bool := text_eqb (map lower a) (map lower b).

(** The largest finite float. *)
Definition DBL_MAX : Z := (2 ^ 53 - 1) * 2 ^ 971.

Definition beyond_DBL_MAX (m e : Z) : bool :=
  if (0 <=? e)%Z then (DBL_MAX <? Z.abs m * 10 ^ e)%Z
  else (DBL_MAX * 10 ^ (- e) <? Z.abs m)%Z.

(** [precise_xstrtod], with the test of its caller that the whole field
    was used: white space, a sign, digits with or without a decimal point
    (one digit at least), an exponent (its digits are required once the
    letter is there), white space.  A value beyond the floats is an
    error. *)
Definition xstrtod (field : text) : option number :=
  let (negative, p) := sign_of (lstrip field) in
  let (int_part, p1) := digits_of p in
  let (frac, p2) :=
    match p1 with
    | c :: rest => if Ascii.eqb c "." then digits_of rest else ([], p1)
    | [] => ([], [])
    end in
  match int_part ++ frac with
  | [] => None
  | ds =>
      let m := signed negative (Py.int_of_digits ds) in
      let exponent :=
        match p2 with
        | c :: rest =>
            if Ascii.eqb (lower c) "e" then
              let (eneg, q) := sign_of rest in
              let (eds, q') := digits_of q in
              match eds with
              | [] => None
              | _ => Some (signed eneg (Py.int_of_digits eds), q')
              end
            else Some (0%Z, p2)
        | [] => Some (0%Z, [])
        end in
      match exponent with
      | None => None
      | Some (n, p3) =>
          let e := (n - Z.of_nat (List.length frac))%Z in
          match lstrip p3 with
          | [] =>
              if (308 <? e)%Z || beyond_DBL_MAX m e then None
              else Some (Finite m e)
          | _ => None
          end
      end
  end.

(** [_try_double], one field: a float, or one of the names of the
    infinities, in any case of the letters. *)
Definition to_double (field : text) : conversion number :=
  match xstrtod field with
  | Some x => Converted x
  | None =>
      if existsb (text_ieqb field) (map py ["inf"; "+inf"; "infinity"; "+infinity"]%string)
      then Converted (Infinity false)
      else if existsb (text_ieqb field) (map py ["-inf"; "-infinity"]%string)
      then Converted (Infinity true)
      else Invalid
  end.

(** [to_boolean] *)
Definition to_boolean (field : text) : conversion bool :=
  if text_ieqb field (py "true") then Converted true
  else if text_ieqb field (py "false") then Converted false
  else Invalid.

(** Digits with single underscores between them, as [int] accepts
    them: the digits. *)
Fixpoint grouped_digits (after_digit : bool) (s : text) : option text :=
  match s with
  | [] => if after_digit then Some [] else None
  | c :: rest =>
      if Py.is_digit c then option_map (cons c) (grouped_digits true rest)
      else if Ascii.eqb c "_" && after_digit then grouped_digits false rest
      else None
  end.

(** [int(s)] for a text: white space, a sign, digits, white space. *)
Definition py_int (s : text) : option Z :=
  let stripped := rev (drop_while is_py_space (rev (drop_while is_py_space s))) in
  let (negative, p) := sign_of stripped in
  option_map (fun ds => signed negative (Py.int_of_digits ds))
             (grouped_digits false p).

(** *** The types of the columns

    The type the reader gives a column when it is told none: the fields
    are tried in their order as 64-bit integers (as unsigned ones after an
    overflow), as floats, as booleans, and are texts when all of this
    fails.  A missing value makes integers floats, and booleans
    objects. *)

Inductive object : Type :=
| OStr (s : text)
| OBool (b : bool)
| ONaN.

Inductive column : Type :=
| Ints (zs : list Z)                   (* int64, uint64 *)
| Floats (xs : list (option number))   (* float64; nothing stands for NaN *)
| Bools (bs : list bool)
| Objects (os : list object).

(** One conversion for every field of a column, in the order of the
    rows; a missing value is passed over; the first field that fails
    ends the attempt. *)
Fixpoint try_each {A : Type} (f : text -> conversion A) (vs : list cell)
  : conversion (list (option A)) :=
  match vs with
  | [] => Converted []
  | v :: rest =>
      let head :=
        match v with
        | None => Converted None
        | Some field =>
            match f field with
            | Converted a => Converted (Some a)
            | Overflow => Overflow
            | Invalid => Invalid
            end
        end in
      match head with
      | Converted x =>
          match try_each f rest with
          | Converted xs => Converted (x :: xs)
          | Overflow => Overflow
          | Invalid => Invalid
          end
      | Overflow => Overflow
      | Invalid => Invalid
      end
  end.

Fixpoint all_present {A : Type} (xs : list (option A)) : option (list A) :=
  match xs with
  | [] => Some []
  | Some x :: rest => option_map (cons x) (all_present rest)
  | None :: _ => None
  end.

(** [_try_uint64]: unsigned integers, unless a value above the signed
    range stands beside a signed integer or a missing value (a
    [ValueError]), or a signed integer was seen (an [OverflowError]). *)
Inductive uint_attempt : Type :=
| UInts (zs : list Z)
| UConflict
| USigned
| UOverflow
| UInvalid.

Definition try_uint64 (vs : list cell) : uint_attempt :=
  match try_each str_to_uint64 vs with
  | Converted xs =>
      let seen_null := existsb (fun x => negb (is_some x)) xs in
      let seen_sint :=
        existsb (fun x => match x with Some None => true | _ => false end) xs in
      let seen_uint :=
        existsb (fun x => match x with
                          | Some (Some n) => (INT64_MAX <? n)%Z
                          | _ => false
                          end) xs in
      if seen_uint && (seen_sint || seen_null) then UConflict
      else if seen_sint then USigned
      else UInts (map (fun x => match x with Some (Some n) => n | _ => 0%Z end) xs)
  | Overflow => UOverflow
  | Invalid => UInvalid
  end.

Definition strings (vs : list cell) : column :=
  Objects (map (fun v => match v with Some s => OStr s | None => ONaN end) vs).

Definition infer_after_int (vs : list cell) : column :=
  match try_each to_double vs with
  | Converted xs => Floats xs
  | _ =>
      match try_each to_boolean vs with
      | Converted bs =>
          match all_present bs with
          | Some bs' => Bools bs'
          | None =>
              Objects (map (fun b => match b with Some b' => OBool b' | None => ONaN end)
                           bs)
          end
      | _ => strings vs
      end
  end.

Definition infer (vs : list cell) : column :=
  match try_each str_to_int64 vs with
  | Converted xs =>
      match all_present xs with
      | Some zs => Ints zs
      | None => Floats (map (option_map (fun z => Finite z 0)) xs)
      end
  | Overflow =>
      match try_uint64 vs with
      | UInts zs => Ints zs
      | UInvalid => infer_after_int vs
      | UConflict | USigned | UOverflow => strings vs
      end
  | Invalid => infer_after_int vs
  end.

(** *** Casts to the integer types *)

Definition int_bits (d : dtype) : option Z :=
  match d with
  | Int8 => Some 8%Z | Int16 => Some 16%Z | Int32 => Some 32%Z
  | Int64 => Some 64%Z | Object => None
  end.

(** A C cast to a signed integer of [bits] bits: the value modulo
    [2^bits], in [-2^(bits-1), 2^(bits-1)). *)
Definition wrap (bits z : Z) : Z :=
  ((z + 2 ^ (bits - 1)) mod 2 ^ bits - 2 ^ (bits - 1))%Z.

Definition in_range (bits z : Z) : bool :=
  (- 2 ^ (bits - 1) <=? z)%Z && (z <? 2 ^ (bits - 1))%Z.

(** The cell of an integer after a cast. *)
Definition int_cell (bits z : Z) : cell := Some (Py.str_of_int (wrap bits z)).

(** A finite float cut to an integer, towards zero. *)
Definition truncate (x : number) : option Z :=
  match x with
  | Finite m e =>
      Some (if (0 <=? e)%Z then (m * 10 ^ e)%Z else Z.quot m (10 ^ (- e)))
  | Infinity _ => None
  end.

Definition is_integral (x : number) : bool :=
  match x with
  | Finite m e => (0 <=? e)%Z || (Z.rem m (10 ^ (- e)) =? 0)%Z
  | Infinity _ => false
  end.

(** The floats of a column as integers, when none is NaN or infinite. *)
Fixpoint truncate_all (xs : list (option number)) : option (list Z) :=
  match xs with
  | [] => Some []
  | Some x :: rest =>
      match truncate x, truncate_all rest with
      | Some z, Some zs => Some (z :: zs)
      | _, _ => None
      end
  | None :: _ => None
  end.

Fixpoint map_outcome {A B : Type} (f : A -> outcome B) (xs : list A)
  : outcome (list B) :=
  match xs with
  | [] => Ok []
  | x :: rest =>
      match f x with
      | Raised e => Raised e
      | Ok y =>
          match map_outcome f rest with
          | Raised e => Raised e
          | Ok ys => Ok (y :: ys)
          end
      end
  end.

(** One value of an object column as an integer: [int] of a text, which
    must fit the C [long] to be stored; NaN is no integer. *)
Definition cast_object (bits : Z) (o : object) : outcome cell :=
  match o with
  | ONaN => Raised ValueError
  | OBool b => Ok (int_cell bits (if b then 1 else 0))
  | OStr s =>
      match py_int s with
      | None => Raised ValueError
      | Some z => if in_int64 z then Ok (int_cell bits z) else Raised OverflowError
      end
  end.

(** [astype] of one column to a signed integer type.  Integers wrap
    around, without an error.  Floats are cut towards zero, unless one of
    them is NaN or infinite: a [ValueError]; beyond the range of the type
    the C cast of a float is left to the platform, the model wraps.  The
    values of an object column are converted one by one. *)
Definition cast_column (bits : Z) (c : column) : outcome (list cell) :=
  match c with
  | Ints zs => Ok (map (int_cell bits) zs)
  | Floats xs =>
      match truncate_all xs with
      | Some zs => Ok (map (int_cell bits) zs)
      | None => Raised ValueError
      end
  | Bools bs => Ok (map (fun b : bool => int_cell bits (if b then 1 else 0)) bs)
  | Objects os => map_outcome (cast_object bits) os
  end.

Definition cast_values (d : option dtype) (vs : list cell) : outcome (list cell) :=
  match d with
  | Some d =>
      match int_bits d with
      | Some bits => cast_column bits (infer vs)
      | None => Ok vs
      end
  | None => Ok vs
  end.

(** The conversion of a column by the reader, told an integer type
    ([_convert_tokens] with a [dtype]): the fields are read as 64-bit
    integers and must fit the type, and a missing value is an error; when
    a field is no integer the column is read with the type inferred, and
    converted if that loses nothing. *)
Definition reader_cast (bits : Z) (vs : list cell) : outcome (list cell) :=
  let checked zs :=
    if forallb (in_range bits) zs then Ok (map (int_cell bits) zs)
    else Raised ValueError in
  let fallback :=
    match infer vs with
    | Ints zs => checked zs
    | Floats xs =>
        if forallb (fun x => match x with Some x' => is_integral x' | None => false end) xs
        then match truncate_all xs with
             | Some zs => checked zs
             | None => Raised ValueError
             end
        else Raised ValueError
    | Bools bs => Ok (map (fun b : bool => int_cell bits (if b then 1 else 0)) bs)
    | Objects os =>
        match map_outcome (cast_object bits) os with
        | Ok _ => Raised ValueError
        | Raised e => Raised e
        end
    end in
  match try_each str_to_int64 vs with
  | Converted xs =>
      match all_present xs with
      | Some zs => checked zs
      | None => Raised ValueError
      end
  | Overflow =>
      match try_uint64 vs with
      | UInts zs =>
          if (bits =? 64)%Z then Ok (map (fun z => Some (Py.str_of_int z)) zs)
          else Raised ValueError
      | UConflict => Raised ValueError
      | USigned | UOverflow => Raised OverflowError
      | UInvalid => fallback
      end
  | Invalid => fallback
  end.

Definition reader_cast_values (d : option dtype) (vs : list cell)
  : outcome (list cell) :=
  match d with
  | Some d =>
      match int_bits d with
      | Some bits => reader_cast bits vs
      | None => Ok vs
      end
  | None => Ok vs
  end.

Definition lookup_dtype (m : list (text * dtype)) (name : text) : option dtype :=
  option_map snd (find (fun kv => text_eqb (fst kv) name) m).

(** The type the reader converts a column to: with one type, every
    column; with a mapping, the columns it names. *)
Definition reader_dtype (dt : option dtype_arg) (name : option text) : option dtype :=
  match dt with
  | None => None
  | Some (DtAll d) => Some d
  | Some (DtMap m) =>
      match name with
      | Some n => lookup_dtype m n
      | None => None
      end
  end.

Definition header_name (i : nat) (field : text) : text :=
  match field with
  | [] => py "Unnamed: " ++ Py.str_of_nat i
  | _ => field
  end.

Fixpoint mapi_from {A B : Type} (f : nat -> A -> B) (i : nat) (xs : list A) : list B :=
  match xs with
  | [] => []
  | x :: rest => f i x :: mapi_from f (S i) rest
  end.

Fixpoint remove_nth {A : Type} (k : nat) (xs : list A) : list A :=
  match xs, k with
  | [], _ => []
  | _ :: rest, 0 => rest
  | x :: rest, S k' => x :: remove_nth k' rest
  end.

Definition column_at (j : nat) (rows : list (list text)) : list cell :=
  map (fun r => to_cell (nth j r [])) rows.

Definition mk_frame (name : option text) (idx : list label)
  (cs : list (text * list cell)) : frame :=
  {| index_name := name; index_tz := None; index := idx; cols := cs;
     attrs_source := None |}.

(** The frame of the lines read.  The first line names the columns.  The
    first data line fixes the width of the table; the fields it has beyond
    the header (an implicit index) become the index.  With [index_col] the
    column at that position is the index, under its header name. *)
Definition build_frame (index_col : option nat) (dt : option dtype_arg)
  (header : list text) (data : list (list text)) : outcome frame :=
  let names := mapi_from header_name 0 header in
  let h := List.length header in
  let width := match data with [] => h | r :: _ => List.length r end in
  let leading := width - h in
  let name_at j := if j <? leading then None else nth_error names (j - leading) in
  match map_outcome
          (fun j => reader_cast_values (reader_dtype dt (name_at j))
                     (column_at j data))
          (seq 0 width) with
  | Raised e => Raised e
  | Ok values =>
      if 0 <? leading then
        match index_col with
        | Some k =>
            if negb (leading =? 1) then Raised ParserError
            else if width <=? k then Raised KeyError
            else Ok (mk_frame None (map LVal (nth k values []))
                       (combine names (remove_nth k values)))
        | None =>
            let idx :=
              if leading =? 1 then map LVal (nth 0 values [])
              else map (fun i => LTuple (map (fun vs => nth i vs None)
                                            (firstn leading values)))
                       (seq 0 (List.length data)) in
            Ok (mk_frame None idx (combine names (skipn leading values)))
        end
      else
        match index_col with
        | None =>
            Ok (mk_frame None (map LPos (seq 0 (List.length data)))
                  (combine names values))
        | Some k =>
            match nth_error header k with
            | None => Raised IndexError
            | Some field =>
                Ok (mk_frame (match field with [] => None | _ => Some field end)
                      (map LVal (nth k values []))
                      (remove_nth k (combine names values)))
            end
        end
  end.

(** A warning: its category, and the line it tells of.  The reader
    issues a [ParserWarning] for a line it skips; the [DtypeWarning] of a
    long block read in several chunks is outside the model. *)
Inductive category : Type := ParserWarning | DtypeWarning.

Record warning : Type := { w_category : category; w_line : bad_line }.

Definition category_eqb (a b : category) : bool :=
  match a, b with
  | ParserWarning, ParserWarning | DtypeWarning, DtypeWarning => true
  | _, _ => false
  end.

Definition skipped_line (b : bad_line) : warning :=
  {| w_category := ParserWarning; w_line := b |}.

(** [pd.read_csv(StringIO(s), sep=sep, header=0, engine=c,
    on_bad_lines=warn, index_col=.., dtype=..)]: the warnings it emits
    (one [ParserWarning] for each skipped line) and its result. *)
Definition read_csv (sep : ascii) (index_col : option nat)
  (dt : option dtype_arg) (s : text) : list warning * outcome frame :=
  match tokenize sep s with
  | Raised e => ([], Raised e)
  | Ok t =>
      (map skipped_line (t_warn t),
       match t_lines t with
       | [] => Raised EmptyDataError
       | header :: data =>
           match build_frame index_col dt header data with
           | Raised e => Raised e
           | Ok df => Ok df
           end
       end)
  end.

Definition with_cols (df : frame) (cs : list (text * list cell)) : frame :=
  {| index_name := index_name df; index_tz := index_tz df; index := index df;
     cols := cs; attrs_source := attrs_source df |}.

(** [df.dropna(axis=1, how=all)]: a column is kept when one of its values
    is present. *)
Definition dropna_columns (df : frame) : frame :=
  with_cols df (filter (fun c => existsb is_some (snd c)) (cols df)).

(** [df.filter(regex=r)]: a column is kept when [re.search(r, label)]. *)
Definition filter_regex (r : Re.regex) (df : frame) : frame :=
  with_cols df (filter (fun c => Re.search r (fst c)) (cols df)).

(** *** [pd.concat(objs, join=outer)] along the rows *)

Definition option_text_eqb (a b : option text) : bool :=
  match a, b with
  | Some x, Some y => text_eqb x y
  | None, None => true
  | _, _ => false
  end.

Fixpoint not_none {A : Type} (objs : list (option A)) : list A :=
  match objs with
  | [] => []
  | Some x :: rest => x :: not_none rest
  | None :: rest => not_none rest
  end.

Definition mem (c : text) (cs : list text) : bool := existsb (text_eqb c) cs.

(** The union of the column labels, each at its first appearance. *)
Definition union_columns (fs : list frame) : list text :=
  fold_left
    (fun acc df => acc ++ filter (fun c => negb (mem c acc)) (columns df))
    fs [].

(** The values of column [c] in [df]; missing values when [df] has no such
    column. *)
Definition values_of (c : text) (df : frame) : list cell :=
  match find (fun p => text_eqb (fst p) c) (cols df) with
  | Some p => snd p
  | None => repeat None (n_rows df)
  end.

Definition shared (f : frame -> option text) (fs : list frame) : option text :=
  match fs with
  | [] => None
  | df :: rest =>
      if forallb (fun g => option_text_eqb (f g) (f df)) rest then f df else None
  end.

Definition concat (objs : list (option frame)) : outcome frame :=
  match objs with
  | [] => Raised ValueError         (* No objects to concatenate *)
  | _ =>
      match not_none objs with
      | [] => Raised ValueError     (* All objects passed were None *)
      | fs =>
          Ok {| index_name := shared index_name fs;
                index_tz := shared index_tz fs;
                index := flat_map index fs;
                cols := map (fun c => (c, flat_map (values_of c) fs))
                            (union_columns fs);
                attrs_source := shared attrs_source fs |}
      end
  end.

(** [df.astype(dt)]: every column, or the columns a mapping names; a
    name that is no column raises [KeyError]. *)
Definition astype (dt : dtype_arg) (df : frame) : outcome frame :=
  let cast name vs :=
    match dt with
    | DtAll d => cast_values (Some d) vs
    | DtMap m => cast_values (lookup_dtype m name) vs
    end in
  let known :=
    match dt with
    | DtAll _ => true
    | DtMap m => forallb (fun kv => mem (fst kv) (columns df)) m
    end in
  if known then
    match map_outcome
            (fun c => match cast (fst c) (snd c) with
                      | Ok vs => Ok (fst c, vs)
                      | Raised e => Raised e
                      end)
            (cols df) with
    | Ok cs => Ok (with_cols df cs)
    | Raised e => Raised e
    end
  else Raised KeyError.

(** *** Time zones and the time index *)

(** A zone maps a wall-clock time (nanoseconds) to the instant it denotes,
    or to nothing when that wall-clock time is ambiguous or does not exist
    in the zone. *)
Record tzinfo : Type := { utc_of_wall : Z -> option Z }.

Definition NS_PER_HOUR : Z := 3600 * 10 ^ 9.

Definition fixed_offset (hours : Z) : tzinfo :=
  {| utc_of_wall := fun w => Some (w - hours * NS_PER_HOUR)%Z |}.

(** The fixed zones of the time-zone database, with their offsets from UTC
    in hours: [Etc/GMT-h] is [h] hours ahead of UTC (1 to 14), [Etc/GMT+h]
    is [h] hours behind (1 to 12). *)
Definition fixed_zones : list (text * Z) :=
  [(py "UTC", 0%Z); (py "Etc/UTC", 0%Z); (py "Etc/GMT", 0%Z);
   (py "Etc/GMT0", 0%Z); (py "Etc/GMT-0", 0%Z); (py "Etc/GMT+0", 0%Z)]
  ++ map (fun h => (py "Etc/GMT-" ++ Py.str_of_nat h, Z.of_nat h)) (seq 1 14)
  ++ map (fun h => (py "Etc/GMT+" ++ Py.str_of_nat h, (- Z.of_nat h)%Z)) (seq 1 12).

Definition fixed_zone_hours (name : text) : option Z :=
  option_map snd (find (fun kv => text_eqb (fst kv) name) fixed_zones).

Section Datetime.

(** The zones with daylight-saving rules, by name. *)
Variable tzdb : text -> option tzinfo.

(** The wall-clock time a text denotes under a format ([None]: the format
    is inferred), or nothing when it cannot be parsed. *)
Variable strptime : option text -> text -> option Z.

Definition zoneinfo (name : text) : option tzinfo :=
  match fixed_zone_hours name with
  | Some h => Some (fixed_offset h)
  | None => tzdb name
  end.

(** [pd.to_datetime(index, format=fmt, errors=coerce)], one label: what
    cannot be parsed becomes NaT. *)
Definition to_datetime (fmt : option text) (l : label) : outcome (option Z) :=
  match l with
  | LVal (Some s) => Ok (strptime fmt s)
  | LVal None => Ok None
  | LPos i => Ok (Some (Z.of_nat i))
  | LTimestamp t => Ok t
  | LTuple _ => Raised TypeError
  end.

(** [pd.DatetimeIndex(values, tz=tz)]: each wall-clock time is localized
    in the zone; an ambiguous or non-existent time raises. *)
Definition localize (z : tzinfo) (w : option Z) : outcome (option Z) :=
  match w with
  | None => Ok None
  | Some t =>
      match utc_of_wall z t with
      | Some u => Ok (Some u)
      | None => Raised InvalidTimeError
      end
  end.

(** [pd.DatetimeIndex(pd.to_datetime(df.index, format=fmt, errors=coerce),
    tz=tz, name=df.index.name).tz_convert(target)]: the instants stay, the
    index is shown in [target]. *)
Definition datetime_index (fmt : option text) (tz target : text) (df : frame)
  : outcome frame :=
  match map_outcome (to_datetime fmt) (index df) with
  | Raised e => Raised e
  | Ok walls =>
      match zoneinfo tz with
      | None => Raised UnknownTimeZoneError
      | Some z =>
          match map_outcome (localize z) walls with
          | Raised e => Raised e
          | Ok instants =>
              match zoneinfo target with
              | None => Raised UnknownTimeZoneError
              | Some _ =>
                  Ok {| index_name := index_name df;
                        index_tz := Some target;
                        index := map LTimestamp instants;
                        cols := cols df;
                        attrs_source := attrs_source df |}
              end
          end
      end
  end.

End Datetime.

End Pd.

(** ** Logging, and computations that log and may raise *)

Inductive level : Type := INFO | WARNING | ERROR.

(** The messages of the parser, by their format string, with the
    arguments that fill it. *)
Inductive message : Type :=
| Reading_file (source : text)
| No_header_found (source : text)
| All_empty_data (source : text)
| Unable_to_process_file (source : text) (e : exn)
| Starting_read (n_jobs : Z)
| Done
| All_empty_frames
| Failed_reading_file (source : text) (e : exn)
| Recorded_warning (w : Pd.warning)
| Unable_to_detect_time_zone (source tz : text)
| Failed_converting_data (source : text) (e : exn).

Definition log_record : Type := level * message.

Definition is_error (r : log_record) : bool :=
  match fst r with ERROR => true | _ => false end.

(** A computation: the records it hands to the logger, in order, and its
    value or the exception that leaves it. *)
Definition M (A : Type) : Type := list log_record * outcome A.

Definition ret {A : Type} (a : A) : M A := ([], Ok a).

Definition raise {A : Type} (e : exn) : M A := ([], Raised e).

Definition bind {A B : Type} (m : M A) (k : A -> M B) : M B :=
  match m with
  | (l, Raised e) => (l, Raised e)
  | (l, Ok a) => let (l', r) := k a in (l ++ l', r)
  end.

Definition log (lv : level) (msg : message) : M unit := ([(lv, msg)], Ok tt).

Declare Scope m_scope.
Delimit Scope m_scope with M.
Notation "x <- m ;; k" := (bind m (fun x => k))
  (at level 61, m at next level, right associativity) : m_scope.
Notation "m ;; k" := (bind m (fun _ => k))
  (at level 61, right associativity) : m_scope.
Open Scope m_scope.

Fixpoint map_M {A B : Type} (f : A -> M B) (xs : list A) : M (list B) :=
  match xs with
  | [] => ret []
  | x :: rest => y <- f x ;; ys <- map_M f rest ;; ret (y :: ys)
  end.

(** [for msg in msgs: logger.log(lv, msg)] *)
Fixpoint log_each (lv : level) (msgs : list message) : M unit :=
  match msgs with
  | [] => ret tt
  | msg :: rest => log lv msg ;; log_each lv rest
  end.

(** [with warnings.catch_warnings(category=c, action=ignore, record=True)
    as w]: of the warnings issued in the body, [w] records those of
    another category than [c]. *)
Definition catch_warnings (c : Pd.category) (issued : list Pd.warning)
  : list Pd.warning :=
  filter (fun w => negb (Pd.category_eqb (Pd.w_category w) c)) issued.

(** [try: m  except ValueError: handler] *)
Definition except_ValueError {A : Type} (m : M A) (handler : exn -> M A) : M A :=
  match m with
  | (l, Raised e) =>
      if isinstance_ValueError e
      then let (l', r) := handler e in (l ++ l', r)
      else (l, Raised e)
  | _ => m
  end.

(** ** The parser *)

Module RobustCSVParser.

(** The keyword arguments passed on to [pandas.read_csv]; [None] is a key
    that was not given. *)
Record read_csv_kwargs : Type := {
  index_col : option nat;
  parse_dates : option bool;
  date_format : option text;
  dtype : option Pd.dtype_arg
}.

Definition no_kwargs : read_csv_kwargs :=
  {| index_col := None; parse_dates := None; date_format := None; dtype := None |}.

Record Parser : Type := {
  sep : ascii;
  encoding : text;
  header_regex : option Re.regex;
  header_string : option text;
  csv_kwargs : read_csv_kwargs;
  column_regex : Re.regex;
  process_func : option (Pd.frame -> outcome (option Pd.frame));
  default_tz : text
}.

(** What [filepath_or_buffer] gives: its [str] and the decoded text that
    [read] returns. *)
Record file : Type := { file_name : text; file_content : text }.

(** [x or y] on an optional regular expression: the empty pattern is
    falsy, like [None]. *)
Definition truthy_regex (r : option Re.regex) : option Re.regex :=
  match r with
  | Some x => match Re.re_source x with [] => None | _ => Some x end
  | None => None
  end.

(** [__init__]: the object, and whether the warning about both header
    arguments was issued. *)
Definition __init__ (sep : ascii) (encoding : text) (header_string : option text)
  (header_regex column_regex : option Re.regex)
  (process_func : option (Pd.frame -> outcome (option Pd.frame)))
  (default_tz : text) (kw : read_csv_kwargs) : Parser * bool :=
  ({| sep := sep;
      encoding := encoding;
      header_regex := header_regex;
      header_string := header_string;
      csv_kwargs := kw;
      column_regex := match truthy_regex column_regex with
                      | Some r => r
                      | None => Re.dot
                      end;
      process_func := process_func;
      default_tz := default_tz |},
   is_some header_regex && is_some header_string).

Definition set_header_string (self : Parser) (h : text) : Parser :=
  {| sep := sep self;
     encoding := encoding self;
     header_regex := header_regex self;
     header_string := Some h;
     csv_kwargs := csv_kwargs self;
     column_regex := column_regex self;
     process_func := process_func self;
     default_tz := default_tz self |}.

(** The group of the header pattern: [self.header_regex or
    re.escape(self.header_string)].  With no usable regular expression
    and no header string, [re.escape(None)] raises. *)
Definition header_group (self : Parser) : outcome Re.regex :=
  match truthy_regex (header_regex self) with
  | Some r => Ok r
  | None =>
      match header_string self with
      | Some h => Ok (Re.literal h)
      | None => Raised TypeError
      end
  end.

(** The loop of [parse] over the header offsets: the text between one
    offset and the next, and from the last one to the end ([None]). *)
Fixpoint blocks (data : text) (start_prev : option nat)
  (starts : list (option nat)) : list text :=
  match starts with
  | [] => []
  | start :: rest => Py.slice data start_prev start :: blocks data start rest
  end.

Section WithDatetime.

Variable tzdb : text -> option Pd.tzinfo.
Variable strptime : option text -> text -> option Z.

(** The time zone of a block: from [UTC+h] in the index name, or the
    default with a warning. *)
Definition guess_tz (self : Parser) (source index_name : text) : M text :=
  match Re.search_utc index_name with
  | Some g =>
      ret (py "Etc/GMT" ++ Py.str_of_int (- Py.int_of_digits (tl g)))
  | None =>
      log WARNING (Unable_to_detect_time_zone source (default_tz self)) ;;
      ret (default_tz self)
  end.

(** [_parse_frame], first part: the block is read, its empty columns are
    dropped and its columns filtered, and the warnings recorded on the
    way, those that are no [ParserWarning], are logged; a [ValueError] of
    the reader is logged and answered by [None]. *)
Definition read_block (self : Parser) (data source : text)
  : M (option Pd.frame) :=
  let kw := csv_kwargs self in
  (* parse_dates in csv_kwargs: no dates and no types in the reader *)
  let reader_dtype := if is_some (parse_dates kw) then None else dtype kw in
  match Pd.read_csv (sep self) (index_col kw) reader_dtype data with
  | (_, Raised e) =>
      if isinstance_ValueError e
      then log ERROR (Failed_reading_file source e) ;; ret None
      else raise e
  | (issued, Ok df) =>
      let w := catch_warnings Pd.ParserWarning issued in
      let df1 := Pd.filter_regex (column_regex self) (Pd.dropna_columns df) in
      log_each WARNING (map Recorded_warning w) ;;
      ret (Some df1)
  end.

(** [_parse_frame], the time index: the zone is guessed from the name of
    the index, the labels are parsed, localized in that zone and shown in
    the default zone. *)
Definition localize_index (self : Parser) (source : text) (df : Pd.frame)
  : M Pd.frame :=
  match Pd.index_name df with
  | None => raise TypeError          (* re.search on None *)
  | Some index_name =>
      tz <- guess_tz self source index_name ;;
      match Pd.datetime_index tzdb strptime (date_format (csv_kwargs self)) tz
              (default_tz self) df with
      | Raised e => raise e
      | Ok df1 => ret df1
      end
  end.

(** [_parse_frame], the cast: with [dtype] among the options, the frame is
    cast; a [ValueError] of the cast is logged and answered by [None].
    The warnings filter of the source lets warnings about an overflow
    pass unheard; the integer casts of the model emit none. *)
Definition convert_dtype (self : Parser) (source : text) (df : Pd.frame)
  : M (option Pd.frame) :=
  match dtype (csv_kwargs self) with
  | None => ret (Some df)
  | Some dt =>
      match Pd.astype dt df with
      | Ok df1 => ret (Some df1)
      | Raised e =>
          if isinstance_ValueError e
          then log ERROR (Failed_converting_data source e) ;; ret None
          else raise e
      end
  end.

Definition _parse_frame (self : Parser) (data source : text)
  : M (option Pd.frame) :=
  r <- read_block self data source ;;
  match r with
  | None => ret None
  | Some df =>
      match parse_dates (csv_kwargs self) with
      | Some true =>
          df1 <- localize_index self source df ;;
          convert_dtype self source df1
      | _ => ret (Some df)
      end
  end.

Definition set_source (df : Pd.frame) (source : text) : Pd.frame :=
  {| Pd.index_name := Pd.index_name df; Pd.index_tz := Pd.index_tz df;
     Pd.index := Pd.index df; Pd.cols := Pd.cols df;
     Pd.attrs_source := Some source |}.

(** The header marker in force for a file: the one configured or stored,
    or else the first field of the first line of the text as read. *)
Definition detect_header (self : Parser) (content : text) : Parser :=
  match header_string self, header_regex self with
  | None, None =>
      set_header_string self (Py.split_first (sep self) (Py.readline content))
  | _, _ => self
  end.

(** The end of [parse]: the frames of the blocks are joined, the source is
    recorded, and [process_func] is applied. *)
Definition join_data (self : Parser) (source : text)
  (frames : list (option Pd.frame)) : M (option Pd.frame) :=
  match Pd.concat frames with
  | Raised e =>
      if isinstance_ValueError e
      then log ERROR (All_empty_data source) ;; ret None
      else raise e
  | Ok df0 =>
      let df := set_source df0 source in
      match process_func self with
      | None => ret (Some df)
      | Some func =>
          match func df with
          | Ok r => ret r
          | Raised e =>
              log ERROR (Unable_to_process_file source e) ;; ret None
          end
      end
  end.

(** [parse]: the parser object after the call, and the call itself. *)
Definition parse (self : Parser) (f : file) : Parser * M (option Pd.frame) :=
  let source := file_name f in
  let self := detect_header self (file_content f) in
  let data := Py.replace_nul (file_content f) in
  (self,
   log INFO (Reading_file source) ;;
   match header_group self with
   | Raised e => raise e
   | Ok body =>
       match map fst (Re.finditer (Re.header_pattern body) data) with
       | [] => log ERROR (No_header_found source) ;; ret None
       | start_prev :: starts =>
           frames <- map_M (fun block => _parse_frame self block source)
                       (blocks data (Some start_prev)
                          (map Some starts ++ [None])) ;;
           join_data self source frames
       end
   end).

(** [map(self.parse, filepaths)], consumed in order: each call runs on
    the object as the call before left it. *)
Fixpoint parse_each (self : Parser) (files : list file)
  : Parser * M (list (option Pd.frame)) :=
  match files with
  | [] => (self, ret [])
  | f :: rest =>
      let (self1, m) := parse self f in
      match m with
      | (l, Raised e) => (self1, (l, Raised e))
      | (l, Ok df) =>
          let (self2, m2) := parse_each self1 rest in
          (self2, (df' <- (l, Ok df) ;; dfs <- m2 ;; ret (df' :: dfs)))
      end
  end.

(** A worker of the pool runs [parse] on a pickled copy of the object and
    logs in its own process: the caller sees the result only. *)
Definition parse_in_worker (self : Parser) (f : file) : M (option Pd.frame) :=
  ([], snd (snd (parse self f))).

Definition concat_files (frames : M (list (option Pd.frame)))
  : M (option Pd.frame) :=
  except_ValueError
    (fs <- frames ;;
     match Pd.concat fs with
     | Ok df => ret (Some df)
     | Raised e => raise e
     end)
    (fun _ => log ERROR All_empty_frames ;; ret None).

Definition parse_multifile (self : Parser) (filepaths : list file) (n_jobs : Z)
  : Parser * M (option Pd.frame) :=
  if (1 <? n_jobs)%Z then
    (self,
     log INFO (Starting_read n_jobs) ;;
     frames <- map_M (parse_in_worker self) filepaths ;;
     log INFO Done ;;
     concat_files (ret frames))
  else
    let (self1, frames) := parse_each self filepaths in
    (self1, concat_files frames).

End WithDatetime.

End RobustCSVParser.

(** * The vocabulary of the statements

    The predicates the statements below are written with, and the
    documents, parsers and frames of their examples. *)

Import RobustCSVParser.

Unset Implicit Arguments.

(** Concrete libraries for the examples: no zone beside the fixed ones,
    and a date parser that knows two wall-clock times of 1 January 2020
    (02:00 and 03:00, as nanoseconds since 1970). *)
Definition tzdb_fixed_only : text -> option Pd.tzinfo := fun _ => None.

Definition known_dates : list (text * Z) :=
  [(py "2020-01-01 02:00:00", 1577844000000000000%Z);
   (py "2020-01-01 03:00:00", 1577847600000000000%Z)].

Definition strptime_iso : option text -> text -> option Z :=
  fun _ s => option_map snd (find (fun kv => text_eqb (fst kv) s) known_dates).

Definition parser_of (header : option text) (kw : read_csv_kwargs) : Parser :=
  fst (__init__ "," (py "utf8") header None None None (py "UTC") kw).

(** The document of the example in the specification. *)
Definition example_text : text :=
  py "Time,A,B\nt1,1,2\nt2,3,4\nTime,A,C\nt3,5,6\n".

Definition example_file : file :=
  {| file_name := py "example.csv"; file_content := example_text |}.

Definition headerless_file : file :=
  {| file_name := py "plain.csv"; file_content := py "a,b\n1,2\n" |}.

(** The text at offset [p] is the marker, or a quote character and then
    the marker. *)
Definition header_at (h data : text) (p : nat) : bool :=
  starts_with h (skipn p data)
  || match nth_error data p with
     | Some c => Re.is_quote c && starts_with h (skipn (S p) data)
     | None => false
     end.

(** A match begins at the start of a line: at offset 0 or right after a
    newline. *)
Definition at_line_start (data : text) (p : nat) : Prop :=
  p = 0 \/ nth_error data (p - 1) = Some LF.

(** Splits a conjunction into its parts, and nothing else. *)
Ltac split_all :=
  lazymatch goal with
  | |- _ /\ _ => split; [| split_all]
  | _ => idtac
  end.

Definition with_index_col : read_csv_kwargs :=
  {| index_col := Some 0; parse_dates := None; date_format := None;
     dtype := None |}.

Definition example_block1 : text := py "Time,A,B\nt1,1,2\nt2,3,4\n".
Definition example_block2 : text := py "Time,A,C\nt3,5,6\n".

Definition val (s : string) : Pd.cell := Some (py s).
Definition lab (s : string) : Pd.label := Pd.LVal (Some (py s)).

Definition nul_stripped (f : file) : file :=
  {| file_name := file_name f; file_content := Py.replace_nul (file_content f) |}.

Definition nul_file : file :=
  {| file_name := py "nul.csv"; file_content := py "T\0ime,A\n1,2\n" |}.










Definition utc_plus_2_frame : Pd.frame :=
  {| Pd.index_name := Some (py "Timestamp_UTC+2");
     Pd.index_tz := None;
     Pd.index := [lab "2020-01-01 02:00:00"; Pd.LVal None];
     Pd.cols := [(py "A", [val "1"; val "2"])];
     Pd.attrs_source := None |}.

(** The 64-bit integer a cell holds, if the reader reads it as one. *)
Definition int_value (v : Pd.cell) : option Z :=
  match v with
  | Some field =>
      match Pd.str_to_int64 field with
      | Pd.Converted z => Some z
      | _ => None
      end
  | None => None
  end.

(** A text that [int] reads as an integer beyond 64 bits. *)
Definition beyond_64_bits (v : Pd.cell) : bool :=
  match v with
  | Some field =>
      match Pd.py_int field with
      | Some z => negb (Pd.in_int64 z)
      | None => false
      end
  | None => false
  end.

(** The cell after a cast to [bits] bits. *)
Definition wrapped (bits : Z) (v : Pd.cell) : Pd.cell :=
  match int_value v with
  | Some z => Some (Py.str_of_int (Pd.wrap bits z))
  | None => None
  end.

Definition with_dates_int32 : read_csv_kwargs :=
  {| index_col := Some 0; parse_dates := Some true; date_format := None;
     dtype := Some (Pd.DtAll Pd.Int32) |}.

Definition overflow_block : text :=
  py "T_UTC+2,A\n2020-01-01 02:00:00,3000000000\n".

Definition missing_value_frame : Pd.frame :=
  {| Pd.index_name := Some (py "T");
     Pd.index_tz := Some (py "UTC");
     Pd.index := [Pd.LTimestamp (Some 0%Z); Pd.LTimestamp (Some 1%Z)];
     Pd.cols := [(py "A", [val "1"; None]); (py "B", [val "x"; val "2.5"])];
     Pd.attrs_source := None |}.

Definition not_a_number_frame : Pd.frame :=
  {| Pd.index_name := Some (py "T");
     Pd.index_tz := Some (py "UTC");
     Pd.index := [Pd.LTimestamp (Some 0%Z)];
     Pd.cols := [(py "A", [val "x"])];
     Pd.attrs_source := None |}.

(** A character that neither ends a line nor opens a quoted field. *)
Definition plain_char (c : ascii) : bool :=
  negb (Ascii.eqb c LF) && negb (Ascii.eqb c CR) && negb (Ascii.eqb c DQUOTE).

(** A blank that is not the separator: a line of such characters only is
    skipped as a blank line. *)
Definition blank_char (sep c : ascii) : bool :=
  Pd.is_blank c && negb (Ascii.eqb c sep).

(** A header line: one line without quoting, and not a blank one. *)
Definition header_line (sep : ascii) (line : text) : bool :=
  forallb plain_char line && negb (forallb (blank_char sep) line).

(** The fields of a line, cut at every separator. *)
Fixpoint split_acc (sep : ascii) (cur s : text) : list text :=
  match s with
  | [] => [cur]
  | c :: rest =>
      if Ascii.eqb c sep then cur :: split_acc sep [] rest
      else split_acc sep (cur ++ [c]) rest
  end.

Definition split (sep : ascii) (s : text) : list text := split_acc sep [] s.

(** The tokenizer is inside a line: at the start of a field or in one. *)
Definition in_line (t : Pd.tok) : Prop :=
  Pd.t_state t = Pd.START_FIELD \/ Pd.t_state t = Pd.IN_FIELD.




Definition with_dates_mapping : read_csv_kwargs :=
  {| index_col := Some 0; parse_dates := Some true; date_format := None;
     dtype := Some (Pd.DtMap [(py "A", Pd.Int32)]) |}.

(** ** Text streams and [_FilepathOrBuffer]

    What [parse] is given is a path or a text stream.  For a path the
    class opens the file, with [gzip.open] or with [open]; the file
    system is not modelled, the function chosen is.  A text stream is an
    in-memory one ([io.StringIO], a [TextIOBase]): its text, the position
    of the next read, and whether it was closed.  Every operation on a
    closed stream raises [ValueError]. *)

Module StringIO.

Record t : Type := {
  name : text;      (* str(stream) *)
  getvalue : text;
  tell : nat;
  closed : bool
}.

Definition at_position (fp : t) (p : nat) : t :=
  {| name := name fp; getvalue := getvalue fp; tell := p; closed := closed fp |}.

Definition readline (fp : t) : outcome (text * t) :=
  if closed fp then Raised ValueError
  else
    let line := Py.readline (skipn (tell fp) (getvalue fp)) in
    Ok (line, at_position fp (tell fp + List.length line)).

Definition seek (fp : t) (p : nat) : outcome t :=
  if closed fp then Raised ValueError else Ok (at_position fp p).

Definition read (fp : t) : outcome (text * t) :=
  if closed fp then Raised ValueError
  else Ok (skipn (tell fp) (getvalue fp),
           at_position fp (Nat.max (tell fp) (List.length (getvalue fp)))).

Definition close (fp : t) : t :=
  {| name := name fp; getvalue := getvalue fp; tell := tell fp; closed := true |}.

End StringIO.

Module FilepathOrBuffer.

(** [__init__], for a path: the function that opens it. *)
Inductive open_func : Type := gzip_open | builtin_open.

(** [s.endswith(suffix)] *)
Definition endswith (s suffix : text) : bool :=
  starts_with (rev suffix) (rev s).

Definition open_func_of (filepath : text) : open_func :=
  if endswith filepath (py "gz") then gzip_open else builtin_open.

(** [__init__] and [__enter__], for a text stream: the stream itself. *)
Definition __enter__ (buffer : StringIO.t) : StringIO.t := buffer.

(** [__exit__] *)
Definition __exit__ (fp : StringIO.t) : StringIO.t := StringIO.close fp.

End FilepathOrBuffer.

Section ParseBuffer.

Variable tzdb : text -> option Pd.tzinfo.
Variable strptime : option text -> text -> option Z.

(** The body of the [with] statement of [parse]: the parser object and
    the stream as the body leaves them, and the text read or the
    exception that leaves the body. *)
Definition read_buffer (self : Parser) (fp : StringIO.t)
  : Parser * StringIO.t * outcome text :=
  match header_string self, header_regex self with
  | None, None =>
      match StringIO.readline fp with
      | Raised e => (self, fp, Raised e)
      | Ok (line, fp1) =>
          let self1 := set_header_string self (Py.split_first (sep self) line) in
          match StringIO.seek fp1 0 with
          | Raised e => (self1, fp1, Raised e)
          | Ok fp2 =>
              match StringIO.read fp2 with
              | Raised e => (self1, fp2, Raised e)
              | Ok (s, fp3) => (self1, fp3, Ok s)
              end
          end
      end
  | _, _ =>
      match StringIO.read fp with
      | Raised e => (self, fp, Raised e)
      | Ok (s, fp1) => (self, fp1, Ok s)
      end
  end.

(** [parse] on a text stream: the stream is read inside the [with]
    statement and closed when the statement is left; the text read is
    parsed as [parse] does. *)
Definition parse_buffer (self : Parser) (buffer : StringIO.t)
  : Parser * StringIO.t * M (option Pd.frame) :=
  let source := StringIO.name buffer in
  let '(self1, fp, r) := read_buffer self (FilepathOrBuffer.__enter__ buffer) in
  (self1, FilepathOrBuffer.__exit__ fp,
   match r with
   | Raised e => log INFO (Reading_file source) ;; raise e
   | Ok s =>
       snd (parse tzdb strptime self1 {| file_name := source; file_content := s |})
   end).

End ParseBuffer.

(** ** Further vocabulary *)

(** A text without NUL characters. *)
Definition no_nul (s : text) : bool :=
  forallb (fun c => negb (Ascii.eqb c NUL)) s.

(** The first field of the first line of a text, as [parse] reads it when
    no header is configured. *)
Definition first_field (self : Parser) (content : text) : text :=
  Py.split_first (sep self) (Py.readline content).

(** A header string or a header regular expression is configured, or was
    stored by an earlier call. *)
Definition configured (self : Parser) : bool :=
  is_some (header_string self) || is_some (header_regex self).

Definition set_process_func (self : Parser)
  (func : option (Pd.frame -> outcome (option Pd.frame))) : Parser :=
  {| sep := sep self;
     encoding := encoding self;
     header_regex := header_regex self;
     header_string := header_string self;
     csv_kwargs := csv_kwargs self;
     column_regex := column_regex self;
     process_func := func;
     default_tz := default_tz self |}.

Definition set_dtype (self : Parser) (dt : option Pd.dtype_arg) : Parser :=
  {| sep := sep self;
     encoding := encoding self;
     header_regex := header_regex self;
     header_string := header_string self;
     csv_kwargs := {| index_col := index_col (csv_kwargs self);
                      parse_dates := parse_dates (csv_kwargs self);
                      date_format := date_format (csv_kwargs self);
                      dtype := dt |};
     column_regex := column_regex self;
     process_func := process_func self;
     default_tz := default_tz self |}.

(** The records a batch hands to the logger of the caller before the
    merge: those of the calls of [parse] when they run in the caller,
    the two of [parse_multifile] when they run in a pool. *)
Definition batch_log (tzdb : text -> option Pd.tzinfo)
  (strptime : option text -> text -> option Z)
  (self : Parser) (files : list file) (n_jobs : Z) : list log_record :=
  if (1 <? n_jobs)%Z
  then [(INFO, Starting_read n_jobs); (INFO, Done)]
  else flat_map (fun f => fst (snd (parse tzdb strptime self f))) files.

(** Lines, each ended by a newline. *)
Definition unlines (ls : list text) : text := flat_map (fun l => l ++ [LF]) ls.

(** A line without quoting: no newline, no carriage return and no quote
    character. *)
Definition plain_line (line : text) : bool := forallb plain_char line.

(** A line of blanks, or an empty one: the reader passes over it. *)
Definition blank_line (sep : ascii) (line : text) : bool :=
  forallb (blank_char sep) line.

(** The lines of a block that are not blank, cut into fields. *)
Definition rows_of (sep : ascii) (lines : list text) : list (list text) :=
  map (split sep) (filter (fun l => negb (blank_line sep l)) lines).

(** A row filled up with empty fields to the width [w]. *)
Definition pad (w : nat) (fields : list text) : list text :=
  fields ++ repeat [] (w - List.length fields).

(** The rows the reader keeps of the rows of a block: the header, the
    first row, which may be longer than the header, and of the rows after
    it those that are not longer than these two; a row that is shorter is
    filled up. *)
Definition keep_rows (rows : list (list text)) : list (list text) :=
  match rows with
  | header :: first :: rest =>
      let w := Nat.max (List.length header) (List.length first) in
      header :: map (pad w) (first :: filter (fun r => List.length r <=? w) rest)
  | _ => rows
  end.

(** The tokenizer between two lines. *)
Definition at_record (lines : list (list text)) (n : nat) (w : list Pd.bad_line)
  : Pd.tok :=
  {| Pd.t_state := Pd.START_RECORD; Pd.t_field := []; Pd.t_fields := [];
     Pd.t_lines := lines; Pd.t_ws := []; Pd.t_file_lines := n; Pd.t_warn := w |}.

(** The lines kept and the lines skipped after one more row, as
    [end_line] decides. *)
Definition add_row (lines : list (list text)) (fields : list text)
  : list (list text) :=
  let ex_fields := List.length (last lines []) in
  if (2 <=? List.length lines) && (ex_fields <? List.length fields) then lines
  else lines ++ [if 1 <=? List.length lines then pad ex_fields fields else fields].

Definition add_warning (lines : list (list text)) (n : nat)
  (w : list Pd.bad_line) (fields : list text) : list Pd.bad_line :=
  let ex_fields := List.length (last lines []) in
  if (2 <=? List.length lines) && (ex_fields <? List.length fields)
  then w ++ [{| Pd.bl_line := S n; Pd.bl_expected := ex_fields;
                Pd.bl_saw := List.length fields |}]
  else w.

(** The tokenizer after one more line. *)
Definition read_line (sep : ascii) (t : Pd.tok) (line : text) : Pd.tok :=
  if blank_line sep line
  then at_record (Pd.t_lines t) (S (Pd.t_file_lines t)) (Pd.t_warn t)
  else at_record (add_row (Pd.t_lines t) (split sep line))
                 (S (Pd.t_file_lines t))
                 (add_warning (Pd.t_lines t) (Pd.t_file_lines t) (Pd.t_warn t)
                    (split sep line)).


(** A label with a character that is not a newline. *)
Definition has_visible_char (label : text) : bool :=
  existsb (fun c => negb (Ascii.eqb c LF)) label.

(** The marker [h], or a quote character and [h], stands at offset [p] of
    [s] and ends by offset [e]. *)
Definition marker_within (h s : text) (m : nat * nat) : Prop :=
  let (p, e) := m in
  (starts_with h (skipn p s) = true /\ p + List.length h <= e)
  \/ (exists c, nth_error s p = Some c /\ Re.is_quote c = true
                /\ starts_with h (skipn (S p) s) = true
                /\ S p + List.length h <= e).

(** Matches that follow one another from offset [lo] on without
    overlap. *)
Fixpoint chained (lo : nat) (ms : list (nat * nat)) : Prop :=
  match ms with
  | [] => True
  | (p, e) :: rest => lo <= p /\ p <= e /\ chained e rest
  end.

(** A stream just opened on a text. *)
Definition fresh_stream (name content : text) : StringIO.t :=
  {| StringIO.name := name; StringIO.getvalue := content;
     StringIO.tell := 0; StringIO.closed := false |}.

(** The text a stream still has to give. *)
Definition remaining (fp : StringIO.t) : text :=
  skipn (StringIO.tell fp) (StringIO.getvalue fp).

(** A stream after it was read to its end from position [p] and
    closed. *)
Definition drained (fp : StringIO.t) (p : nat) : StringIO.t :=
  {| StringIO.name := StringIO.name fp;
     StringIO.getvalue := StringIO.getvalue fp;
     StringIO.tell := Nat.max p (List.length (StringIO.getvalue fp));
     StringIO.closed := true |}.

(** The document that a stream gives to [parse] when it is read from its
    start. *)
Definition file_of (fp : StringIO.t) : file :=
  {| file_name := StringIO.name fp; file_content := StringIO.getvalue fp |}.

(** Documents, parsers and frames of the examples. *)
Definition nul_in_data_file : file :=
  {| file_name := py "nul.csv"; file_content := py "Time,A\n1,\02\n" |}.

Definition failing_func : Pd.frame -> outcome (option Pd.frame) :=
  fun _ => Raised UserError.

Definition dates_without_index_col : read_csv_kwargs :=
  {| index_col := None; parse_dates := Some true; date_format := None;
     dtype := None |}.

Definition no_dates_int8 : read_csv_kwargs :=
  {| index_col := None; parse_dates := Some false; date_format := None;
     dtype := Some (Pd.DtAll Pd.Int8) |}.


Definition dated_file : file :=
  {| file_name := py "dated.csv"; file_content := py "Time,A\n1,2\n" |}.


(** * Properties of the parser *)

(** ** The warnings of the reader *)

(** The warnings of the reader are of the category that [_parse_frame]
    ignores: none is recorded. *)
Lemma read_csv_warnings (sep : ascii) (ic : option nat)
  (dt : option Pd.dtype_arg) (s : text) :
  catch_warnings Pd.ParserWarning (fst (Pd.read_csv sep ic dt s)) = [].
Proof.
  unfold Pd.read_csv. destruct (Pd.tokenize sep s) as [t | e]; [| reflexivity].
  cbn [fst]. induction (Pd.t_warn t) as [| b bs IH]; [reflexivity | exact IH].
Qed.

(** So [read_block] logs an error of the reader, or nothing. *)
Lemma read_block_eq (self : Parser) (data source : text) :
  read_block self data source =
  match snd (Pd.read_csv (sep self) (index_col (csv_kwargs self))
               (if is_some (parse_dates (csv_kwargs self)) then None
                else dtype (csv_kwargs self)) data) with
  | Raised e =>
      if isinstance_ValueError e
      then ([(ERROR, Failed_reading_file source e)], Ok None)
      else ([], Raised e)
  | Ok df =>
      ([], Ok (Some (Pd.filter_regex (column_regex self) (Pd.dropna_columns df))))
  end.
Proof.
  unfold read_block.
  pose proof (read_csv_warnings (sep self) (index_col (csv_kwargs self))
                (if is_some (parse_dates (csv_kwargs self)) then None
                 else dtype (csv_kwargs self)) data) as Hw.
  destruct (Pd.read_csv _ _ _ data) as [issued [df | e]]; cbn [fst snd] in *.
  - rewrite Hw. reflexivity.
  - now destruct (isinstance_ValueError e).
Qed.

(** ** The library models on small inputs *)

Example escape_marker :
  Re.escape (py "Time (s)") = py "Time\\ \\(s\\)".
Proof. reflexivity. Qed.

(** An empty match is reported next to the match before it, and the scan
    goes on one character further. *)
Example finditer_empty_matches :
  Re.finditer (Re.header_pattern (Re.literal [])) (py "ab\ncd")
  = [(0, 2); (2, 2); (3, 5); (5, 5)].
Proof. reflexivity. Qed.

(** One match for each line, from the leftmost marker to the end of the
    line, the quote before the marker included. *)
Example finditer_one_match_per_line :
  Re.finditer (Re.header_pattern (Re.literal (py "Time")))
    (py "x,Time,1 Time\n'Time\n")
  = [(2, 13); (14, 19)].
Proof. reflexivity. Qed.

(** A blank line is skipped, a line that is too long is skipped with a
    warning, and a line that is too short is filled up. *)
Example tokenize_lines :
  match Pd.tokenize "," (py "Time,A,B\nt1,1,2\n\n  \nt2,3,4,5\nt3,7\n") with
  | Ok t => Some (Pd.t_lines t, Pd.t_warn t)
  | Raised _ => None
  end
  = Some ([[py "Time"; py "A"; py "B"]; [py "t1"; py "1"; py "2"];
           [py "t3"; py "7"; []]],
          [{| Pd.bl_line := 5; Pd.bl_expected := 3; Pd.bl_saw := 4 |}]).
Proof. reflexivity. Qed.

(** A quoted field keeps the separator and a doubled quote. *)
Example tokenize_quoted_field :
  match Pd.tokenize ","
          ((DQUOTE :: py "a,b") ++ (DQUOTE :: DQUOTE :: py "c")
           ++ (DQUOTE :: py ",d\n")) with
  | Ok t => Some (Pd.t_lines t)
  | Raised _ => None
  end
  = Some [[py "a,b" ++ (DQUOTE :: py "c"); py "d"]].
Proof. reflexivity. Qed.

(** The end of the text inside a quoted field is an error of the reader. *)
Example tokenize_open_quote :
  Pd.tokenize "," (DQUOTE :: py "Time,A\n") = Raised ParserError.
Proof. reflexivity. Qed.

(** A first data line with one field more than the header: the first
    column is the index, without a name. *)
Example read_csv_implicit_index :
  snd (Pd.read_csv "," None None (py "a,b\n1,2,3\n"))
  = Ok (Pd.mk_frame None [Pd.LVal (Some (py "1"))]
          [(py "a", [Some (py "2")]); (py "b", [Some (py "3")])]).
Proof. reflexivity. Qed.

(** The types the reader infers: integers; floats when a field has a
    decimal point or a value is missing; texts after an integer beyond
    64 bits. *)
Example infer_columns :
  Pd.infer [val "1"; val " -20 "] = Pd.Ints [1; -20]%Z
  /\ Pd.infer [val "1"; None] = Pd.Floats [Some (Pd.Finite 1 0); None]
  /\ Pd.infer [val "1.5"; val "2"]
     = Pd.Floats [Some (Pd.Finite 15 (-1)); Some (Pd.Finite 2 0)]
  /\ Pd.infer [val "True"; val "false"] = Pd.Bools [true; false]
  /\ Pd.infer [val "1"; val "x"] = Pd.Objects [Pd.OStr (py "1"); Pd.OStr (py "x")]
  /\ Pd.infer [val "100000000000000000000"]
     = Pd.Objects [Pd.OStr (py "100000000000000000000")]
  /\ Pd.infer [val "18446744073709551615"] = Pd.Ints [18446744073709551615]%Z.
Proof. split_all; vm_compute; reflexivity. Qed.

(** [astype] of a column: an integer out of the range of the type wraps
    around; a float is cut towards zero; a missing value and a text that
    is no integer raise [ValueError]; an integer beyond 64 bits raises
    [OverflowError]. *)
Example cast_int8_wraps :
  Pd.cast_values (Some Pd.Int8) [val "300"; val "-1"] = Ok [val "44"; val "-1"]
  /\ Pd.cast_values (Some Pd.Int32) [val "1.5"; val "-2.75"; val "1e2"]
     = Ok [val "1"; val "-2"; val "100"]
  /\ Pd.cast_values (Some Pd.Int8) [val "1"; None] = Raised ValueError
  /\ Pd.cast_values (Some Pd.Int8) [val "abc"] = Raised ValueError
  /\ Pd.cast_values (Some Pd.Int32) [val "100000000000000000000"]
     = Raised OverflowError
  /\ Pd.cast_values (Some Pd.Int8) [val "True"; val "false"] = Ok [val "1"; val "0"]
  /\ Pd.cast_values (Some Pd.Object) [val "abc"; None] = Ok [val "abc"; None].
Proof. split_all; vm_compute; reflexivity. Qed.

(** The reader told a type: an integer must fit it, a float must be a
    whole number, and a missing value is an error. *)
Example reader_cast_int8 :
  Pd.reader_cast_values (Some Pd.Int8) [val "100"; val "-1"]
  = Ok [val "100"; val "-1"]
  /\ Pd.reader_cast_values (Some Pd.Int8) [val "300"] = Raised ValueError
  /\ Pd.reader_cast_values (Some Pd.Int8) [val "2.0"] = Ok [val "2"]
  /\ Pd.reader_cast_values (Some Pd.Int8) [val "2.5"] = Raised ValueError
  /\ Pd.reader_cast_values (Some Pd.Int8) [val "1"; None] = Raised ValueError
  /\ Pd.reader_cast_values (Some Pd.Int8) [val "x"] = Raised ValueError.
Proof. split_all; vm_compute; reflexivity. Qed.

(** ** The scanner and the segmentation into blocks *)

Section Scan.

Variable r : Re.regex.
Variable s : text.

Lemma Forall_starts_weaken (p n : nat) (ms : list (nat * nat)) :
  Forall (fun m => S p <= fst m < S p + n) ms ->
  Forall (fun m => p <= fst m < p + S n) ms.
Proof.
  intros H. eapply Forall_impl; [| exact H].
  cbn beta. intros m Hm. lia.
Qed.

(** Every match the scanner reports starts at one of the offsets it was
    asked to try. *)
Lemma scan_starts (n : nat) :
  forall p pos, Forall (fun m => p <= fst m < p + n) (Re.scan r s n p pos).
Proof.
  induction n as [| n IH]; intros p pos; simpl.
  - constructor.
  - destruct (p <? pos).
    + apply Forall_starts_weaken, IH.
    + destruct (Re.match_at r s p false) as [[| l] |].
      * constructor; [simpl; lia |].
        destruct (Re.match_at r s p true) as [l' |].
        -- constructor; [simpl; lia | apply Forall_starts_weaken, IH].
        -- apply Forall_starts_weaken, IH.
      * constructor; [simpl; lia | apply Forall_starts_weaken, IH].
      * apply Forall_starts_weaken, IH.
Qed.

Lemma starts_above (p n : nat) (ms : list (nat * nat)) :
  Forall (fun m => S p <= fst m < S p + n) ms ->
  Forall (le p) (map fst ms).
Proof.
  intros H. apply Forall_map. eapply Forall_impl; [| exact H].
  cbn beta. intros m Hm. lia.
Qed.

(** The starts come in offset order. *)
Lemma scan_sorted (n : nat) :
  forall p pos, StronglySorted le (map fst (Re.scan r s n p pos)).
Proof.
  induction n as [| n IH]; intros p pos; simpl.
  - constructor.
  - destruct (p <? pos); [apply IH |].
    destruct (Re.match_at r s p false) as [[| l] |]; [| | apply IH].
    + simpl. constructor.
      * destruct (Re.match_at r s p true) as [l' |]; [| apply IH].
        simpl. constructor; [apply IH |].
        eapply starts_above, scan_starts.
      * destruct (Re.match_at r s p true) as [l' |].
        -- simpl. constructor; [lia |]. eapply starts_above, scan_starts.
        -- eapply starts_above, scan_starts.
    + simpl. constructor; [apply IH |]. eapply starts_above, scan_starts.
Qed.

Lemma finditer_sorted : StronglySorted le (map fst (Re.finditer r s)).
Proof. apply scan_sorted. Qed.

Lemma finditer_in_text :
  Forall (fun p => p <= List.length s) (map fst (Re.finditer r s)).
Proof.
  apply Forall_map. eapply Forall_impl; [| apply scan_starts].
  cbn beta. intros m Hm. lia.
Qed.

End Scan.

Lemma blocks_length (data : text) (starts : list (option nat)) :
  forall start_prev,
    List.length (blocks data start_prev starts) = List.length starts.
Proof.
  induction starts as [| st rest IH]; intros start_prev; simpl;
    [reflexivity | now rewrite IH].
Qed.

(** Consecutive blocks are glued without a gap: together they are the text
    from the first offset on. *)
Lemma blocks_concat (data : text) (os : list nat) :
  forall o, StronglySorted le (o :: os) ->
    List.concat (blocks data (Some o) (map Some os ++ [None])) = skipn o data.
Proof.
  induction os as [| o1 os IH]; intros o Hs; simpl.
  - apply app_nil_r.
  - inversion Hs as [| ? ? Hs' Hall]; subst.
    rewrite (IH o1 Hs').
    inversion Hall as [| ? ? Hle _]; subst.
    replace (skipn o1 data) with (skipn (o1 - o) (skipn o data))
      by (rewrite skipn_skipn; f_equal; lia).
    apply firstn_skipn.
Qed.

Lemma blocks_nth (data : text) (os : list nat) :
  forall o i, i < List.length os ->
    nth i (blocks data (Some o) (map Some os ++ [None])) [] =
    Py.slice data (Some (nth i (o :: os) 0)) (Some (nth (S i) (o :: os) 0)).
Proof.
  induction os as [| o1 os IH]; intros o i Hi; simpl in Hi; [lia |].
  destruct i as [| i]; [reflexivity |].
  simpl. rewrite IH by lia. reflexivity.
Qed.

Lemma blocks_last (data : text) (os : list nat) :
  forall o,
    nth (List.length os) (blocks data (Some o) (map Some os ++ [None])) [] =
    skipn (last (o :: os) 0) data.
Proof.
  induction os as [| o1 os IH]; intros o; [reflexivity |].
  change (nth (List.length os) (blocks data (Some o1) (map Some os ++ [None])) []
          = skipn (last (o1 :: os) 0) data).
  apply IH.
Qed.

(** C1.  When the header pattern matches a document at the offsets
    [o :: os] (K of them, K >= 1), [parse] runs [_parse_frame] on exactly K
    blocks: the offsets are in order and inside the document, block [i] is
    the text from offset [i] up to offset [i+1], the last block runs from
    the last offset to the end of the document, and the blocks glued together
    are the document from the first match on, so that nothing before the
    first match is in a block. *)
Theorem C1_blocks_partition
  (tzdb : text -> option Pd.tzinfo) (strptime : option text -> text -> option Z)
  (self : Parser) (f : file) (body : Re.regex) (o : nat) (os : list nat) :
  let self' := detect_header self (file_content f) in
  let data := Py.replace_nul (file_content f) in
  let offsets := o :: os in
  let bs := blocks data (Some o) (map Some os ++ [None]) in
  header_group self' = Ok body ->
  map fst (Re.finditer (Re.header_pattern body) data) = offsets ->
  snd (parse tzdb strptime self f) =
    (log INFO (Reading_file (file_name f)) ;;
     frames <- map_M (fun b => _parse_frame tzdb strptime self' b (file_name f)) bs ;;
     join_data self' (file_name f) frames)
  /\ List.length bs = List.length offsets
  /\ StronglySorted le offsets
  /\ Forall (fun p => p <= List.length data) offsets
  /\ (forall i, i < List.length os ->
        nth i bs [] =
        firstn (nth (S i) offsets 0 - nth i offsets 0) (skipn (nth i offsets 0) data))
  /\ nth (List.length os) bs [] = skipn (last offsets 0) data
  /\ firstn o data ++ List.concat bs = data.
Proof.
  intros self' data offsets bs Hg Hoff.
  assert (Hsorted : StronglySorted le offsets)
    by (rewrite <- Hoff; apply finditer_sorted).
  repeat split.
  - unfold parse. cbn [snd]. fold self' data. rewrite Hg, Hoff. reflexivity.
  - unfold bs. rewrite blocks_length, length_app, length_map. simpl. lia.
  - exact Hsorted.
  - rewrite <- Hoff. apply finditer_in_text.
  - intros i Hi. unfold bs. rewrite blocks_nth by exact Hi. reflexivity.
  - apply blocks_last.
  - unfold bs. rewrite blocks_concat by exact Hsorted. apply firstn_skipn.
Qed.

Lemma C1_blocks_partition_witness :
  blocks example_text (Some 0) (map Some [23] ++ [None]) =
    [py "Time,A,B\nt1,1,2\nt2,3,4\n"; py "Time,A,C\nt3,5,6\n"]
  /\ firstn 0 example_text ++
     List.concat (blocks example_text (Some 0) (map Some [23] ++ [None])) =
     example_text.
Proof.
  split; [vm_compute; reflexivity |].
  apply (C1_blocks_partition tzdb_fixed_only strptime_iso
           (parser_of (Some (py "Time")) no_kwargs) example_file
           (Re.literal (py "Time")) 0 [23]);
    vm_compute; reflexivity.
Defined.

(** ** A document without a header *)

Lemma parse_each_cons
  (tzdb : text -> option Pd.tzinfo) (strptime : option text -> text -> option Z)
  (self : Parser) (f : file) (rest : list file) :
  snd (parse_each tzdb strptime self (f :: rest)) =
  (df <- snd (parse tzdb strptime self f) ;;
   dfs <- snd (parse_each tzdb strptime (fst (parse tzdb strptime self f)) rest) ;;
   ret (df :: dfs)).
Proof.
  cbn [parse_each].
  destruct (parse tzdb strptime self f) as [self1 [l [df | e]]];
    cbn [fst snd]; [| reflexivity].
  destruct (parse_each tzdb strptime self1 rest) as [self2 m2].
  reflexivity.
Qed.

(** C4.  When the header pattern has no match in a document, [parse]
    returns [None] and hands the logger one error record (and the record
    of the file being read, at level INFO); nothing is raised, and a batch
    carries on with the files that follow, in the caller as in a worker. *)
Theorem C4_no_header_found
  (tzdb : text -> option Pd.tzinfo) (strptime : option text -> text -> option Z)
  (self : Parser) (f : file) (body : Re.regex) :
  let self' := detect_header self (file_content f) in
  header_group self' = Ok body ->
  Re.finditer (Re.header_pattern body) (Py.replace_nul (file_content f)) = [] ->
  snd (parse tzdb strptime self f) =
    ([(INFO, Reading_file (file_name f)); (ERROR, No_header_found (file_name f))],
     Ok None)
  /\ List.length (filter is_error (fst (snd (parse tzdb strptime self f)))) = 1
  /\ parse_in_worker tzdb strptime self f = ([], Ok None)
  /\ forall rest,
       snd (snd (parse_each tzdb strptime self (f :: rest))) =
       match snd (snd (parse_each tzdb strptime self' rest)) with
       | Ok dfs => Ok (None :: dfs)
       | Raised e => Raised e
       end.
Proof.
  intros self' Hg Hnone.
  assert (Hp : snd (parse tzdb strptime self f) =
               ([(INFO, Reading_file (file_name f));
                 (ERROR, No_header_found (file_name f))], Ok None)).
  { unfold parse. cbn [snd]. fold self'. rewrite Hg, Hnone. reflexivity. }
  repeat split.
  - exact Hp.
  - rewrite Hp. reflexivity.
  - unfold parse_in_worker. rewrite Hp. reflexivity.
  - intros rest. rewrite parse_each_cons, Hp.
    change (fst (parse tzdb strptime self f)) with self'.
    destruct (snd (parse_each tzdb strptime self' rest)) as [l [dfs | e]];
      reflexivity.
Qed.

Lemma C4_no_header_found_witness :
  snd (parse tzdb_fixed_only strptime_iso
         (parser_of (Some (py "Time")) no_kwargs) headerless_file) =
  ([(INFO, Reading_file (py "plain.csv"));
    (ERROR, No_header_found (py "plain.csv"))], Ok None).
Proof.
  apply (C4_no_header_found tzdb_fixed_only strptime_iso
           (parser_of (Some (py "Time")) no_kwargs) headerless_file
           (Re.literal (py "Time")));
    vm_compute; reflexivity.
Defined.

(** ** What the header pattern matches *)

Lemma starts_with_app (pre s : text) :
  starts_with pre s = true <-> exists rest, s = pre ++ rest.
Proof.
  revert s. induction pre as [| a pre IH]; intros s; simpl.
  - split; [intros _; now exists s | reflexivity].
  - destruct s as [| b s].
    + split; [discriminate | intros [rest H]; discriminate].
    + rewrite andb_true_iff, Ascii.eqb_eq, IH. split.
      * intros [-> [rest ->]]. now exists rest.
      * intros [rest H]. injection H as -> ->. split; [reflexivity | now exists rest].
Qed.

Lemma starts_with_length (pre s : text) :
  starts_with pre s = true -> List.length pre <= List.length s.
Proof.
  intros H. apply starts_with_app in H as [rest ->].
  rewrite length_app. lia.
Qed.

Lemma line_rest_le (s : text) : Re.line_rest s <= List.length s.
Proof.
  induction s as [| c s IH]; simpl; [lia |].
  destruct (Ascii.eqb c LF); lia.
Qed.

Lemma line_rest_stops (s : text) :
  Re.line_rest s = List.length s \/ nth_error s (Re.line_rest s) = Some LF.
Proof.
  induction s as [| c s IH]; simpl; [now left |].
  destruct (Ascii.eqb c LF) eqn:E.
  - right. apply Ascii.eqb_eq in E. now subst.
  - destruct IH as [IH | IH]; [left; now rewrite IH | now right].
Qed.

(** [.*$] ends at the end of a line. *)
Lemma eol_spec (s : text) (i : nat) :
  i <= List.length s ->
  i <= Re.eol s i <= List.length s
  /\ (Re.eol s i = List.length s \/ nth_error s (Re.eol s i) = Some LF).
Proof.
  intros Hi. unfold Re.eol.
  pose proof (line_rest_le (skipn i s)) as Hle.
  rewrite length_skipn in Hle.
  split; [lia |].
  destruct (line_rest_stops (skipn i s)) as [H | H].
  - left. rewrite H, length_skipn. lia.
  - right. rewrite nth_error_skipn in H. exact H.
Qed.

Lemma find_first {A : Type} (xs : list A) :
  find (fun _ => true) xs = hd_error xs.
Proof. destruct xs; reflexivity. Qed.

Lemma match_at_first (r : Re.regex) (s : text) (p : nat) :
  Re.match_at r s p false = hd_error (Re.re_lens r s p).
Proof. unfold Re.match_at. simpl. apply find_first. Qed.

Lemma match_at_in (r : Re.regex) (s : text) (p l : nat) (b : bool) :
  Re.match_at r s p b = Some l -> In l (Re.re_lens r s p).
Proof. unfold Re.match_at. intros H. now apply find_some in H. Qed.

(** Every match reported is one the pattern has at its start offset. *)
Lemma scan_matches (r : Re.regex) (s : text) (n : nat) :
  forall p0 pos p e,
    In (p, e) (Re.scan r s n p0 pos) ->
    exists l, In l (Re.re_lens r s p) /\ e = p + l.
Proof.
  induction n as [| n IH]; intros p0 pos p e; simpl; [intros [] |].
  destruct (p0 <? pos); [apply IH |].
  destruct (Re.match_at r s p0 false) as [[| l] |] eqn:E; [| | apply IH].
  - intros [H | H].
    + injection H as <- <-. exists 0. split; [eapply match_at_in, E | lia].
    + destruct (Re.match_at r s p0 true) as [l' |] eqn:E'; [| eapply IH, H].
      destruct H as [H | H]; [| eapply IH, H].
      injection H as <- <-. exists l'. split; [eapply match_at_in, E' | reflexivity].
  - intros [H | H]; [| eapply IH, H].
    injection H as <- <-. exists (S l). split; [eapply match_at_in, E | reflexivity].
Qed.

(** The first offset with a match starts the first match reported. *)
Lemma scan_first (r : Re.regex) (s : text) (n : nat) :
  forall p0 pos p l,
    pos <= p0 -> p0 <= p < p0 + n ->
    (forall q, p0 <= q < p -> Re.match_at r s q false = None) ->
    Re.match_at r s p false = Some l ->
    hd_error (Re.scan r s n p0 pos) = Some (p, p + l).
Proof.
  induction n as [| n IH]; intros p0 pos p l Hpos Hp Hnone Hm; [lia |].
  simpl. destruct (Nat.ltb_spec p0 pos); [lia |].
  destruct (Nat.eq_dec p0 p) as [-> | Hne].
  - rewrite Hm. destruct l; simpl; [f_equal; f_equal; lia | reflexivity].
  - rewrite (Hnone p0) by lia.
    apply IH; [lia | lia | | exact Hm].
    intros q Hq. apply Hnone. lia.
Qed.

Lemma header_literal_lens (h s : text) (p l : nat) :
  p <= List.length s ->
  In l (Re.re_lens (Re.header_pattern (Re.literal h)) s p) ->
  header_at h s p = true
  /\ p + List.length h <= p + l <= List.length s
  /\ (p + l = List.length s \/ nth_error s (p + l) = Some LF).
Proof.
  intros Hp. unfold header_at. cbn [Re.re_lens Re.header_pattern].
  rewrite in_map_iff.
  intros [e [<- He]]. unfold Re.header_ends in He.
  cbn [Re.re_lens Re.literal] in He.
  apply in_app_or in He as [He | He].
  - destruct (nth_error s p) as [c |] eqn:Ec; [| destruct He].
    destruct (Re.is_quote c) eqn:Eq; [| destruct He].
    destruct (starts_with h (skipn (S p) s)) eqn:Es; [| destruct He].
    destruct He as [<- | []].
    pose proof (starts_with_length _ _ Es) as Hlen.
    rewrite length_skipn in Hlen.
    assert (Hp' : p < List.length s) by (apply nth_error_Some; congruence).
    destruct (eol_spec s (S p + List.length h)) as [Hb Hend]; [lia |].
    split; [apply orb_true_r |].
    split; [lia |].
    replace (p + (Re.eol s (S p + List.length h) - p))
      with (Re.eol s (S p + List.length h)) by lia.
    exact Hend.
  - destruct (starts_with h (skipn p s)) eqn:Es; [| destruct He].
    destruct He as [<- | []].
    pose proof (starts_with_length _ _ Es) as Hlen.
    rewrite length_skipn in Hlen.
    destruct (eol_spec s (p + List.length h)) as [Hb Hend]; [lia |].
    split; [reflexivity |].
    split; [lia |].
    replace (p + (Re.eol s (p + List.length h) - p))
      with (Re.eol s (p + List.length h)) by lia.
    exact Hend.
Qed.

Lemma match_at_header_literal (h s : text) (p : nat) :
  Re.match_at (Re.header_pattern (Re.literal h)) s p false = None
  <-> header_at h s p = false.
Proof.
  rewrite match_at_first. unfold header_at.
  cbn [Re.re_lens Re.header_pattern]. unfold Re.header_ends.
  cbn [Re.re_lens Re.literal].
  destruct (starts_with h (skipn p s)), (nth_error s p) as [c |];
    [destruct (Re.is_quote c), (starts_with h (skipn (S p) s)) | |
     destruct (Re.is_quote c), (starts_with h (skipn (S p) s)) | ];
    simpl; split; intros H; try reflexivity; discriminate.
Qed.

(** C7, as stated, fails: the pattern has no anchor at the start of the
    line, and the marker inside a line is a header match. *)
Lemma C7_counterexample :
  ~ (forall (h data : text) (p e : nat),
       In (p, e) (Re.finditer (Re.header_pattern (Re.literal h)) data) ->
       at_line_start data p).
Proof.
  intros H.
  destruct (H (py "Time") (py "x,Time,1\n") 2 8) as [H0 | H0].
  - vm_compute. left. reflexivity.
  - discriminate H0.
  - vm_compute in H0. discriminate H0.
Qed.

(** C7, amended.  The compiled pattern is a character class of the two
    quote characters made optional, a group around the marker, and [.*$];
    the marker is the regular expression as given, or the escaped header
    string.  It is anchored at the end of the line only.  For a literal
    marker [h], every match begins at an offset, anywhere in a line, where
    [h] stands, or a quote character and then [h], and ends at the end of
    that line; and the first such offset of the document begins the first
    match. *)
Theorem C7_header_pattern_matches :
  (forall body : Re.regex,
     Re.re_source (Re.header_pattern body) =
     py "['" ++ [BACKSLASH; DQUOTE] ++ py "]?(" ++ Re.re_source body ++ py ").*$")
  /\ (forall (self : Parser) (r : Re.regex),
        truthy_regex (header_regex self) = Some r -> header_group self = Ok r)
  /\ (forall (self : Parser) (h : text),
        truthy_regex (header_regex self) = None ->
        header_string self = Some h ->
        header_group self = Ok (Re.literal h)
        /\ Re.re_source (Re.literal h) = Re.escape h)
  /\ (forall (h data : text) (p e : nat),
        In (p, e) (Re.finditer (Re.header_pattern (Re.literal h)) data) ->
        header_at h data p = true
        /\ p + List.length h <= e <= List.length data
        /\ (e = List.length data \/ nth_error data e = Some LF))
  /\ (forall (h data : text) (p : nat),
        header_at h data p = true ->
        (forall q, q < p -> header_at h data q = false) ->
        hd_error (map fst (Re.finditer (Re.header_pattern (Re.literal h)) data))
        = Some p).
Proof.
  split; [reflexivity |].
  split; [intros self r H; unfold header_group; now rewrite H |].
  split; [intros self h H Hs; unfold header_group; now rewrite H, Hs |].
  split.
  - intros h data p e Hin.
    assert (Hp : p <= List.length data).
    { pose proof (finditer_in_text (Re.header_pattern (Re.literal h)) data) as Hall.
      rewrite Forall_forall in Hall. apply Hall.
      apply in_map_iff. now exists (p, e). }
    apply scan_matches in Hin as [l [Hl ->]].
    now apply header_literal_lens.
  - intros h data p Hat Hbefore.
    assert (Hp : p <= List.length data).
    { destruct (Nat.le_gt_cases p (List.length data)) as [Hle | Hgt]; [exact Hle |].
      exfalso. unfold header_at in Hat.
      rewrite skipn_all2 in Hat by lia.
      assert (Hn : nth_error data p = None) by (apply nth_error_None; lia).
      rewrite Hn, orb_false_r in Hat.
      destruct h; [| discriminate Hat].
      specialize (Hbefore 0 ltac:(lia)). discriminate Hbefore. }
    destruct (Re.match_at (Re.header_pattern (Re.literal h)) data p false)
      as [l |] eqn:Em.
    + unfold Re.finditer.
      pose proof (scan_first (Re.header_pattern (Re.literal h)) data
                    (S (List.length data)) 0 0 p l) as Hf.
      destruct (Re.scan (Re.header_pattern (Re.literal h)) data
                  (S (List.length data)) 0 0) as [| m ms].
      * discriminate Hf; try lia; try exact Em.
        intros q Hq. apply match_at_header_literal, Hbefore. lia.
      * simpl in *. f_equal.
        assert (Hm : Some m = Some (p, p + l)).
        { apply Hf; try lia; try exact Em.
          intros q Hq. apply match_at_header_literal, Hbefore. lia. }
        injection Hm as ->. reflexivity.
    + apply match_at_header_literal in Em. congruence.
Qed.

Lemma C7_header_pattern_matches_witness :
  header_at (py "Time") (py "x,Time,1\n") 2 = true
  /\ 2 + List.length (py "Time") <= 8 <= List.length (py "x,Time,1\n")
  /\ (8 = List.length (py "x,Time,1\n")
      \/ nth_error (py "x,Time,1\n") 8 = Some LF).
Proof.
  destruct C7_header_pattern_matches as (_ & _ & _ & H & _).
  apply (H (py "Time") (py "x,Time,1\n") 2 8).
  vm_compute. left. reflexivity.
Defined.

(** ** The example of the specification *)

(** C2, as stated, fails: with the options the claim lists, nothing makes
    the first column the index.  The merged frame has the positions of the
    rows in their blocks as its index, and [Time] is one of its columns. *)
Lemma C2_counterexample :
  (exists df,
     snd (snd (parse tzdb_fixed_only strptime_iso
                 (parser_of (Some (py "Time")) no_kwargs) example_file))
     = Ok (Some df)
     /\ Pd.index df = [Pd.LPos 0; Pd.LPos 1; Pd.LPos 0]
     /\ Pd.columns df = [py "Time"; py "A"; py "B"; py "C"])
  /\ ~ (exists df,
          snd (snd (parse tzdb_fixed_only strptime_iso
                      (parser_of (Some (py "Time")) no_kwargs) example_file))
          = Ok (Some df)
          /\ Pd.index df = [lab "t1"; lab "t2"; lab "t3"]
          /\ Pd.columns df = [py "A"; py "B"; py "C"]).
Proof.
  split.
  - eexists. split; [vm_compute; reflexivity |]. split; reflexivity.
  - intros [df [H [Hi _]]]. vm_compute in H. injection H as <-.
    discriminate Hi.
Qed.

(** C2, amended.  With the header marker [Time] and the first column
    made the index ([index_col=0] among the options passed on to the
    reader; default separator and column filter, no date parsing), the
    text of the example is cut into two blocks: block 1 has the rows t1,
    t2 and the columns A, B; block 2 has the row t3 and the columns A, C;
    the merged frame has the index t1, t2, t3 and the columns A, B, C,
    where (t1,C), (t2,C) and (t3,B) are missing and every other cell is
    the value of the text. *)
Theorem C2_example_with_index_col
  (tzdb : text -> option Pd.tzinfo) (strptime : option text -> text -> option Z) :
  let self := parser_of (Some (py "Time")) with_index_col in
  blocks example_text (Some 0) (map Some [23] ++ [None])
    = [example_block1; example_block2]
  /\ map fst (Re.finditer (Re.header_pattern (Re.literal (py "Time"))) example_text)
    = [0; 23]
  /\ _parse_frame tzdb strptime self example_block1 (py "example.csv")
    = ret (Some {| Pd.index_name := Some (py "Time");
                   Pd.index_tz := None;
                   Pd.index := [lab "t1"; lab "t2"];
                   Pd.cols := [(py "A", [val "1"; val "3"]);
                               (py "B", [val "2"; val "4"])];
                   Pd.attrs_source := None |})
  /\ _parse_frame tzdb strptime self example_block2 (py "example.csv")
    = ret (Some {| Pd.index_name := Some (py "Time");
                   Pd.index_tz := None;
                   Pd.index := [lab "t3"];
                   Pd.cols := [(py "A", [val "5"]); (py "C", [val "6"])];
                   Pd.attrs_source := None |})
  /\ snd (parse tzdb strptime self example_file)
    = ([(INFO, Reading_file (py "example.csv"))],
       Ok (Some {| Pd.index_name := Some (py "Time");
                   Pd.index_tz := None;
                   Pd.index := [lab "t1"; lab "t2"; lab "t3"];
                   Pd.cols := [(py "A", [val "1"; val "3"; val "5"]);
                               (py "B", [val "2"; val "4"; None]);
                               (py "C", [None; None; val "6"])];
                   Pd.attrs_source := Some (py "example.csv") |})).
Proof.
  intros self. split_all; vm_compute; reflexivity.
Qed.

(** ** NUL characters *)

Lemma replace_nul_idempotent (s : text) :
  Py.replace_nul (Py.replace_nul s) = Py.replace_nul s.
Proof.
  unfold Py.replace_nul. induction s as [| c s IH]; simpl; [reflexivity |].
  destruct (Ascii.eqb c NUL) eqn:E; simpl; [exact IH |].
  rewrite E. simpl. now rewrite IH.
Qed.

Lemma detect_header_configured (self : Parser) (content : text) :
  header_string self <> None \/ header_regex self <> None ->
  detect_header self content = self.
Proof.
  unfold detect_header.
  destruct (header_string self), (header_regex self); intros [H | H];
    try reflexivity; now contradiction H.
Qed.

(** With a header string or a header regular expression configured (or
    stored by an earlier call), a document and its twin without NUL
    characters parse alike. *)
Lemma parse_nul_stripped_configured
  (tzdb : text -> option Pd.tzinfo) (strptime : option text -> text -> option Z)
  (self : Parser) (f : file) :
  header_string self <> None \/ header_regex self <> None ->
  parse tzdb strptime self (nul_stripped f) = parse tzdb strptime self f.
Proof.
  intros H. unfold parse, nul_stripped. cbn [file_name file_content].
  rewrite !(detect_header_configured self _ H), replace_nul_idempotent.
  reflexivity.
Qed.

(** C6, on the code.  With no header configured, the marker is read from
    the first line before the NUL characters are removed from the text:
    for a document with a NUL in its first field the marker keeps the NUL,
    the text does not, no header is found and the result is [None], while
    the twin without NULs parses to a frame. *)
Theorem C6_nul_in_first_field
  (tzdb : text -> option Pd.tzinfo) (strptime : option text -> text -> option Z) :
  let self := parser_of None no_kwargs in
  header_string (fst (parse tzdb strptime self nul_file)) = Some (py "T\0ime")
  /\ file_content (nul_stripped nul_file) = py "Time,A\n1,2\n"
  /\ snd (parse tzdb strptime self nul_file)
     = ([(INFO, Reading_file (py "nul.csv"));
         (ERROR, No_header_found (py "nul.csv"))], Ok None)
  /\ snd (parse tzdb strptime self (nul_stripped nul_file))
     = ([(INFO, Reading_file (py "nul.csv"))],
        Ok (Some {| Pd.index_name := None;
                    Pd.index_tz := None;
                    Pd.index := [Pd.LPos 0];
                    Pd.cols := [(py "Time", [val "1"]); (py "A", [val "2"])];
                    Pd.attrs_source := Some (py "nul.csv") |}))
  /\ snd (parse tzdb strptime self nul_file)
     <> snd (parse tzdb strptime self (nul_stripped nul_file)).
Proof.
  intros self.
  assert (H1 : snd (parse tzdb strptime self nul_file)
     = ([(INFO, Reading_file (py "nul.csv"));
         (ERROR, No_header_found (py "nul.csv"))], Ok None))
    by (vm_compute; reflexivity).
  split_all; try (vm_compute; reflexivity).
  rewrite H1. vm_compute. discriminate.
Qed.

(** ** The stored header marker *)

Section StoredMarker.

Variable tzdb : text -> option Pd.tzinfo.
Variable strptime : option text -> text -> option Z.

Lemma parse_fst (self : Parser) (f : file) :
  fst (parse tzdb strptime self f) = detect_header self (file_content f).
Proof. reflexivity. Qed.

Lemma parse_each_fst_cons (self : Parser) (f : file) (rest : list file) :
  fst (parse_each tzdb strptime self (f :: rest)) =
  match snd (snd (parse tzdb strptime self f)) with
  | Ok _ => fst (parse_each tzdb strptime (fst (parse tzdb strptime self f)) rest)
  | Raised _ => fst (parse tzdb strptime self f)
  end.
Proof.
  cbn [parse_each].
  destruct (parse tzdb strptime self f) as [self1 [l [df | e]]];
    cbn [fst snd]; [| reflexivity].
  destruct (parse_each tzdb strptime self1 rest) as [self2 m2].
  reflexivity.
Qed.

(** Once a marker is configured or stored, every call of a sequential
    batch runs on the same object. *)
Lemma parse_each_stored (self : Parser) (files : list file) :
  header_string self <> None \/ header_regex self <> None ->
  fst (parse_each tzdb strptime self files) = self
  /\ snd (parse_each tzdb strptime self files) =
     map_M (fun g => snd (parse tzdb strptime self g)) files.
Proof.
  intros H. induction files as [| f rest [IHf IHs]]; [split; reflexivity |].
  split.
  - rewrite parse_each_fst_cons, parse_fst, detect_header_configured by exact H.
    destruct (snd (snd (parse tzdb strptime self f))); [exact IHf | reflexivity].
  - rewrite parse_each_cons, parse_fst, detect_header_configured by exact H.
    rewrite IHs. reflexivity.
Qed.








End StoredMarker.


(** ** Integers as texts *)

Lemma pos_lt_pow2_size (p : positive) :
  (N.pos p < 2 ^ N.of_nat (Pos.size_nat p))%N.
Proof.
  induction p as [p IH | p IH |]; cbn [Pos.size_nat];
    rewrite ?Nat2N.inj_succ, ?N.pow_succ_r'; [lia | lia | reflexivity].
Qed.

Lemma digit_char_val (k : nat) :
  k < 10 ->
  Py.is_digit (Py.digit_char k) = true
  /\ Py.digit_val (Py.digit_char k) = Z.of_nat k.
Proof.
  intros Hk. unfold Py.is_digit, Py.digit_val, Py.digit_char.
  rewrite nat_ascii_embedding by lia.
  split; [| f_equal; lia].
  apply andb_true_iff. split; apply Nat.leb_le; lia.
Qed.

(** The digits written for [n] read back as [n]: the rounds allowed are
    enough. *)
Lemma digits_of_N_value (fuel : nat) :
  forall (n : N) (acc : text),
    0 < fuel -> (n < 2 ^ N.of_nat fuel)%N ->
    exists ds,
      Py.digits_of_N_aux fuel n acc = ds ++ acc
      /\ ds <> []
      /\ forallb Py.is_digit ds = true
      /\ Py.int_of_digits ds = Z.of_N n.
Proof.
  induction fuel as [| fuel IH]; intros n acc Hf Hn; [lia |].
  cbn [Py.digits_of_N_aux].
  assert (Hmod : N.to_nat (n mod 10) < 10).
  { pose proof (N.mod_upper_bound n 10 ltac:(lia)). lia. }
  destruct (digit_char_val _ Hmod) as [Hd Hv].
  destruct (N.ltb_spec n 10) as [Hlt | Hge].
  - exists [Py.digit_char (N.to_nat (n mod 10))]. split_all.
    + reflexivity.
    + discriminate.
    + cbn [forallb]. now rewrite Hd.
    + unfold Py.int_of_digits. cbn [fold_left]. rewrite Hv.
      rewrite N.mod_small by exact Hlt. lia.
  - assert (Hfuel : 0 < fuel).
    { destruct fuel; [| lia]. cbn in Hn. lia. }
    assert (Hdiv : (n / 10 < 2 ^ N.of_nat fuel)%N).
    { apply N.Div0.div_lt_upper_bound.
      rewrite Nat2N.inj_succ, N.pow_succ_r' in Hn. lia. }
    destruct (IH (n / 10)%N (Py.digit_char (N.to_nat (n mod 10)) :: acc)
                Hfuel Hdiv) as (ds & Hds & Hne & Hall & Hval).
    exists (ds ++ [Py.digit_char (N.to_nat (n mod 10))]). split_all.
    + rewrite Hds, <- app_assoc. reflexivity.
    + now destruct ds.
    + rewrite forallb_app, Hall. cbn [forallb]. now rewrite Hd.
    + unfold Py.int_of_digits in *. rewrite fold_left_app. cbn [fold_left].
      rewrite Hval, Hv.
      pose proof (N.div_mod n 10 ltac:(lia)). lia.
Qed.

Lemma str_of_N_value (p : positive) :
  exists ds,
    Py.str_of_N (N.pos p) = ds
    /\ ds <> []
    /\ forallb Py.is_digit ds = true
    /\ Py.int_of_digits ds = Z.pos p.
Proof.
  unfold Py.str_of_N.
  destruct (digits_of_N_value (S (N.size_nat (N.pos p))) (N.pos p) [])
    as (ds & Hds & Hne & Hall & Hval).
  - lia.
  - cbn [N.size_nat]. rewrite Nat2N.inj_succ, N.pow_succ_r'.
    pose proof (pos_lt_pow2_size p). lia.
  - exists ds. rewrite Hds, app_nil_r. split_all; auto.
Qed.

(** What [str] writes for a number: digits, one at least, that [int]
    reads back as the number. *)
Lemma str_of_N_digits (n : N) :
  Py.str_of_N n <> []
  /\ forallb Py.is_digit (Py.str_of_N n) = true
  /\ Py.int_of_digits (Py.str_of_N n) = Z.of_N n.
Proof.
  destruct n as [| p].
  - split_all; [discriminate | reflexivity | reflexivity].
  - destruct (str_of_N_value p) as (ds & -> & Hne & Hall & Hval). now split_all.
Qed.

Lemma digit_not_space (c : ascii) :
  Py.is_digit c = true -> Pd.is_space c = false.
Proof.
  unfold Py.is_digit, Pd.is_space. cbv zeta. intros H.
  apply andb_true_iff in H as [H1 H2]. apply Nat.leb_le in H1, H2.
  apply orb_false_iff. split; [apply Nat.eqb_neq; lia |].
  apply andb_false_iff. right. apply Nat.leb_gt. lia.
Qed.

Lemma digit_not_sign (c : ascii) :
  Py.is_digit c = true -> Ascii.eqb c "-" = false /\ Ascii.eqb c "+" = false.
Proof.
  intros H. split.
  - destruct (Ascii.eqb c "-") eqn:E; [| reflexivity].
    apply Ascii.eqb_eq in E. subst. discriminate H.
  - destruct (Ascii.eqb c "+") eqn:E; [| reflexivity].
    apply Ascii.eqb_eq in E. subst. discriminate H.
Qed.

(** A run of digits is read to its end. *)
Lemma digits_of_run (ds rest : text) :
  forallb Py.is_digit ds = true ->
  match rest with c :: _ => Py.is_digit c = false | [] => True end ->
  Pd.digits_of (ds ++ rest) = (ds, rest).
Proof.
  induction ds as [| d ds IH]; intros Hds Hrest.
  - destruct rest as [| c rest]; [reflexivity |].
    cbn [app Pd.digits_of]. now rewrite Hrest.
  - cbn [forallb] in Hds. apply andb_true_iff in Hds as [Hd Hds].
    cbn [app Pd.digits_of]. rewrite Hd, IH by assumption. reflexivity.
Qed.


(** The reader reads digits under a sign as the integer they write, when
    it has 64 bits. *)
Lemma str_to_int64_digits (negative : bool) (ds : text) :
  ds <> [] ->
  forallb Py.is_digit ds = true ->
  Pd.in_int64 (Pd.signed negative (Py.int_of_digits ds)) = true ->
  Pd.str_to_int64 ((if negative then py "-" else []) ++ ds)
  = Pd.Converted (Pd.signed negative (Py.int_of_digits ds)).
Proof.
  intros Hne Hds Hin.
  destruct ds as [| c ds]; [now contradiction Hne |].
  assert (Hc : Py.is_digit c = true)
    by (cbn [forallb] in Hds; now apply andb_true_iff in Hds as [Hc _]).
  pose proof (digits_of_run (c :: ds) [] Hds I) as Hrun.
  rewrite app_nil_r in Hrun.
  assert (E : Pd.sign_of (Pd.lstrip ((if negative then py "-" else []) ++ c :: ds))
              = (negative, c :: ds)).
  { destruct negative; [reflexivity |].
    cbn [app]. unfold Pd.lstrip. cbn [Pd.drop_while].
    rewrite (digit_not_space _ Hc). unfold Pd.sign_of.
    destruct (digit_not_sign _ Hc) as [-> ->]. reflexivity. }
  unfold Pd.str_to_int64. rewrite E, Hrun, Hin. reflexivity.
Qed.

(** What [str] writes for an integer of 64 bits, the reader reads back. *)
Lemma str_to_int64_str_of_int (z : Z) :
  Pd.in_int64 z = true -> Pd.str_to_int64 (Py.str_of_int z) = Pd.Converted z.
Proof.
  intros Hz. destruct z as [| p | p]; [reflexivity | |].
  - destruct (str_of_N_digits (N.pos p)) as (Hne & Hall & Hval).
    pose proof (str_to_int64_digits false (Py.str_of_N (N.pos p)) Hne Hall) as H.
    cbn [Pd.signed app] in H. rewrite Hval in H. now apply H.
  - destruct (str_of_N_digits (N.pos p)) as (Hne & Hall & Hval).
    pose proof (str_to_int64_digits true (Py.str_of_N (N.pos p)) Hne Hall) as H.
    cbn [Pd.signed] in H. rewrite Hval in H. now apply H.
Qed.


(** ** The time zone of a block *)





Lemma int_of_digits_nonneg (ds : text) : (0 <= Py.int_of_digits ds)%Z.
Proof.
  unfold Py.int_of_digits.
  assert (H : forall acc, (0 <= acc)%Z ->
            (0 <= fold_left (fun a c => 10 * a + Py.digit_val c) ds acc)%Z).
  { induction ds as [| c ds IH]; intros acc Hacc; cbn [fold_left];
      [exact Hacc |].
    apply IH. unfold Py.digit_val. lia. }
  apply H. lia.
Qed.









(** ** Sequences of fallible steps *)

Lemma map_outcome_ok {A B : Type} (f : A -> outcome B) (g : A -> B) (xs : list A) :
  (forall x, In x xs -> f x = Ok (g x)) ->
  Pd.map_outcome f xs = Ok (map g xs).
Proof.
  induction xs as [| x xs IH]; intros H; simpl; [reflexivity |].
  rewrite (H x) by now left.
  rewrite IH by (intros y Hy; apply H; now right).
  reflexivity.
Qed.

Lemma map_outcome_raised_in {A B : Type} (f : A -> outcome B) (xs : list A) (e : exn) :
  Pd.map_outcome f xs = Raised e -> exists x, In x xs /\ f x = Raised e.
Proof.
  induction xs as [| x xs IH]; simpl; [discriminate |].
  destruct (f x) as [y | e'] eqn:E.
  - destruct (Pd.map_outcome f xs) as [ys | e'']; [discriminate |].
    intros H. injection H as ->.
    destruct (IH eq_refl) as [x' [Hin Hx']]. exists x'. split; [now right | exact Hx'].
  - intros H. injection H as ->. exists x. split; [now left | exact E].
Qed.


Lemma Forall2_In_l {A B : Type} (R : A -> B -> Prop) (xs : list A) (ys : list B)
  (x : A) :
  Forall2 R xs ys -> In x xs -> exists y, In y ys /\ R x y.
Proof.
  induction 1 as [| x0 y0 xs ys HR _ IH]; intros Hin; [destruct Hin |].
  destruct Hin as [-> | Hin].
  - exists y0. split; [now left | exact HR].
  - destruct (IH Hin) as [y [Hy HRy]]. exists y. split; [now right | exact HRy].
Qed.

(** One step that fails makes the sequence fail. *)
Lemma map_outcome_fails {A B : Type} (f : A -> outcome B) (xs : list A)
  (x : A) (e : exn) :
  In x xs -> f x = Raised e -> exists e', Pd.map_outcome f xs = Raised e'.
Proof.
  intros Hin Hx. induction xs as [| y xs IH]; [destruct Hin |].
  cbn [Pd.map_outcome]. destruct (f y) as [b | e1] eqn:Ey; [| now exists e1].
  destruct Hin as [-> | Hin]; [congruence |].
  destruct (IH Hin) as [e' ->]. now exists e'.
Qed.

(** ** The time index *)


Section TimeIndex.

Variable tzdb : text -> option Pd.tzinfo.
Variable strptime : option text -> text -> option Z.





End TimeIndex.



(** ** The cast after the dates *)

Lemma wrap_in_range (bits z : Z) :
  (0 < bits)%Z ->
  (- 2 ^ (bits - 1) <= z < 2 ^ (bits - 1))%Z ->
  Pd.wrap bits z = z.
Proof.
  intros Hb Hz. unfold Pd.wrap.
  assert (E : (2 ^ bits = 2 * 2 ^ (bits - 1))%Z).
  { replace bits with (Z.succ (bits - 1)) at 1 by lia.
    apply Z.pow_succ_r. lia. }
  rewrite Z.mod_small by lia. lia.
Qed.

Lemma wrap_bounds (bits z : Z) :
  (0 < bits)%Z ->
  (- 2 ^ (bits - 1) <= Pd.wrap bits z < 2 ^ (bits - 1))%Z.
Proof.
  intros Hb. unfold Pd.wrap.
  assert (E : (2 ^ bits = 2 * 2 ^ (bits - 1))%Z).
  { replace bits with (Z.succ (bits - 1)) at 1 by lia.
    apply Z.pow_succ_r. lia. }
  assert (Hpos : (0 < 2 ^ (bits - 1))%Z) by (apply Z.pow_pos_nonneg; lia).
  pose proof (Z.mod_pos_bound (z + 2 ^ (bits - 1)) (2 ^ bits) ltac:(lia)).
  lia.
Qed.

Lemma wrap_in_int64 (bits z : Z) :
  (0 < bits <= 64)%Z -> Pd.in_int64 (Pd.wrap bits z) = true.
Proof.
  intros Hb. pose proof (wrap_bounds bits z ltac:(lia)) as H.
  assert (Hle : (2 ^ (bits - 1) <= 2 ^ 63)%Z)
    by (apply Z.pow_le_mono_r; lia).
  unfold Pd.in_int64, Pd.INT64_MIN, Pd.INT64_MAX.
  apply andb_true_iff. split; apply Z.leb_le; lia.
Qed.

(** *** Columns of integers *)

Lemma try_int64_all (vs : list Pd.cell) :
  (forall v, In v vs -> int_value v <> None) ->
  Pd.try_each Pd.str_to_int64 vs = Pd.Converted (map int_value vs).
Proof.
  induction vs as [| v vs IH]; intros H; [reflexivity |].
  cbn [Pd.try_each map].
  rewrite IH by (intros w Hw; apply H; now right).
  specialize (H v (or_introl eq_refl)).
  destruct v as [s |]; [| now contradiction H].
  cbn [int_value] in *.
  destruct (Pd.str_to_int64 s); [reflexivity | now contradiction H | now contradiction H].
Qed.

Lemma all_present_values (vs : list Pd.cell) :
  (forall v, In v vs -> int_value v <> None) ->
  Pd.all_present (map int_value vs)
  = Some (map (fun v => match int_value v with Some z => z | None => 0%Z end) vs).
Proof.
  induction vs as [| v vs IH]; intros H; [reflexivity |].
  cbn [map Pd.all_present].
  rewrite IH by (intros w Hw; apply H; now right).
  specialize (H v (or_introl eq_refl)).
  destruct (int_value v); [reflexivity | now contradiction H].
Qed.

(** A column of 64-bit integers is cast value by value, and every value
    wraps around. *)
Lemma cast_ints (bits : Z) (vs : list Pd.cell) :
  (forall v, In v vs -> int_value v <> None) ->
  Pd.cast_column bits (Pd.infer vs) = Ok (map (wrapped bits) vs).
Proof.
  intros H. unfold Pd.infer.
  rewrite (try_int64_all vs H), (all_present_values vs H).
  cbn [Pd.cast_column]. rewrite map_map. f_equal.
  apply map_ext_in. intros v Hv. unfold wrapped, Pd.int_cell.
  specialize (H v Hv). destruct (int_value v); [reflexivity | now contradiction H].
Qed.

(** *** A missing value *)

Lemma try_each_none {A : Type} (f : text -> Pd.conversion A)
  (vs : list Pd.cell) (xs : list (option A)) :
  Pd.try_each f vs = Pd.Converted xs -> In None vs -> In None xs.
Proof.
  revert xs. induction vs as [| v vs IH]; intros xs H Hin; [destruct Hin |].
  cbn [Pd.try_each] in H.
  destruct v as [s |].
  - destruct (f s) as [a | |]; try discriminate H.
    destruct (Pd.try_each f vs) as [xs' | |]; try discriminate H.
    injection H as <-.
    destruct Hin as [Hin | Hin]; [discriminate Hin |]. right. now apply IH.
  - destruct (Pd.try_each f vs) as [xs' | |]; try discriminate H.
    injection H as <-. now left.
Qed.

Lemma all_present_none {A : Type} (xs : list (option A)) :
  In None xs -> Pd.all_present xs = None.
Proof.
  induction xs as [| [x |] xs IH]; intros Hin; [destruct Hin | | reflexivity].
  destruct Hin as [Hin | Hin]; [discriminate Hin |].
  cbn [Pd.all_present]. now rewrite IH.
Qed.

Lemma truncate_all_none (xs : list (option Pd.number)) :
  In None xs -> Pd.truncate_all xs = None.
Proof.
  induction xs as [| [x |] xs IH]; intros Hin; [destruct Hin | | reflexivity].
  destruct Hin as [Hin | Hin]; [discriminate Hin |].
  cbn [Pd.truncate_all]. rewrite IH by exact Hin.
  now destruct (Pd.truncate x).
Qed.

(** A field that overflows the signed integers is, for the unsigned
    ones, a signed integer or a value above the signed range. *)
Lemma overflow_token (s : text) (x : option Z) :
  Pd.str_to_int64 s = Pd.Overflow ->
  Pd.str_to_uint64 s = Pd.Converted x ->
  match x with Some n => (Pd.INT64_MAX < n)%Z | None => True end.
Proof.
  unfold Pd.str_to_int64, Pd.str_to_uint64.
  destruct (Pd.lstrip s) as [| c rest]; [discriminate |].
  unfold Pd.sign_of.
  destruct (Ascii.eqb c "-"); [intros _ H; now injection H as <- |].
  assert (Hgen : forall p,
            (let (ds, r) := Pd.digits_of p in
             match ds with
             | [] => Pd.Invalid
             | _ :: _ =>
                 if Pd.in_int64 (Pd.signed false (Py.int_of_digits ds))
                 then match Pd.lstrip r with
                      | [] => Pd.Converted (Pd.signed false (Py.int_of_digits ds))
                      | _ :: _ => Pd.Invalid
                      end
                 else Pd.Overflow
             end) = Pd.Overflow ->
            (let (ds, r) := Pd.digits_of p in
             match ds with
             | [] => Pd.Invalid
             | _ :: _ =>
                 if (Py.int_of_digits ds <=? Pd.UINT64_MAX)%Z
                 then match Pd.lstrip r with
                      | [] => Pd.Converted (Some (Py.int_of_digits ds))
                      | _ :: _ => Pd.Invalid
                      end
                 else Pd.Overflow
             end) = Pd.Converted x ->
            match x with Some n => (Pd.INT64_MAX < n)%Z | None => True end).
  { intros p. destruct (Pd.digits_of p) as [ds r].
    destruct ds as [| d ds]; [discriminate |].
    cbn [Pd.signed].
    pose proof (int_of_digits_nonneg (d :: ds)) as Hpos.
    destruct (Pd.in_int64 (Py.int_of_digits (d :: ds))) eqn:Hin;
      [destruct (Pd.lstrip r); discriminate |].
    intros _.
    destruct (Py.int_of_digits (d :: ds) <=? Pd.UINT64_MAX)%Z; [| discriminate].
    destruct (Pd.lstrip r); [| discriminate].
    intros H. injection H as <-.
    unfold Pd.in_int64 in Hin. apply andb_false_iff in Hin as [Hin | Hin].
    - apply Z.leb_gt in Hin. unfold Pd.INT64_MIN in Hin. lia.
    - now apply Z.leb_gt in Hin. }
  destruct (Ascii.eqb c "+"); apply Hgen.
Qed.

Lemma try_uint64_sees (vs : list Pd.cell) (xs : list (option (option Z))) :
  Pd.try_each Pd.str_to_int64 vs = Pd.Overflow ->
  Pd.try_each Pd.str_to_uint64 vs = Pd.Converted xs ->
  existsb (fun x => match x with Some None => true | _ => false end) xs
  || existsb (fun x => match x with
                       | Some (Some n) => (Pd.INT64_MAX <? n)%Z
                       | _ => false
                       end) xs = true.
Proof.
  revert xs. induction vs as [| v vs IH]; intros xs H1 H2; [discriminate H1 |].
  cbn [Pd.try_each] in H1, H2.
  destruct v as [s |].
  - destruct (Pd.str_to_uint64 s) as [x | |] eqn:Eu; try discriminate H2.
    destruct (Pd.try_each Pd.str_to_uint64 vs) as [xs' | |]; try discriminate H2.
    injection H2 as <-. cbn [existsb].
    destruct (Pd.str_to_int64 s) as [z | |] eqn:Ei; try discriminate H1.
    + destruct (Pd.try_each Pd.str_to_int64 vs) as [zs | |]; try discriminate H1.
      specialize (IH xs' eq_refl eq_refl).
      apply orb_true_iff in IH as [-> | ->]; rewrite ?orb_true_r; reflexivity.
    + pose proof (overflow_token s x Ei Eu) as Hx.
      destruct x as [n |]; [| reflexivity].
      apply Z.ltb_lt in Hx. rewrite Hx. cbn. now rewrite orb_true_r.
  - destruct (Pd.try_each Pd.str_to_uint64 vs) as [xs' | |]; try discriminate H2.
    injection H2 as <-. cbn [existsb].
    destruct (Pd.try_each Pd.str_to_int64 vs) as [zs | |]; try discriminate H1.
    exact (IH xs' eq_refl eq_refl).
Qed.

Lemma strings_fail (bits : Z) (vs : list Pd.cell) :
  In None vs -> exists e, Pd.cast_column bits (Pd.strings vs) = Raised e.
Proof.
  intros Hin. unfold Pd.strings. cbn [Pd.cast_column].
  apply (map_outcome_fails _ _ Pd.ONaN ValueError); [| reflexivity].
  apply in_map_iff. now exists None.
Qed.

Lemma after_int_fails (bits : Z) (vs : list Pd.cell) :
  In None vs -> exists e, Pd.cast_column bits (Pd.infer_after_int vs) = Raised e.
Proof.
  intros Hin. unfold Pd.infer_after_int.
  destruct (Pd.try_each Pd.to_double vs) as [xs | |] eqn:Ed.
  - cbn [Pd.cast_column].
    rewrite (truncate_all_none xs (try_each_none _ _ _ Ed Hin)). now exists ValueError.
  - destruct (Pd.try_each Pd.to_boolean vs) as [bs | |] eqn:Eb;
      try now apply strings_fail.
    rewrite (all_present_none bs (try_each_none _ _ _ Eb Hin)).
    cbn [Pd.cast_column].
    apply (map_outcome_fails _ _ Pd.ONaN ValueError); [| reflexivity].
    apply in_map_iff. exists None. split; [reflexivity |].
    exact (try_each_none _ _ _ Eb Hin).
  - destruct (Pd.try_each Pd.to_boolean vs) as [bs | |] eqn:Eb;
      try now apply strings_fail.
    rewrite (all_present_none bs (try_each_none _ _ _ Eb Hin)).
    cbn [Pd.cast_column].
    apply (map_outcome_fails _ _ Pd.ONaN ValueError); [| reflexivity].
    apply in_map_iff. exists None. split; [reflexivity |].
    exact (try_each_none _ _ _ Eb Hin).
Qed.

(** The cast of a column with a missing value to an integer type
    fails. *)
Lemma cast_missing_fails (bits : Z) (vs : list Pd.cell) :
  In None vs -> exists e, Pd.cast_column bits (Pd.infer vs) = Raised e.
Proof.
  intros Hin. unfold Pd.infer.
  destruct (Pd.try_each Pd.str_to_int64 vs) as [xs | |] eqn:Ei.
  - pose proof (try_each_none _ _ _ Ei Hin) as Hx.
    rewrite (all_present_none xs Hx). cbn [Pd.cast_column].
    rewrite truncate_all_none; [now exists ValueError |].
    apply in_map_iff. now exists None.
  - unfold Pd.try_uint64.
    destruct (Pd.try_each Pd.str_to_uint64 vs) as [xs | |] eqn:Eu.
    + pose proof (try_each_none _ _ _ Eu Hin) as Hx.
      pose proof (try_uint64_sees vs xs Ei Eu) as Hs.
      assert (Hnull : existsb (fun x : option (option Z) => negb (is_some x)) xs = true).
      { apply existsb_exists. now exists None. }
      rewrite Hnull, orb_true_r, andb_true_r.
      destruct (existsb (fun x => match x with
                                  | Some (Some n) => (Pd.INT64_MAX <? n)%Z
                                  | _ => false
                                  end) xs);
        [now apply strings_fail |].
      rewrite orb_false_r in Hs. rewrite Hs. now apply strings_fail.
    + now apply strings_fail.
    + now apply after_int_fails.
  - now apply after_int_fails.
Qed.

(** *** The exceptions of a cast *)

Lemma strings_raise (bits : Z) (vs : list Pd.cell) (e : exn) :
  Pd.cast_column bits (Pd.strings vs) = Raised e ->
  e = ValueError
  \/ (e = OverflowError /\ exists v, In v vs /\ beyond_64_bits v = true).
Proof.
  unfold Pd.strings. cbn [Pd.cast_column]. intros H.
  apply map_outcome_raised_in in H as (o & Ho & He).
  apply in_map_iff in Ho as (v & <- & Hv).
  destruct v as [s |]; cbn [Pd.cast_object] in He;
    [| injection He as <-; now left].
  destruct (Pd.py_int s) as [z |] eqn:Ez; [| injection He as <-; now left].
  destruct (Pd.in_int64 z) eqn:Hz; [discriminate He |].
  injection He as <-. right. split; [reflexivity |].
  exists (Some s). split; [exact Hv |].
  cbn [beyond_64_bits]. now rewrite Ez, Hz.
Qed.

Lemma after_int_raises (bits : Z) (vs : list Pd.cell) (e : exn) :
  Pd.cast_column bits (Pd.infer_after_int vs) = Raised e ->
  e = ValueError
  \/ (e = OverflowError /\ exists v, In v vs /\ beyond_64_bits v = true).
Proof.
  assert (Hbool : forall bs : list (option bool),
            Pd.cast_column bits
              match Pd.all_present bs with
              | Some bs' => Pd.Bools bs'
              | None =>
                  Pd.Objects
                    (map (fun b => match b with
                                   | Some b' => Pd.OBool b'
                                   | None => Pd.ONaN
                                   end) bs)
              end = Raised e ->
            e = ValueError).
  { intros bs. destruct (Pd.all_present bs); cbn [Pd.cast_column];
      [discriminate |].
    intros H. apply map_outcome_raised_in in H as (o & Ho & He).
    apply in_map_iff in Ho as ([b |] & <- & _); cbn in He;
      [discriminate He | now injection He as <-]. }
  unfold Pd.infer_after_int.
  destruct (Pd.try_each Pd.to_double vs) as [xs | |].
  - cbn [Pd.cast_column]. destruct (Pd.truncate_all xs); [discriminate |].
    intros H. injection H as <-. now left.
  - destruct (Pd.try_each Pd.to_boolean vs) as [bs | |];
      try apply strings_raise.
    intros H. left. exact (Hbool bs H).
  - destruct (Pd.try_each Pd.to_boolean vs) as [bs | |];
      try apply strings_raise.
    intros H. left. exact (Hbool bs H).
Qed.

(** The cast of a column to an integer type raises [ValueError], or
    [OverflowError] for a text that writes an integer beyond 64 bits,
    and nothing else. *)
Lemma cast_raises (bits : Z) (vs : list Pd.cell) (e : exn) :
  Pd.cast_column bits (Pd.infer vs) = Raised e ->
  e = ValueError
  \/ (e = OverflowError /\ exists v, In v vs /\ beyond_64_bits v = true).
Proof.
  unfold Pd.infer.
  destruct (Pd.try_each Pd.str_to_int64 vs) as [xs | |].
  - destruct (Pd.all_present xs); cbn [Pd.cast_column]; [discriminate |].
    destruct (Pd.truncate_all _); [discriminate |].
    intros H. injection H as <-. now left.
  - destruct (Pd.try_uint64 vs);
      first [ apply strings_raise | apply after_int_raises | discriminate ].
  - apply after_int_raises.
Qed.

(** C5, as stated, fails: 3000000000 does not fit 32 bits, yet the block
    cast to [int32] is returned, the value wrapped around, and no error is
    logged. *)
Lemma C5_counterexample :
  int_value (val "3000000000") = Some 3000000000%Z
  /\ (2 ^ 31 <= 3000000000)%Z
  /\ _parse_frame tzdb_fixed_only strptime_iso
       (parser_of (Some (py "T")) with_dates_int32) overflow_block (py "f.csv")
     = ([], Ok (Some {| Pd.index_name := Some (py "T_UTC+2");
                        Pd.index_tz := Some (py "UTC");
                        Pd.index := [Pd.LTimestamp (Some 1577836800000000000%Z)];
                        Pd.cols := [(py "A", [val "-1294967296"])];
                        Pd.attrs_source := None |}))
  /\ ~ (exists l,
          _parse_frame tzdb_fixed_only strptime_iso
            (parser_of (Some (py "T")) with_dates_int32) overflow_block (py "f.csv")
          = (l, Ok None)
          /\ existsb is_error l = true).
Proof.
  assert (H : _parse_frame tzdb_fixed_only strptime_iso
       (parser_of (Some (py "T")) with_dates_int32) overflow_block (py "f.csv")
     = ([], Ok (Some {| Pd.index_name := Some (py "T_UTC+2");
                        Pd.index_tz := Some (py "UTC");
                        Pd.index := [Pd.LTimestamp (Some 1577836800000000000%Z)];
                        Pd.cols := [(py "A", [val "-1294967296"])];
                        Pd.attrs_source := None |})))
    by (vm_compute; reflexivity).
  split_all.
  - vm_compute. reflexivity.
  - vm_compute. discriminate.
  - exact H.
  - intros [l [Hl _]]. rewrite H in Hl. discriminate Hl.
Qed.

(** C5, amended.  With a cast configured after the dates, the outcome of
    [astype] decides: a frame is returned as it is, nothing logged; a
    [ValueError] is logged as an error and the frame of the whole block
    is [None]; any other exception leaves the stage.  For a cast of
    every column to a signed integer type of [bits] bits: when every cell
    holds a 64-bit integer, no value fails the cast, a value out of the
    range of the type wraps around modulo [2^bits], the block is kept and
    nothing is logged; when a cell is missing, and no text of the block
    writes an integer beyond 64 bits, the cast raises [ValueError] and the
    block is dropped. *)
Theorem C5_cast_failure_drops_block
  (self : Parser) (source : text) (df : Pd.frame) :
  (forall dt,
     dtype (csv_kwargs self) = Some dt ->
     convert_dtype self source df =
     match Pd.astype dt df with
     | Ok df1 => ([], Ok (Some df1))
     | Raised e =>
         if isinstance_ValueError e
         then ([(ERROR, Failed_converting_data source e)], Ok None)
         else ([], Raised e)
     end)
  /\ (forall d bits,
        dtype (csv_kwargs self) = Some (Pd.DtAll d) ->
        Pd.int_bits d = Some bits ->
        ((forall col v, In col (Pd.cols df) -> In v (snd col) ->
                        int_value v <> None) ->
         convert_dtype self source df =
         ([], Ok (Some (Pd.with_cols df
                          (map (fun col => (fst col, map (wrapped bits) (snd col)))
                               (Pd.cols df))))))
        /\ ((exists col, In col (Pd.cols df) /\ In None (snd col)) ->
            (forall col v, In col (Pd.cols df) -> In v (snd col) ->
                           beyond_64_bits v = false) ->
            convert_dtype self source df =
            ([(ERROR, Failed_converting_data source ValueError)], Ok None)))
  /\ (forall bits v z,
        (0 < bits <= 64)%Z ->
        int_value v = Some z ->
        int_value (wrapped bits v) = Some (Pd.wrap bits z))
  /\ (forall bits z,
        (0 < bits)%Z ->
        (- 2 ^ (bits - 1) <= Pd.wrap bits z < 2 ^ (bits - 1))%Z
        /\ ((- 2 ^ (bits - 1) <= z < 2 ^ (bits - 1))%Z -> Pd.wrap bits z = z))
  /\ Pd.wrap 32 3000000000 = (-1294967296)%Z.
Proof.
  split_all.
  - intros dt Hdt. unfold convert_dtype. rewrite Hdt.
    destruct (Pd.astype dt df) as [df1 | e]; [reflexivity |].
    now destruct (isinstance_ValueError e).
  - intros d bits Hdt Hb. unfold convert_dtype. rewrite Hdt.
    unfold Pd.astype, Pd.cast_values. rewrite Hb. split.
    + intros Hall.
      rewrite (map_outcome_ok _
                 (fun col => (fst col, map (wrapped bits) (snd col)))).
      * reflexivity.
      * intros col Hcol. rewrite cast_ints; [reflexivity |].
        intros v Hv. exact (Hall col v Hcol Hv).
    + intros (col & Hcol & Hnone) Hsmall.
      destruct (cast_missing_fails bits (snd col) Hnone) as [e0 He0].
      destruct (map_outcome_fails
                  (fun c : text * list Pd.cell =>
                     match Pd.cast_column bits (Pd.infer (snd c)) with
                     | Ok vs => Ok (fst c, vs)
                     | Raised e => Raised e
                     end) (Pd.cols df) col e0 Hcol) as [e He];
        [now rewrite He0 |].
      rewrite He.
      apply map_outcome_raised_in in He as (c & Hc & Hraise).
      destruct (Pd.cast_column bits (Pd.infer (snd c))) as [vs | e'] eqn:Ec;
        [discriminate Hraise |].
      injection Hraise as ->.
      apply cast_raises in Ec as [-> | (_ & v & Hv & Hbig)]; [reflexivity |].
      rewrite (Hsmall c v Hc Hv) in Hbig. discriminate Hbig.
  - intros bits v z Hb Hv. unfold wrapped. rewrite Hv.
    cbn [int_value]. now rewrite str_to_int64_str_of_int by now apply wrap_in_int64.
  - intros bits z Hb. split; [now apply wrap_bounds | now apply wrap_in_range].
  - reflexivity.
Qed.

Lemma C5_cast_failure_drops_block_witness :
  convert_dtype (parser_of (Some (py "T")) with_dates_int32) (py "f.csv")
    missing_value_frame
  = ([(ERROR, Failed_converting_data (py "f.csv") ValueError)], Ok None).
Proof.
  destruct (C5_cast_failure_drops_block
              (parser_of (Some (py "T")) with_dates_int32) (py "f.csv")
              missing_value_frame) as (_ & H & _).
  destruct (H Pd.Int32 32%Z eq_refl eq_refl) as [_ Hdrop].
  apply Hdrop.
  - exists (py "A", [val "1"; None]). split; [now left | right; now left].
  - intros col v [<- | [<- | []]] [<- | [<- | []]]; reflexivity.
Defined.

(** A column with a decimal point is a column of floats: the cast cuts
    them, and the block is kept. *)
Example floats_are_cut :
  _parse_frame tzdb_fixed_only strptime_iso
    (parser_of (Some (py "T")) with_dates_int32)
    (py "T_UTC+2,A\n2020-01-01 02:00:00,1.5\n") (py "f.csv")
  = ([], Ok (Some {| Pd.index_name := Some (py "T_UTC+2");
                     Pd.index_tz := Some (py "UTC");
                     Pd.index := [Pd.LTimestamp (Some 1577836800000000000%Z)];
                     Pd.cols := [(py "A", [val "1"])];
                     Pd.attrs_source := None |})).
Proof. vm_compute. reflexivity. Qed.

(** An integer beyond 64 bits makes a column of texts, and the cast of
    such a text raises [OverflowError], which is not caught. *)
Example integer_beyond_64_bits :
  _parse_frame tzdb_fixed_only strptime_iso
    (parser_of (Some (py "T")) with_dates_int32)
    (py "T_UTC+2,A\n2020-01-01 02:00:00,100000000000000000000\n") (py "f.csv")
  = ([], Raised OverflowError).
Proof. vm_compute. reflexivity. Qed.

(** ** A block that is a header line and nothing else *)

Section HeaderLine.

Variable sep : ascii.

Lemma plain_char_tests (c : ascii) :
  plain_char c = true ->
  Ascii.eqb c LF = false /\ Ascii.eqb c CR = false /\ Ascii.eqb c DQUOTE = false.
Proof.
  unfold plain_char.
  destruct (Ascii.eqb c LF), (Ascii.eqb c CR), (Ascii.eqb c DQUOTE);
    simpl; intros H; try discriminate H; auto.
Qed.

Lemma step_in_line (t : Pd.tok) (c : ascii) :
  in_line t -> plain_char c = true ->
  in_line (Pd.step sep t c)
  /\ Pd.t_lines (Pd.step sep t c) = Pd.t_lines t
  /\ Pd.t_warn (Pd.step sep t c) = Pd.t_warn t
  /\ Pd.t_fields (Pd.step sep t c) ++ [Pd.t_field (Pd.step sep t c)]
     = Pd.t_fields t ++ split_acc sep (Pd.t_field t) [c].
Proof.
  intros Hin Hc. apply plain_char_tests in Hc as (Hlf & Hcr & Hq).
  unfold in_line, Pd.step.
  destruct Hin as [E | E]; rewrite E;
    unfold Pd.step_start_field, Pd.step_in_field;
    rewrite Hlf, Hcr, ?Hq; cbn [split_acc];
    destruct (Ascii.eqb c sep); cbn; rewrite ?E, <- ?app_assoc; auto.
Qed.

Lemma split_acc_step (c : ascii) (cur : text) (fs gs : list text) (f g : text) :
  gs ++ [g] = fs ++ split_acc sep cur [c] ->
  forall s, gs ++ split_acc sep g s = fs ++ split_acc sep cur (c :: s).
Proof.
  cbn [split_acc]. intros H s. destruct (Ascii.eqb c sep).
  - change (cur :: [[]]) with ([cur] ++ [[]]) in H.
    rewrite app_assoc in H. apply app_inj_tail in H as [-> ->].
    now rewrite <- app_assoc.
  - apply app_inj_tail in H as [-> ->]. reflexivity.
Qed.

Lemma fold_in_line (s : text) :
  forall t : Pd.tok,
    in_line t -> forallb plain_char s = true ->
    in_line (fold_left (Pd.step sep) s t)
    /\ Pd.t_lines (fold_left (Pd.step sep) s t) = Pd.t_lines t
    /\ Pd.t_warn (fold_left (Pd.step sep) s t) = Pd.t_warn t
    /\ Pd.t_fields (fold_left (Pd.step sep) s t)
       ++ [Pd.t_field (fold_left (Pd.step sep) s t)]
       = Pd.t_fields t ++ split_acc sep (Pd.t_field t) s.
Proof.
  induction s as [| c s IH]; intros t Hin Hs; [cbn; auto |].
  cbn [forallb] in Hs. apply andb_true_iff in Hs as [Hc Hs].
  destruct (step_in_line t c Hin Hc) as (Hin' & Hl & Hw & Hf).
  destruct (IH (Pd.step sep t c) Hin' Hs) as (Hin'' & Hl' & Hw' & Hf').
  cbn [fold_left]. split_all.
  - exact Hin''.
  - now rewrite Hl'.
  - now rewrite Hw'.
  - rewrite Hf'. now apply split_acc_step.
Qed.

Lemma step_blank_line (t : Pd.tok) (c : ascii) :
  Pd.t_state t = Pd.WHITESPACE_LINE -> plain_char c = true ->
  Pd.t_lines (Pd.step sep t c) = Pd.t_lines t
  /\ Pd.t_warn (Pd.step sep t c) = Pd.t_warn t
  /\ if blank_char sep c
     then Pd.t_state (Pd.step sep t c) = Pd.WHITESPACE_LINE
          /\ Pd.t_ws (Pd.step sep t c) = Pd.t_ws t ++ [c]
          /\ Pd.t_fields (Pd.step sep t c) = Pd.t_fields t
     else in_line (Pd.step sep t c)
          /\ Pd.t_fields (Pd.step sep t c) ++ [Pd.t_field (Pd.step sep t c)]
             = Pd.t_fields t ++ split_acc sep (Pd.t_ws t) [c].
Proof.
  intros Hst Hc. apply plain_char_tests in Hc as (Hlf & Hcr & Hq).
  unfold Pd.step. rewrite Hst. unfold Pd.step_whitespace_line.
  rewrite Hlf, Hcr. unfold blank_char.
  destruct (Pd.is_blank c && negb (Ascii.eqb c sep)); [cbn; auto |].
  unfold Pd.step_in_field, in_line. rewrite Hlf, Hcr. cbn [split_acc].
  destruct (Ascii.eqb c sep); cbn; rewrite <- ?app_assoc; auto.
Qed.

(** A line that starts with blanks: the blanks are kept aside until a
    character that is no blank shows that the line is not a blank one. *)
Lemma fold_blank_start (s : text) :
  forall t : Pd.tok,
    Pd.t_state t = Pd.WHITESPACE_LINE ->
    forallb plain_char s = true ->
    forallb (blank_char sep) s = false ->
    in_line (fold_left (Pd.step sep) s t)
    /\ Pd.t_lines (fold_left (Pd.step sep) s t) = Pd.t_lines t
    /\ Pd.t_warn (fold_left (Pd.step sep) s t) = Pd.t_warn t
    /\ Pd.t_fields (fold_left (Pd.step sep) s t)
       ++ [Pd.t_field (fold_left (Pd.step sep) s t)]
       = Pd.t_fields t ++ split_acc sep (Pd.t_ws t) s.
Proof.
  induction s as [| c s IH]; intros t Hst Hs Hb; [discriminate Hb |].
  cbn [forallb] in Hs, Hb. apply andb_true_iff in Hs as [Hc Hs].
  destruct (step_blank_line t c Hst Hc) as (Hl0 & Hw0 & Hstep).
  cbn [fold_left].
  destruct (blank_char sep c) eqn:Eb.
  - destruct Hstep as (Hst' & Hws & Hfs). cbn [andb] in Hb.
    destruct (IH (Pd.step sep t c) Hst' Hs Hb) as (Hin & Hl & Hw & Hf).
    split_all; [exact Hin | now rewrite Hl | now rewrite Hw |].
    rewrite Hf, Hws, Hfs. cbn [split_acc].
    unfold blank_char in Eb. apply andb_true_iff in Eb as [_ Eb].
    apply negb_true_iff in Eb. now rewrite Eb.
  - destruct Hstep as (Hin0 & Hf0).
    destruct (fold_in_line s (Pd.step sep t c) Hin0 Hs) as (Hin & Hl & Hw & Hf).
    split_all; [exact Hin | now rewrite Hl | now rewrite Hw |].
    rewrite Hf. now apply split_acc_step.
Qed.




End HeaderLine.







(** *** A frame without rows in the merge *)

Lemma not_none_app {A : Type} (xs ys : list (option A)) :
  Pd.not_none (xs ++ ys) = Pd.not_none xs ++ Pd.not_none ys.
Proof.
  induction xs as [| [x |] xs IH]; simpl; [reflexivity | | exact IH].
  now rewrite IH.
Qed.




(** *** The stages after the reading, on a frame without rows *)







(** A header line at the end of a file: the file parses to the rows of
    the blocks before it. *)
Example header_only_block_in_file :
  snd (parse tzdb_fixed_only strptime_iso
         (parser_of (Some (py "Time")) with_index_col)
         {| file_name := py "f.csv";
            file_content := py "Time,A\nt1,1\nTime,A,B\n" |})
  = ([(INFO, Reading_file (py "f.csv"))],
     Ok (Some {| Pd.index_name := Some (py "Time");
                 Pd.index_tz := None;
                 Pd.index := [lab "t1"];
                 Pd.cols := [(py "A", [val "1"])];
                 Pd.attrs_source := Some (py "f.csv") |})).
Proof. vm_compute. reflexivity. Qed.


(** * Further properties of the code *)

(** ** Updates of the parser object, and sequences of calls *)


Lemma detect_header_set_dtype (self : Parser) dt (content : text) :
  detect_header (set_dtype self dt) content
  = set_dtype (detect_header self content) dt.
Proof.
  destruct self as [s e [r |] [h |] kw cr pf tz]; reflexivity.
Qed.

Lemma map_M_ext {A B : Type} (f g : A -> M B) (xs : list A) :
  (forall x, In x xs -> f x = g x) -> map_M f xs = map_M g xs.
Proof.
  induction xs as [| x xs IH]; intros H; [reflexivity |].
  cbn [map_M]. rewrite (H x (or_introl eq_refl)), IH; [reflexivity |].
  intros z Hz. apply H. now right.
Qed.


(** ** A document and its twin without NUL characters *)

Lemma readline_replace_nul (s : text) :
  Py.readline (Py.replace_nul s) = Py.replace_nul (Py.readline s).
Proof.
  unfold Py.replace_nul. induction s as [| c s IH]; [reflexivity |].
  cbn [filter Py.readline].
  destruct (Ascii.eqb c NUL) eqn:En; cbn [negb].
  - apply Ascii.eqb_eq in En. subst c.
    change (Ascii.eqb NUL LF) with false. cbn [filter Ascii.eqb negb].
    change (Ascii.eqb NUL NUL) with true. cbn [negb]. exact IH.
  - cbn [Py.readline]. destruct (Ascii.eqb c LF) eqn:El.
    + cbn [filter]. now rewrite En.
    + cbn [filter]. rewrite En. cbn [negb]. now rewrite IH.
Qed.

Lemma split_first_replace_nul (sep : ascii) (s : text) :
  sep <> NUL ->
  Py.split_first sep (Py.replace_nul s) = Py.replace_nul (Py.split_first sep s).
Proof.
  intros Hsep. unfold Py.replace_nul. induction s as [| c s IH]; [reflexivity |].
  cbn [filter Py.split_first].
  destruct (Ascii.eqb c NUL) eqn:En; cbn [negb].
  - apply Ascii.eqb_eq in En. subst c.
    destruct (Ascii.eqb NUL sep) eqn:Es;
      [apply Ascii.eqb_eq in Es; now contradiction Hsep |].
    cbn [filter]. change (Ascii.eqb NUL NUL) with true. cbn [negb]. exact IH.
  - cbn [Py.split_first]. destruct (Ascii.eqb c sep) eqn:Es; [reflexivity |].
    cbn [filter]. rewrite En. cbn [negb]. now rewrite IH.
Qed.

Lemma replace_nul_no_nul (s : text) :
  no_nul s = true -> Py.replace_nul s = s.
Proof.
  unfold no_nul, Py.replace_nul. induction s as [| c s IH]; [reflexivity |].
  cbn [forallb filter]. intros H. apply andb_true_iff in H as [Hc Hs].
  rewrite Hc. now rewrite IH.
Qed.

Lemma configured_spec (self : Parser) :
  configured self = true <->
  header_string self <> None \/ header_regex self <> None.
Proof.
  unfold configured.
  destruct (header_string self), (header_regex self); cbn; split;
    try (intros _; (left; discriminate) || (right; discriminate));
    try reflexivity; try discriminate.
  intros [H | H]; now contradiction H.
Qed.

(** X1.  A document and its twin without NUL characters parse alike, the
    parser object after the call included, when a header string or a
    header regular expression is configured, and also with none, when the
    first field of the first line holds no NUL (the separator not being
    NUL itself). *)
Theorem nul_stripped_twin_parses_alike
  (tzdb : text -> option Pd.tzinfo) (strptime : option text -> text -> option Z)
  (self : Parser) (f : file) :
  configured self = true
  \/ (sep self <> NUL /\ no_nul (first_field self (file_content f)) = true) ->
  parse tzdb strptime self (nul_stripped f) = parse tzdb strptime self f.
Proof.
  intros [Hc | [Hsep Hnn]].
  - apply parse_nul_stripped_configured. now apply configured_spec.
  - destruct (configured self) eqn:Ec.
    + apply parse_nul_stripped_configured. now apply configured_spec.
    + unfold configured in Ec. apply orb_false_iff in Ec as [Hs Hr].
      destruct (header_string self) eqn:Es; [discriminate Hs |].
      destruct (header_regex self) eqn:Er; [discriminate Hr |].
      unfold parse, nul_stripped. cbn [file_name file_content].
      rewrite replace_nul_idempotent.
      assert (E : detect_header self (Py.replace_nul (file_content f))
                  = detect_header self (file_content f)).
      { unfold detect_header. rewrite Es, Er.
        rewrite readline_replace_nul, split_first_replace_nul by exact Hsep.
        unfold first_field in Hnn. now rewrite (replace_nul_no_nul _ Hnn). }
      now rewrite E.
Qed.

(** ** The function applied to the result *)

Lemma detect_header_set_process_func (self : Parser) func (content : text) :
  detect_header (set_process_func self func) content
  = set_process_func (detect_header self content) func.
Proof.
  destruct self as [s e [r |] [h |] kw cr pf tz]; reflexivity.
Qed.

Lemma concat_raises (objs : list (option Pd.frame)) (e : exn) :
  Pd.concat objs = Raised e -> e = ValueError /\ Pd.not_none objs = [].
Proof.
  unfold Pd.concat. destruct objs as [| o objs].
  - intros H. injection H as <-. now split.
  - destruct (Pd.not_none (o :: objs)); [| discriminate].
    intros H. injection H as <-. now split.
Qed.

Section ProcessFunc.

Variable tzdb : text -> option Pd.tzinfo.
Variable strptime : option text -> text -> option Z.

(** X7.  [process_func] is applied once, to the merged frame of the file
    with its source recorded, and to nothing else: where [parse] without
    it raises or returns [None], so does [parse] with it, with the same
    records; where [parse] without it returns a frame, [parse] with it
    returns what the function returns, or, when the function raises,
    [None] with one more error record.  The parser object after the call
    is the same but for the function. *)
Theorem process_func_is_contained
  (self : Parser) (func : Pd.frame -> outcome (option Pd.frame)) (f : file) :
  let plain := set_process_func self None in
  let processing := set_process_func self (Some func) in
  fst (parse tzdb strptime processing f)
  = set_process_func (fst (parse tzdb strptime plain f)) (Some func)
  /\ (forall l e,
        snd (parse tzdb strptime plain f) = (l, Raised e) ->
        snd (parse tzdb strptime processing f) = (l, Raised e))
  /\ (forall l,
        snd (parse tzdb strptime plain f) = (l, Ok None) ->
        snd (parse tzdb strptime processing f) = (l, Ok None))
  /\ (forall l df,
        snd (parse tzdb strptime plain f) = (l, Ok (Some df)) ->
        Pd.attrs_source df = Some (file_name f)
        /\ snd (parse tzdb strptime processing f)
           = match func df with
             | Ok r => (l, Ok r)
             | Raised e =>
                 (l ++ [(ERROR, Unable_to_process_file (file_name f) e)], Ok None)
             end).
Proof.
  intros plain processing.
  split; [unfold parse; cbn [fst]; unfold plain, processing;
          now rewrite !detect_header_set_process_func |].
  unfold parse. cbn [snd]. unfold plain, processing.
  rewrite !detect_header_set_process_func.
  set (s := detect_header self (file_content f)).
  change (header_group (set_process_func s (Some func))) with (header_group s).
  change (header_group (set_process_func s None)) with (header_group s).
  destruct (header_group s) as [body | e0].
  2:{ split_all; intros; cbn in *; try assumption; discriminate. }
  destruct (map fst (Re.finditer (Re.header_pattern body)
                       (Py.replace_nul (file_content f)))) as [| o os].
  { split_all; intros; cbn in *; try assumption; discriminate. }
  change (fun block => _parse_frame tzdb strptime (set_process_func s (Some func))
                         block (file_name f))
    with (fun block => _parse_frame tzdb strptime s block (file_name f)).
  change (fun block => _parse_frame tzdb strptime (set_process_func s None)
                         block (file_name f))
    with (fun block => _parse_frame tzdb strptime s block (file_name f)).
  destruct (map_M (fun block => _parse_frame tzdb strptime s block (file_name f))
              (blocks (Py.replace_nul (file_content f)) (Some o)
                 (map Some os ++ [None]))) as [l1 [frames | e1]].
  2:{ split_all; intros; cbn in *; try assumption; discriminate. }
  cbn [bind log]. unfold join_data. cbn [process_func set_process_func].
  destruct (Pd.concat frames) as [df0 | e2] eqn:Ec.
  - split_all; intros; cbn in *; try discriminate.
    injection H as <- <-. split; [reflexivity |].
    destruct (func (set_source df0 (file_name f))) as [r | e3]; cbn;
      rewrite ?app_nil_r; reflexivity.
  - apply concat_raises in Ec as [-> _].
    split_all; intros; cbn in *; try assumption; discriminate.
Qed.

End ProcessFunc.

(** ** Calls that return *)

Lemma map_M_inv {A B : Type} (f : A -> M B) (xs : list A) :
  forall l ys,
    map_M f xs = (l, Ok ys) ->
    Forall2 (fun x y => exists l', f x = (l', Ok y)) xs ys.
Proof.
  induction xs as [| x xs IH]; intros l ys H.
  - cbn in H. injection H as <- <-. constructor.
  - cbn [map_M] in H. destruct (f x) as [l1 [y | e]] eqn:Ef; [| discriminate H].
    cbn [bind] in H.
    destruct (map_M f xs) as [l2 [ys' | e]] eqn:Em; [| discriminate H].
    cbn in H. injection H as <- <-.
    constructor; [now exists l1 | now apply (IH l2)].
Qed.

Lemma map_M_returns {A B : Type} (f : A -> M B) (xs : list A) :
  (forall x, In x xs -> exists l y, f x = (l, Ok y)) ->
  exists l ys, map_M f xs = (l, Ok ys).
Proof.
  induction xs as [| x xs IH]; intros H; [now exists [], [] |].
  destruct (H x (or_introl eq_refl)) as (l1 & y & Ef).
  destruct IH as (l2 & ys & Em); [intros z Hz; apply H; now right |].
  cbn [map_M]. rewrite Ef. cbn [bind]. rewrite Em. cbn.
  now eexists _, _.
Qed.

Lemma tokenize_raises (sep : ascii) (s : text) (e : exn) :
  Pd.tokenize sep s = Raised e -> e = ParserError.
Proof.
  unfold Pd.tokenize, Pd.handle_eof.
  destruct (Pd.t_state (fold_left (Pd.step sep) s Pd.tok_init));
    intros H; try discriminate H. now injection H as <-.
Qed.

(** Without [index_col] and without a type for the reader, the table of
    the lines read is built without an error, and its index has no
    name. *)
Lemma build_frame_no_index_col (header : list text) (data : list (list text)) :
  exists df,
    Pd.build_frame None None header data = Ok df /\ Pd.index_name df = None.
Proof.
  unfold Pd.build_frame.
  rewrite (map_outcome_ok _ (fun j => Pd.column_at j data))
    by (intros; reflexivity).
  destruct (0 <? _); eexists; split; reflexivity.
Qed.

Lemma read_block_no_index_col (self : Parser) (data source : text) :
  index_col (csv_kwargs self) = None ->
  (parse_dates (csv_kwargs self) = None -> dtype (csv_kwargs self) = None) ->
  (exists e, isinstance_ValueError e = true
             /\ read_block self data source
                = ([(ERROR, Failed_reading_file source e)], Ok None))
  \/ (exists df, Pd.index_name df = None
                 /\ read_block self data source = ([], Ok (Some df))).
Proof.
  intros Hic Hdt. rewrite read_block_eq. unfold Pd.read_csv. rewrite Hic.
  assert (E : (if is_some (parse_dates (csv_kwargs self)) then None
               else dtype (csv_kwargs self)) = None).
  { destruct (parse_dates (csv_kwargs self)); [reflexivity | now apply Hdt]. }
  rewrite E.
  destruct (Pd.tokenize (sep self) data) as [t | e] eqn:Et; cbn [snd].
  - destruct (Pd.t_lines t) as [| header rows].
    + left. exists EmptyDataError. now split.
    + destruct (build_frame_no_index_col header rows) as (df & -> & Hname).
      right. eexists. split; [| reflexivity]. exact Hname.
  - apply tokenize_raises in Et as ->. left. exists ParserError. now split.
Qed.

Section Returns.

Variable tzdb : text -> option Pd.tzinfo.
Variable strptime : option text -> text -> option Z.

Lemma join_data_returns (self : Parser) (source : text)
  (frames : list (option Pd.frame)) :
  exists l r, join_data self source frames = (l, Ok r).
Proof.
  unfold join_data. destruct (Pd.concat frames) as [df0 | e] eqn:Ec.
  - destruct (process_func self) as [func |]; [| now eexists _, _].
    destruct (func (set_source df0 source)); now eexists _, _.
  - apply concat_raises in Ec as [-> _]. now eexists _, _.
Qed.

(** The header marker in force is usable: [parse] does not reach
    [re.escape(None)]. *)
Lemma header_group_detected (self : Parser) (content : text) :
  (header_string self = None ->
   forall r, header_regex self = Some r -> Re.re_source r <> []) ->
  exists body, header_group (detect_header self content) = Ok body.
Proof.
  destruct self as [s e [r |] [h |] kw cr pf tz];
    unfold detect_header, header_group, truthy_regex; cbn; intros H.
  - destruct (Re.re_source r); now eexists.
  - specialize (H eq_refl r eq_refl).
    destruct (Re.re_source r); [now contradiction H | now eexists].
  - now eexists.
  - now eexists.
Qed.

(** X5.  Without [index_col], without date parsing and without a type
    for the reader ([dtype] is absent, or given beside [parse_dates],
    which keeps it from the reader), [parse] returns for every document
    and raises nothing: what the reader raises is caught block by block,
    and so is what [process_func] raises.  (The header marker must be
    usable: not an empty regular expression with no header string.) *)
Theorem default_options_never_raise (self : Parser) (f : file) :
  index_col (csv_kwargs self) = None ->
  parse_dates (csv_kwargs self) <> Some true ->
  (parse_dates (csv_kwargs self) = None -> dtype (csv_kwargs self) = None) ->
  (header_string self = None ->
   forall r, header_regex self = Some r -> Re.re_source r <> []) ->
  exists l r, snd (parse tzdb strptime self f) = (l, Ok r).
Proof.
  intros Hic Hpd Hdt Hh. unfold parse. cbn [snd].
  destruct (header_group_detected self (file_content f) Hh) as [body ->].
  set (s := detect_header self (file_content f)).
  assert (Hkw : csv_kwargs s = csv_kwargs self).
  { unfold s, detect_header.
    destruct (header_string self), (header_regex self); reflexivity. }
  destruct (map fst (Re.finditer (Re.header_pattern body)
                       (Py.replace_nul (file_content f)))) as [| o os];
    [now eexists _, _ |].
  destruct (map_M_returns
              (fun block => _parse_frame tzdb strptime s block (file_name f))
              (blocks (Py.replace_nul (file_content f)) (Some o)
                 (map Some os ++ [None]))) as (l1 & frames & ->).
  - intros block _. unfold _parse_frame.
    destruct (read_block_no_index_col s block (file_name f))
      as [(e & _ & ->) | (df & _ & ->)];
      [now rewrite Hkw | now rewrite Hkw | | ].
    + now eexists _, _.
    + cbn [bind ret]. rewrite Hkw.
      destruct (parse_dates (csv_kwargs self)) as [[|] |];
        [now contradiction Hpd | | ]; now eexists _, _.
  - destruct (join_data_returns s (file_name f) frames) as (l2 & r & E).
    cbn [bind log]. rewrite E. now eexists _, _.
Qed.

End Returns.

(** ** A result that is absent *)

Section Results.

Variable tzdb : text -> option Pd.tzinfo.
Variable strptime : option text -> text -> option Z.

(** X6.  Without [process_func], the result [None] of [parse] never
    comes unannounced: the last record handed to the logger is the error
    that no header was found, or the error that all data were empty.  A
    frame that is returned carries the name of the file as its source. *)
Theorem parse_result_or_error (self : Parser) (f : file)
  (l : list log_record) (r : option Pd.frame) :
  process_func self = None ->
  snd (parse tzdb strptime self f) = (l, Ok r) ->
  match r with
  | Some df => Pd.attrs_source df = Some (file_name f)
  | None =>
      exists l',
        l = l' ++ [(ERROR, No_header_found (file_name f))]
        \/ l = l' ++ [(ERROR, All_empty_data (file_name f))]
  end.
Proof.
  intros Hp. unfold parse. cbn [snd].
  set (s := detect_header self (file_content f)).
  assert (Hps : process_func s = None).
  { unfold s, detect_header.
    destruct (header_string self), (header_regex self); exact Hp. }
  destruct (header_group s) as [body | e]; [| discriminate].
  destruct (map fst (Re.finditer (Re.header_pattern body)
                       (Py.replace_nul (file_content f)))) as [| o os].
  - cbn. intros H. injection H as <- <-.
    exists [(INFO, Reading_file (file_name f))]. now left.
  - destruct (map_M _ _) as [l1 [frames | e]]; [| discriminate].
    cbn [bind log]. unfold join_data. rewrite Hps.
    destruct (Pd.concat frames) as [df0 | e] eqn:Ec.
    + cbn. intros H. injection H as <- <-. reflexivity.
    + apply concat_raises in Ec as [-> _]. cbn. intros H. injection H as <- <-.
      exists ((INFO, Reading_file (file_name f)) :: l1). now right.
Qed.

(** ** Dates need a named index *)

Lemma read_block_kwargs_detect (self : Parser) (content : text) :
  csv_kwargs (detect_header self content) = csv_kwargs self.
Proof.
  unfold detect_header.
  destruct (header_string self), (header_regex self); reflexivity.
Qed.

Lemma parse_frame_dates_no_index_col (self : Parser) (data source : text) :
  index_col (csv_kwargs self) = None ->
  parse_dates (csv_kwargs self) = Some true ->
  (exists e, _parse_frame tzdb strptime self data source
             = ([(ERROR, Failed_reading_file source e)], Ok None))
  \/ _parse_frame tzdb strptime self data source = ([], Raised TypeError).
Proof.
  intros Hic Hpd. unfold _parse_frame.
  assert (Hdt : parse_dates (csv_kwargs self) = None ->
                dtype (csv_kwargs self) = None)
    by (rewrite Hpd; discriminate).
  destruct (read_block_no_index_col self data source Hic Hdt)
    as [(e & _ & ->) | (df & Hname & ->)].
  - left. now exists e.
  - right. cbn [bind ret]. rewrite Hpd. unfold localize_index. now rewrite Hname.
Qed.

Lemma not_none_all_none {A : Type} (xs : list (option A)) :
  Forall (fun x => x = None) xs -> Pd.not_none xs = [].
Proof. induction 1 as [| x xs -> _ IH]; [reflexivity | exact IH]. Qed.

Lemma concat_all_none (objs : list (option Pd.frame)) :
  Pd.not_none objs = [] -> Pd.concat objs = Raised ValueError.
Proof.
  unfold Pd.concat. intros H. destruct objs; [reflexivity | now rewrite H].
Qed.

(** X11.  Date parsing without [index_col]: the index of a block has no
    name, the search for the offset in that name raises [TypeError], and
    nothing catches it.  Every block that the reader accepts makes
    [_parse_frame] raise, and [parse] never returns a frame: it raises, or
    returns [None] when no block could be read. *)
Theorem dates_need_a_named_index (self : Parser) :
  index_col (csv_kwargs self) = None ->
  parse_dates (csv_kwargs self) = Some true ->
  (forall data source l df,
     read_block self data source = (l, Ok (Some df)) ->
     _parse_frame tzdb strptime self data source = (l, Raised TypeError))
  /\ (forall f l r,
        snd (parse tzdb strptime self f) = (l, Ok r) -> r = None).
Proof.
  intros Hic Hpd. split.
  - intros data source l df Hread. unfold _parse_frame. rewrite Hread.
    cbn [bind ret]. rewrite Hpd.
    assert (Hdt : parse_dates (csv_kwargs self) = None ->
                  dtype (csv_kwargs self) = None)
      by (rewrite Hpd; discriminate).
    destruct (read_block_no_index_col self data source Hic Hdt)
      as [(e & _ & E) | (df' & Hname & E)];
      rewrite Hread in E; [discriminate E |].
    injection E as -> ->. unfold localize_index. now rewrite Hname.
  - intros f l r. unfold parse. cbn [snd].
    set (s := detect_header self (file_content f)).
    assert (Hkw : csv_kwargs s = csv_kwargs self)
      by apply read_block_kwargs_detect.
    destruct (header_group s) as [body | e]; [| discriminate].
    destruct (map fst (Re.finditer (Re.header_pattern body)
                         (Py.replace_nul (file_content f)))) as [| o os].
    + cbn. intros H. now injection H as _ <-.
    + destruct (map_M _ _) as [l1 [frames | e]] eqn:Em; [| discriminate].
      apply map_M_inv in Em.
      assert (Hnone : Forall (fun x => x = None) frames).
      { clear -Em Hic Hpd Hkw. induction Em as [| b y bs ys [l' Hb] _ IH];
          constructor; [| exact IH].
        destruct (parse_frame_dates_no_index_col s b (file_name f))
          as [[e E] | E]; try (rewrite Hkw; assumption);
          rewrite E in Hb; [now injection Hb as _ <- | discriminate Hb]. }
      cbn [bind log]. unfold join_data.
      rewrite (concat_all_none _ (not_none_all_none _ Hnone)).
      cbn. intros H. now injection H as _ <-.
Qed.

(** ** The empty regular expression *)

(** X4.  An empty header regular expression is no regular expression to
    [parse]: given beside a header string, [__init__] warns that only the
    regular expression is used, and [parse] searches for the header
    string; given alone, no marker is detected from the file and [parse]
    raises [TypeError] for every file, after the record that the file is
    read. *)
Theorem empty_header_regex
  (sep : ascii) (encoding : text) (r : Re.regex)
  (column_regex : option Re.regex)
  (process_func : option (Pd.frame -> outcome (option Pd.frame)))
  (default_tz : text) (kw : read_csv_kwargs) :
  Re.re_source r = [] ->
  (forall h,
     let init := __init__ sep encoding (Some h) (Some r) column_regex
                   process_func default_tz kw in
     snd init = true /\ header_group (fst init) = Ok (Re.literal h))
  /\ (forall f,
        let self := fst (__init__ sep encoding None (Some r) column_regex
                           process_func default_tz kw) in
        parse tzdb strptime self f
        = (self, ([(INFO, Reading_file (file_name f))], Raised TypeError))).
Proof.
  intros Hsrc. split.
  - intros h init. split; [reflexivity |].
    unfold header_group, truthy_regex. cbn. now rewrite Hsrc.
  - intros f self. unfold parse, detect_header, header_group, truthy_regex.
    cbn. now rewrite Hsrc.
Qed.

(** ** The cast beside [parse_dates] *)

(** X15.  With [parse_dates] among the options and false, [dtype] has no
    effect: the reader is called without it, and the cast after the dates
    is not reached.  [_parse_frame] and [parse] behave as if no [dtype]
    had been given. *)
Theorem dtype_ignored_without_dates (self : Parser) (dt : option Pd.dtype_arg) :
  parse_dates (csv_kwargs self) = Some false ->
  (forall data source,
     _parse_frame tzdb strptime (set_dtype self dt) data source
     = _parse_frame tzdb strptime (set_dtype self None) data source)
  /\ (forall f,
        snd (parse tzdb strptime (set_dtype self dt) f)
        = snd (parse tzdb strptime (set_dtype self None) f)).
Proof.
  intros Hpd.
  assert (Hframe : forall s, parse_dates (csv_kwargs s) = Some false ->
            forall data source,
              _parse_frame tzdb strptime (set_dtype s dt) data source
              = _parse_frame tzdb strptime (set_dtype s None) data source).
  { intros s Hs data source. unfold _parse_frame, read_block, set_dtype.
    cbn. rewrite Hs. reflexivity. }
  split; [now apply Hframe |].
  intros f. unfold parse. cbn [snd].
  rewrite !detect_header_set_dtype.
  set (s := detect_header self (file_content f)).
  assert (Hs : parse_dates (csv_kwargs s) = Some false)
    by (unfold s; now rewrite read_block_kwargs_detect).
  change (header_group (set_dtype s dt)) with (header_group s).
  change (header_group (set_dtype s None)) with (header_group s).
  destruct (header_group s) as [body | e]; [| reflexivity].
  destruct (map fst _) as [| o os]; [reflexivity |].
  rewrite (map_M_ext _ _ _ (fun b _ => Hframe s Hs b (file_name f))).
  reflexivity.
Qed.

(** ** The empty document *)

(** X3.  The empty document, for a parser with no header regular
    expression and no (or an empty) header string: the empty marker is
    stored, its pattern matches the empty text once, the reader finds no
    columns in the one empty block, and [parse] returns [None] after two
    error records; nothing is raised. *)
Theorem empty_document (self : Parser) (name : text) :
  header_regex self = None ->
  header_string self = None \/ header_string self = Some [] ->
  parse tzdb strptime self {| file_name := name; file_content := [] |}
  = (set_header_string self [],
     ([(INFO, Reading_file name);
       (ERROR, Failed_reading_file name EmptyDataError);
       (ERROR, All_empty_data name)], Ok None)).
Proof.
  intros Hr Hs. unfold parse. cbn [file_name file_content].
  assert (E : detect_header self [] = set_header_string self []).
  { unfold detect_header. rewrite Hr.
    destruct Hs as [-> | Hs]; [reflexivity |].
    rewrite Hs. destruct self; cbn in *. now subst. }
  rewrite E. unfold header_group, truthy_regex. cbn. rewrite Hr.
  reflexivity.
Qed.

End Results.

(** ** Batches *)

Lemma map_M_outcomes {A B : Type} (f : A -> M B) (xs : list A) (ys : list B) :
  Forall2 (fun x y => snd (f x) = Ok y) xs ys ->
  map_M f xs = (flat_map (fun x => fst (f x)) xs, Ok ys).
Proof.
  induction 1 as [| x y xs ys Hxy _ IH]; [reflexivity |].
  cbn [map_M flat_map]. destruct (f x) as [l r]. cbn [snd fst] in *. subst r.
  cbn [bind]. rewrite IH. cbn. now rewrite app_nil_r.
Qed.

Lemma flat_map_nil {A B : Type} (xs : list A) :
  flat_map (fun _ : A => @nil B) xs = [].
Proof. induction xs; [reflexivity | assumption]. Qed.

Lemma concat_files_returns (l : list log_record) (frames : list (option Pd.frame)) :
  concat_files (l, Ok frames)
  = match Pd.concat frames with
    | Ok df => (l, Ok (Some df))
    | Raised _ => (l ++ [(ERROR, All_empty_frames)], Ok None)
    end.
Proof.
  unfold concat_files. cbn [bind].
  destruct (Pd.concat frames) as [df | e] eqn:Ec; cbn.
  - now rewrite app_nil_r.
  - apply concat_raises in Ec as [-> _]. cbn. now rewrite app_nil_r.
Qed.

Lemma concat_not_none (objs1 objs2 : list (option Pd.frame)) :
  Pd.not_none objs1 = Pd.not_none objs2 -> Pd.concat objs1 = Pd.concat objs2.
Proof.
  intros H. unfold Pd.concat.
  destruct objs1 as [| o1 objs1], objs2 as [| o2 objs2]; try reflexivity.
  - rewrite <- H. reflexivity.
  - rewrite H. reflexivity.
  - now rewrite H.
Qed.

Section Batches.

Variable tzdb : text -> option Pd.tzinfo.
Variable strptime : option text -> text -> option Z.

Lemma parse_multifile_returns (self : Parser) (files : list file)
  (frames : list (option Pd.frame)) (n_jobs : Z) :
  configured self = true ->
  Forall2 (fun f r => snd (snd (parse tzdb strptime self f)) = Ok r) files frames ->
  parse_multifile tzdb strptime self files n_jobs
  = (self, concat_files (batch_log tzdb strptime self files n_jobs, Ok frames)).
Proof.
  intros Hc Hall. unfold parse_multifile, batch_log.
  destruct (Z.ltb_spec 1 n_jobs) as [Hn | Hn].
  - f_equal. rewrite (map_M_outcomes (parse_in_worker tzdb strptime self) files frames).
    + unfold parse_in_worker at 1. cbn [fst]. rewrite flat_map_nil.
      cbn [bind log]. unfold ret. rewrite !concat_files_returns.
      destruct (Pd.concat frames); reflexivity.
    + eapply Forall2_impl; [| exact Hall]. intros f r H. exact H.
  - apply configured_spec in Hc.
    destruct (parse_each_stored tzdb strptime self files Hc) as [Hf Hs].
    destruct (parse_each tzdb strptime self files) as [self1 m].
    cbn [fst snd] in Hf, Hs. subst self1 m. f_equal.
    now rewrite (map_M_outcomes _ files frames Hall).
Qed.

(** X16.  With a marker configured, when the calls of [parse] return, a
    batch returns the merge of their frames in the order of the files,
    whatever the number of workers: the rows are those of the frames in
    that order, the columns the union of theirs, and [None] when no file
    gave a frame.  The parser object is left as it was. *)
Theorem batch_merges_in_submission_order (self : Parser) (files : list file)
  (frames : list (option Pd.frame)) (n_jobs : Z) :
  configured self = true ->
  Forall2 (fun f r => snd (snd (parse tzdb strptime self f)) = Ok r) files frames ->
  fst (parse_multifile tzdb strptime self files n_jobs) = self
  /\ snd (snd (parse_multifile tzdb strptime self files n_jobs))
     = match Pd.concat frames with
       | Ok df => Ok (Some df)
       | Raised _ => Ok None
       end
  /\ (forall df,
        Pd.concat frames = Ok df ->
        Pd.index df = flat_map Pd.index (Pd.not_none frames)
        /\ Pd.columns df = Pd.union_columns (Pd.not_none frames)).
Proof.
  intros Hc Hall.
  rewrite (parse_multifile_returns self files frames n_jobs Hc Hall).
  cbn [fst snd]. rewrite concat_files_returns. split_all.
  - reflexivity.
  - destruct (Pd.concat frames); reflexivity.
  - intros df. unfold Pd.concat. destruct frames as [| o os]; [discriminate |].
    destruct (Pd.not_none (o :: os)) as [| g gs]; [discriminate |].
    intros H. injection H as <-. split; [reflexivity |].
    unfold Pd.columns at 1. cbn [Pd.cols]. rewrite map_map. cbn [fst].
    apply map_id.
Qed.

(** X17.  With a marker configured, a file for which [parse] returns
    [None] is left out of the batch, whatever the number of workers: the
    batch returns what it returns without that file. *)
Theorem failed_file_is_left_out (self : Parser) (before after : list file)
  (f : file) (frames1 frames2 : list (option Pd.frame)) (n_jobs : Z) :
  configured self = true ->
  snd (snd (parse tzdb strptime self f)) = Ok None ->
  Forall2 (fun g r => snd (snd (parse tzdb strptime self g)) = Ok r) before frames1 ->
  Forall2 (fun g r => snd (snd (parse tzdb strptime self g)) = Ok r) after frames2 ->
  snd (snd (parse_multifile tzdb strptime self (before ++ f :: after) n_jobs))
  = snd (snd (parse_multifile tzdb strptime self (before ++ after) n_jobs)).
Proof.
  intros Hc Hf H1 H2.
  rewrite (parse_multifile_returns self (before ++ f :: after)
             (frames1 ++ None :: frames2) n_jobs Hc)
    by (apply Forall2_app; [exact H1 | now constructor]).
  rewrite (parse_multifile_returns self (before ++ after)
             (frames1 ++ frames2) n_jobs Hc)
    by (now apply Forall2_app).
  cbn [snd]. rewrite !concat_files_returns.
  rewrite (concat_not_none (frames1 ++ None :: frames2) (frames1 ++ frames2))
    by (now rewrite !not_none_app).
  destruct (Pd.concat (frames1 ++ frames2)); reflexivity.
Qed.

(** X18.  With a marker configured, when [parse] returns [None] for
    every file, and also when there is no file, the batch returns [None]
    and hands the logger one error record of its own, after the records
    of the calls (in a pool: after its own two records). *)
Theorem all_files_fail (self : Parser) (files : list file) (n_jobs : Z) :
  configured self = true ->
  Forall (fun f => snd (snd (parse tzdb strptime self f)) = Ok None) files ->
  snd (parse_multifile tzdb strptime self files n_jobs)
  = (batch_log tzdb strptime self files n_jobs ++ [(ERROR, All_empty_frames)],
     Ok None).
Proof.
  intros Hc Hall.
  rewrite (parse_multifile_returns self files (map (fun _ => None) files) n_jobs
             Hc).
  - cbn [snd]. rewrite concat_files_returns.
    rewrite concat_all_none; [reflexivity |].
    apply not_none_all_none, Forall_forall. intros x Hx.
    apply in_map_iff in Hx as [_ [<- _]]. reflexivity.
  - induction Hall; cbn [map]; constructor; assumption.
Qed.

Lemma map_M_raises {A B : Type} (f : A -> M B) (xs : list A) (ys : list B)
  (x : A) (rest : list A) (e : exn) :
  Forall2 (fun x y => snd (f x) = Ok y) xs ys ->
  snd (f x) = Raised e ->
  map_M f (xs ++ x :: rest)
  = (flat_map (fun x => fst (f x)) (xs ++ [x]), Raised e).
Proof.
  intros Hall Hx. induction Hall as [| x0 y xs ys Hxy _ IH].
  - cbn [app map_M flat_map]. destruct (f x) as [l r]. cbn [snd fst] in *.
    subst r. cbn. now rewrite app_nil_r.
  - cbn [app map_M flat_map]. destruct (f x0) as [l r]. cbn [snd fst] in *.
    subst r. cbn [bind]. rewrite IH. reflexivity.
Qed.

(** X19.  With a marker configured, an exception that leaves [parse] for
    one file leaves the batch: when the calls before it return,
    [parse_multifile] raises it, in the caller as in a pool, and the
    frames of the other files are lost.  (Only a [ValueError] would be
    caught, by the handler of the merge.) *)
Theorem exception_aborts_the_batch (self : Parser) (before after : list file)
  (f : file) (frames1 : list (option Pd.frame)) (e : exn) (n_jobs : Z) :
  configured self = true ->
  Forall2 (fun g r => snd (snd (parse tzdb strptime self g)) = Ok r) before frames1 ->
  snd (snd (parse tzdb strptime self f)) = Raised e ->
  isinstance_ValueError e = false ->
  snd (snd (parse_multifile tzdb strptime self (before ++ f :: after) n_jobs))
  = Raised e.
Proof.
  intros Hc Hall Hf He. unfold parse_multifile.
  destruct (Z.ltb_spec 1 n_jobs) as [Hn | Hn].
  - cbn [snd].
    rewrite (map_M_raises (parse_in_worker tzdb strptime self) before frames1
               f after e Hall Hf).
    reflexivity.
  - apply configured_spec in Hc.
    destruct (parse_each_stored tzdb strptime self (before ++ f :: after) Hc)
      as [_ Hs].
    destruct (parse_each tzdb strptime self (before ++ f :: after)) as [self1 m].
    cbn [snd] in *. subst m.
    rewrite (map_M_raises (fun g => snd (parse tzdb strptime self g)) before
               frames1 f after e Hall Hf).
    unfold concat_files, except_ValueError. cbn [bind]. now rewrite He.
Qed.

End Batches.

(** ** An offset beyond the fixed zones *)

Section AfterTheReading.

Variable tzdb : text -> option Pd.tzinfo.
Variable strptime : option text -> text -> option Z.


(** ** A cast that names a column the block has not *)

Lemma localize_index_columns (self : Parser) (source : text) (df df1 : Pd.frame)
  (l : list log_record) :
  localize_index tzdb strptime self source df = (l, Ok df1) ->
  Pd.cols df1 = Pd.cols df.
Proof.
  unfold localize_index. destruct (Pd.index_name df) as [name |]; [| discriminate].
  destruct (guess_tz self source name) as [l0 [tz | e]]; [| discriminate].
  cbn [bind]. unfold Pd.datetime_index.
  destruct (Pd.map_outcome _ (Pd.index df)) as [walls | e]; [| discriminate].
  destruct (Pd.zoneinfo tzdb tz) as [z |]; [| discriminate].
  destruct (Pd.map_outcome (Pd.localize z) walls) as [instants | e];
    [| discriminate].
  destruct (Pd.zoneinfo tzdb (default_tz self)); [| discriminate].
  cbn. intros H. injection H as _ <-. reflexivity.
Qed.

(** X13.  With date parsing on and a [dtype] mapping, a block that has
    no column of a name in the mapping (the header lacks it, or the column
    was empty or filtered out) makes the cast raise [KeyError], which
    leaves [_parse_frame]: only a [ValueError] of the cast is caught. *)
Theorem cast_of_a_missing_column
  (self : Parser) (data source : text) (df df1 : Pd.frame)
  (l l1 : list log_record) (m : list (text * Pd.dtype)) (name : text) :
  parse_dates (csv_kwargs self) = Some true ->
  dtype (csv_kwargs self) = Some (Pd.DtMap m) ->
  read_block self data source = (l, Ok (Some df)) ->
  localize_index tzdb strptime self source df = (l1, Ok df1) ->
  In name (map fst m) ->
  Pd.mem name (Pd.columns df) = false ->
  _parse_frame tzdb strptime self data source = (l ++ l1, Raised KeyError).
Proof.
  intros Hpd Hdt Hread Hloc Hin Hmem.
  pose proof (localize_index_columns _ _ _ _ _ Hloc) as Hcols.
  unfold _parse_frame. rewrite Hread. cbn [bind ret]. rewrite Hpd, Hloc.
  cbn [bind]. unfold convert_dtype. rewrite Hdt. unfold Pd.astype.
  assert (E : forallb (fun kv => Pd.mem (fst kv) (Pd.columns df1)) m = false).
  { apply in_map_iff in Hin as [kv [<- Hkv]].
    destruct (forallb _ m) eqn:E; [| reflexivity].
    rewrite forallb_forall in E. specialize (E kv Hkv).
    unfold Pd.columns in *. rewrite Hcols in E. congruence. }
  rewrite E. cbn. now rewrite !app_nil_r.
Qed.

End AfterTheReading.

(** ** The rows of a block *)


Section Rows.

Variable sep : ascii.

Lemma step_in_line_counts (t : Pd.tok) (c : ascii) :
  in_line t -> plain_char c = true ->
  Pd.t_file_lines (Pd.step sep t c) = Pd.t_file_lines t
  /\ Pd.t_ws (Pd.step sep t c) = Pd.t_ws t.
Proof.
  intros Hin Hc. apply plain_char_tests in Hc as (Hlf & Hcr & Hq).
  unfold in_line, Pd.step.
  destruct Hin as [E | E]; rewrite E;
    unfold Pd.step_start_field, Pd.step_in_field;
    rewrite Hlf, Hcr, ?Hq; destruct (Ascii.eqb c sep); cbn; auto.
Qed.

Lemma fold_in_line_counts (s : text) :
  forall t : Pd.tok,
    in_line t -> forallb plain_char s = true ->
    Pd.t_file_lines (fold_left (Pd.step sep) s t) = Pd.t_file_lines t
    /\ Pd.t_ws (fold_left (Pd.step sep) s t) = Pd.t_ws t.
Proof.
  induction s as [| c s IH]; intros t Hin Hs; [cbn; auto |].
  cbn [forallb] in Hs. apply andb_true_iff in Hs as [Hc Hs].
  destruct (step_in_line sep t c Hin Hc) as (Hin' & _).
  destruct (step_in_line_counts t c Hin Hc) as (Hn & Hw).
  destruct (IH (Pd.step sep t c) Hin' Hs) as (Hn' & Hw').
  cbn [fold_left]. split; congruence.
Qed.

Lemma blank_char_plain (c : ascii) : blank_char sep c = true -> plain_char c = true.
Proof.
  unfold blank_char, plain_char, Pd.is_blank.
  intros H. apply andb_true_iff in H as [H _]. apply orb_true_iff in H as [H | H];
    apply Ascii.eqb_eq in H; subst c; reflexivity.
Qed.

Lemma step_blank_counts (t : Pd.tok) (c : ascii) :
  Pd.t_state t = Pd.WHITESPACE_LINE -> plain_char c = true ->
  Pd.t_file_lines (Pd.step sep t c) = Pd.t_file_lines t
  /\ (blank_char sep c = false -> Pd.t_ws (Pd.step sep t c) = [])
  /\ (blank_char sep c = true ->
      Pd.t_field (Pd.step sep t c) = Pd.t_field t).
Proof.
  intros Hst Hc. apply plain_char_tests in Hc as (Hlf & Hcr & Hq).
  unfold Pd.step. rewrite Hst. unfold Pd.step_whitespace_line.
  rewrite Hlf, Hcr. unfold blank_char.
  destruct (Pd.is_blank c && negb (Ascii.eqb c sep)).
  - cbn. split_all; [reflexivity | discriminate | reflexivity].
  - unfold Pd.step_in_field. rewrite Hlf, Hcr.
    destruct (Ascii.eqb c sep); cbn; split_all; try reflexivity; discriminate.
Qed.

(** From a line that is blank so far to a line that is not. *)
Lemma fold_blank_start_counts (s : text) :
  forall t : Pd.tok,
    Pd.t_state t = Pd.WHITESPACE_LINE ->
    forallb plain_char s = true ->
    forallb (blank_char sep) s = false ->
    Pd.t_file_lines (fold_left (Pd.step sep) s t) = Pd.t_file_lines t
    /\ Pd.t_ws (fold_left (Pd.step sep) s t) = [].
Proof.
  induction s as [| c s IH]; intros t Hst Hs Hb; [discriminate Hb |].
  cbn [forallb] in Hs, Hb. apply andb_true_iff in Hs as [Hc Hs].
  destruct (step_blank_line sep t c Hst Hc) as (_ & _ & Hstep).
  destruct (step_blank_counts t c Hst Hc) as (Hn & Hws & _).
  cbn [fold_left].
  destruct (blank_char sep c) eqn:Eb.
  - destruct Hstep as (Hst' & _). cbn [andb] in Hb.
    destruct (IH (Pd.step sep t c) Hst' Hs Hb) as (Hn' & Hw').
    split; congruence.
  - destruct Hstep as (Hin0 & _).
    destruct (fold_in_line_counts s (Pd.step sep t c) Hin0 Hs) as (Hn' & Hw').
    split; [congruence |]. rewrite Hw'. now apply Hws.
Qed.

(** A line of blanks leaves the tokenizer in a blank line, nothing
    gained. *)
Lemma fold_blank_line (s : text) :
  forall t : Pd.tok,
    Pd.t_state t = Pd.WHITESPACE_LINE ->
    forallb (blank_char sep) s = true ->
    Pd.t_state (fold_left (Pd.step sep) s t) = Pd.WHITESPACE_LINE
    /\ Pd.t_lines (fold_left (Pd.step sep) s t) = Pd.t_lines t
    /\ Pd.t_warn (fold_left (Pd.step sep) s t) = Pd.t_warn t
    /\ Pd.t_file_lines (fold_left (Pd.step sep) s t) = Pd.t_file_lines t
    /\ Pd.t_fields (fold_left (Pd.step sep) s t) = Pd.t_fields t
    /\ Pd.t_field (fold_left (Pd.step sep) s t) = Pd.t_field t.
Proof.
  induction s as [| c s IH]; intros t Hst Hb; [cbn; auto 6 |].
  cbn [forallb] in Hb. apply andb_true_iff in Hb as [Hc Hb].
  pose proof (blank_char_plain c Hc) as Hp.
  destruct (step_blank_line sep t c Hst Hp) as (Hl & Hw & Hstep).
  destruct (step_blank_counts t c Hst Hp) as (Hn & _ & Hf).
  rewrite Hc in Hstep. destruct Hstep as (Hst' & _ & Hfs).
  destruct (IH (Pd.step sep t c) Hst' Hb) as (H1 & H2 & H3 & H4 & H5 & H6).
  cbn [fold_left]. split_all; try congruence.
  rewrite H6. now apply Hf.
Qed.

(** The tokenizer at the end of a line that is not blank, before its
    newline. *)
Lemma fold_row (line : text) (ls : list (list text)) (n : nat)
  (w : list Pd.bad_line) :
  forallb plain_char line = true ->
  blank_line sep line = false ->
  let t := fold_left (Pd.step sep) line (at_record ls n w) in
  in_line t
  /\ Pd.t_lines t = ls /\ Pd.t_warn t = w
  /\ Pd.t_file_lines t = n /\ Pd.t_ws t = []
  /\ Pd.t_fields t ++ [Pd.t_field t] = split sep line.
Proof.
  unfold blank_line. intros Hs Hb.
  destruct line as [| c s]; [discriminate Hb |].
  cbn [forallb] in Hs, Hb. apply andb_true_iff in Hs as [Hc Hs].
  pose proof (plain_char_tests c Hc) as (Hlf & Hcr & Hq).
  cbn [fold_left]. set (t0 := at_record ls n w).
  destruct (blank_char sep c) eqn:Eb.
  - cbn [andb] in Hb.
    assert (E0 : Pd.step sep t0 c
                 = {| Pd.t_state := Pd.WHITESPACE_LINE; Pd.t_field := [];
                      Pd.t_fields := []; Pd.t_lines := ls; Pd.t_ws := [c];
                      Pd.t_file_lines := n; Pd.t_warn := w |}).
    { unfold Pd.step. cbn [Pd.t_state t0 at_record].
      unfold Pd.step_start_record. rewrite Hlf, Hcr.
      unfold blank_char in Eb. rewrite Eb. reflexivity. }
    rewrite E0.
    match goal with |- context [fold_left _ s ?t1] => set (t1' := t1) end.
    destruct (fold_blank_start sep s t1' eq_refl Hs Hb) as (Hin & Hl & Hw & Hf).
    destruct (fold_blank_start_counts s t1' eq_refl Hs Hb) as (Hn & Hws).
    split_all; try assumption.
    rewrite Hf. cbn [t1' Pd.t_fields Pd.t_ws app]. unfold split. cbn [split_acc].
    unfold blank_char in Eb. apply andb_true_iff in Eb as [_ Eb].
    apply negb_true_iff in Eb. now rewrite Eb.
  - assert (Hstep : in_line (Pd.step sep t0 c)
                    /\ Pd.t_lines (Pd.step sep t0 c) = ls
                    /\ Pd.t_warn (Pd.step sep t0 c) = w
                    /\ Pd.t_file_lines (Pd.step sep t0 c) = n
                    /\ Pd.t_ws (Pd.step sep t0 c) = []
                    /\ Pd.t_fields (Pd.step sep t0 c)
                       ++ [Pd.t_field (Pd.step sep t0 c)]
                       = split_acc sep [] [c]).
    { unfold Pd.step. cbn [Pd.t_state t0 at_record].
      unfold Pd.step_start_record. rewrite Hlf, Hcr.
      unfold blank_char in Eb. rewrite Eb.
      unfold Pd.step_start_field, in_line. rewrite Hlf, Hcr, Hq. cbn [split_acc].
      destruct (Ascii.eqb c sep); cbn; auto 7. }
    destruct Hstep as (Hin0 & Hl0 & Hw0 & Hn0 & Hws0 & Hf0).
    destruct (fold_in_line sep s (Pd.step sep t0 c) Hin0 Hs) as (Hin & Hl & Hw & Hf).
    destruct (fold_in_line_counts s (Pd.step sep t0 c) Hin0 Hs) as (Hn & Hws).
    split_all; try congruence.
    rewrite Hf. unfold split. now apply (split_acc_step sep c [] []).
Qed.

(** The end of a line that is not blank. *)
Lemma end_of_row (t : Pd.tok) (ls : list (list text)) (n : nat)
  (w : list Pd.bad_line) (fields : list text) :
  Pd.t_lines t = ls -> Pd.t_warn t = w -> Pd.t_file_lines t = n ->
  Pd.t_ws t = [] -> Pd.t_fields t ++ [Pd.t_field t] = fields ->
  Pd.end_line Pd.START_RECORD (Pd.end_field t)
  = at_record (add_row ls fields) (S n) (add_warning ls n w fields).
Proof.
  intros Hl Hw Hn Hws Hf. unfold Pd.end_line, Pd.end_field, add_row, add_warning.
  cbn [Pd.t_lines Pd.t_fields Pd.t_field Pd.t_ws Pd.t_file_lines Pd.t_warn].
  rewrite Hl, Hw, Hn, Hws, Hf. unfold pad, at_record.
  destruct ((2 <=? List.length ls) && (List.length (last ls []) <? List.length fields));
    reflexivity.
Qed.

(** One line and its newline. *)
Lemma fold_line (line : text) (ls : list (list text)) (n : nat)
  (w : list Pd.bad_line) :
  forallb plain_char line = true ->
  fold_left (Pd.step sep) (line ++ [LF]) (at_record ls n w)
  = if blank_line sep line then at_record ls (S n) w
    else at_record (add_row ls (split sep line)) (S n)
                   (add_warning ls n w (split sep line)).
Proof.
  intros Hs. rewrite fold_left_app. cbn [fold_left].
  destruct (blank_line sep line) eqn:Eb.
  - unfold blank_line in Eb. destruct line as [| c s]; [reflexivity |].
    cbn [forallb] in Eb. apply andb_true_iff in Eb as [Hc Hb].
    pose proof (blank_char_plain c Hc) as Hp.
    pose proof (plain_char_tests c Hp) as (Hlf & Hcr & Hq).
    cbn [fold_left].
    assert (E0 : Pd.step sep (at_record ls n w) c
                 = {| Pd.t_state := Pd.WHITESPACE_LINE; Pd.t_field := [];
                      Pd.t_fields := []; Pd.t_lines := ls; Pd.t_ws := [c];
                      Pd.t_file_lines := n; Pd.t_warn := w |}).
    { unfold Pd.step. cbn [Pd.t_state at_record].
      unfold Pd.step_start_record. rewrite Hlf, Hcr.
      unfold blank_char in Hc. rewrite Hc. reflexivity. }
    rewrite E0.
    match goal with |- context [fold_left _ s ?t1] => set (t1' := t1) end.
    destruct (fold_blank_line s t1' eq_refl Hb) as (H1 & H2 & H3 & H4 & H5 & H6).
    set (t2 := fold_left (Pd.step sep) s t1') in *.
    unfold Pd.step. rewrite H1. unfold Pd.step_whitespace_line.
    change (Ascii.eqb LF LF) with true. cbn iota. unfold Pd.skip_line, at_record.
    now rewrite H2, H3, H4, H5, H6.
  - destruct (fold_row line ls n w Hs Eb) as (Hin & Hl & Hw & Hn & Hws & Hf).
    set (t := fold_left (Pd.step sep) line (at_record ls n w)) in *.
    assert (Estep : Pd.step sep t LF
                    = Pd.end_line Pd.START_RECORD (Pd.end_field t)).
    { unfold Pd.step. destruct Hin as [E | E]; rewrite E; reflexivity. }
    rewrite Estep. now apply end_of_row.
Qed.

Lemma read_line_at_record (t : Pd.tok) (line : text) :
  read_line sep t line
  = at_record (Pd.t_lines (read_line sep t line))
              (Pd.t_file_lines (read_line sep t line))
              (Pd.t_warn (read_line sep t line)).
Proof. unfold read_line. destruct (blank_line sep line); reflexivity. Qed.

Lemma fold_lines (lines : list text) :
  Forall (fun l => plain_line l = true) lines ->
  forall (ls : list (list text)) (n : nat) (w : list Pd.bad_line),
    fold_left (Pd.step sep) (unlines lines) (at_record ls n w)
    = fold_left (read_line sep) lines (at_record ls n w).
Proof.
  induction 1 as [| line lines Hline _ IH]; intros ls n w; [reflexivity |].
  cbn [unlines flat_map fold_left]. rewrite fold_left_app.
  rewrite (fold_line line ls n w Hline).
  change (if blank_line sep line
          then at_record ls (S n) w
          else at_record (add_row ls (split sep line)) (S n)
                 (add_warning ls n w (split sep line)))
    with (read_line sep (at_record ls n w) line).
  rewrite (read_line_at_record (at_record ls n w) line).
  apply IH.
Qed.

Lemma fold_read_line_state (lines : list text) (t : Pd.tok) :
  Pd.t_state t = Pd.START_RECORD ->
  Pd.t_state (fold_left (read_line sep) lines t) = Pd.START_RECORD.
Proof.
  revert t. induction lines as [| line lines IH]; intros t Ht; [exact Ht |].
  cbn [fold_left]. apply IH. unfold read_line.
  destruct (blank_line sep line); reflexivity.
Qed.

Lemma fold_read_line_lines (lines : list text) :
  forall t : Pd.tok,
    Pd.t_lines (fold_left (read_line sep) lines t)
    = fold_left add_row (rows_of sep lines) (Pd.t_lines t).
Proof.
  induction lines as [| line lines IH]; intros t; [reflexivity |].
  cbn [fold_left]. rewrite IH. unfold rows_of, read_line. cbn [filter].
  destruct (blank_line sep line); reflexivity.
Qed.

(** The rows kept, from the third row on. *)
Lemma add_rows_from_third (w : nat) (rest ls : list (list text)) :
  2 <= List.length ls -> List.length (last ls []) = w ->
  fold_left add_row rest ls
  = ls ++ map (pad w) (filter (fun r => List.length r <=? w) rest).
Proof.
  revert ls. induction rest as [| r rest IH]; intros ls Hlen Hlast;
    [cbn; now rewrite app_nil_r |].
  cbn [fold_left filter]. unfold add_row at 2. rewrite Hlast.
  destruct (Nat.leb_spec 2 (List.length ls)) as [_ | Hlt]; [| lia].
  cbn [andb].
  destruct (Nat.ltb_spec w (List.length r)) as [Hlong | Hfits].
  - destruct (Nat.leb_spec (List.length r) w) as [Hle | _]; [lia |].
    now apply IH.
  - destruct (Nat.leb_spec (List.length r) w) as [_ | Hgt]; [| lia].
    destruct (Nat.leb_spec 1 (List.length ls)) as [_ | Hlt]; [| lia].
    rewrite IH.
    + cbn [map]. now rewrite <- app_assoc.
    + rewrite length_app. cbn. lia.
    + rewrite last_last. unfold pad. rewrite length_app, repeat_length. lia.
Qed.

Lemma add_rows_keep (rows : list (list text)) :
  fold_left add_row rows [] = keep_rows rows.
Proof.
  destruct rows as [| header [| first rest]]; [reflexivity | reflexivity |].
  cbn [fold_left keep_rows].
  change (add_row [] header) with [header].
  change (add_row [header] first) with [header; pad (List.length header) first].
  set (w := Nat.max (List.length header) (List.length first)).
  assert (Epad : pad (List.length header) first = pad w first).
  { unfold pad. f_equal. f_equal. unfold w. lia. }
  rewrite Epad.
  rewrite (add_rows_from_third w).
  - reflexivity.
  - cbn. lia.
  - cbn [last]. unfold pad. rewrite length_app, repeat_length. unfold w. lia.
Qed.

(** The rows the reader keeps of a text without quoting: the text is cut
    at its newlines into [lines] and the line [l] after the last
    newline. *)
Lemma tokenize_plain_text (lines : list text) (l : text) :
  Forall (fun x => plain_line x = true) (lines ++ [l]) ->
  exists t, Pd.tokenize sep (unlines lines ++ l) = Ok t
            /\ Pd.t_lines t = keep_rows (rows_of sep (lines ++ [l])).
Proof.
  intros Hall. apply Forall_app in Hall as [Hlines Hl].
  apply Forall_inv in Hl.
  unfold Pd.tokenize. rewrite fold_left_app.
  change Pd.tok_init with (at_record [] 0 []).
  rewrite (fold_lines lines Hlines).
  set (t0 := fold_left (read_line sep) lines (at_record [] 0 [])).
  assert (Hst : Pd.t_state t0 = Pd.START_RECORD)
    by (apply fold_read_line_state; reflexivity).
  assert (Hls : Pd.t_lines t0 = fold_left add_row (rows_of sep lines) [])
    by (unfold t0; now rewrite fold_read_line_lines).
  assert (Hrows : rows_of sep (lines ++ [l])
                  = rows_of sep lines
                    ++ (if blank_line sep l then [] else [split sep l])).
  { unfold rows_of. rewrite filter_app, map_app. cbn [filter].
    destruct (blank_line sep l); reflexivity. }
  rewrite <- add_rows_keep, Hrows, fold_left_app, <- Hls.
  assert (Et0 : t0 = at_record (Pd.t_lines t0) (Pd.t_file_lines t0) (Pd.t_warn t0)).
  { unfold t0. destruct lines as [| x xs] using rev_ind; [reflexivity |].
    rewrite fold_left_app. cbn [fold_left]. apply read_line_at_record. }
  destruct (blank_line sep l) eqn:Eb.
  - cbn [fold_left]. unfold blank_line in Eb.
    destruct l as [| c s].
    + cbn [fold_left]. unfold Pd.handle_eof. rewrite Hst. now exists t0.
    + cbn [forallb] in Eb. apply andb_true_iff in Eb as [Hc Hb].
      pose proof (blank_char_plain c Hc) as Hp.
      pose proof (plain_char_tests c Hp) as (Hlf & Hcr & Hq).
      cbn [fold_left].
      assert (E0 : Pd.t_state (Pd.step sep t0 c) = Pd.WHITESPACE_LINE
                   /\ Pd.t_lines (Pd.step sep t0 c) = Pd.t_lines t0).
      { unfold Pd.step. rewrite Hst. unfold Pd.step_start_record.
        rewrite Hlf, Hcr. unfold blank_char in Hc. rewrite Hc. now split. }
      destruct E0 as [E0 E1].
      destruct (fold_blank_line s (Pd.step sep t0 c) E0 Hb) as (H1 & H2 & _).
      eexists. unfold Pd.handle_eof. rewrite H1. split; [reflexivity |].
      now rewrite H2, E1.
  - cbn [fold_left]. rewrite Et0.
    destruct (fold_row l (Pd.t_lines t0) (Pd.t_file_lines t0) (Pd.t_warn t0)
                Hl Eb) as (Hin & Hl' & Hw & Hn & Hws & Hf).
    match goal with |- context [Pd.handle_eof ?x] => set (t1 := x) in * end.
    exists (Pd.end_line Pd.START_RECORD (Pd.end_field t1)). split.
    + unfold Pd.handle_eof. destruct Hin as [E | E]; rewrite E; reflexivity.
    + rewrite (end_of_row t1 _ _ _ _ Hl' Hw Hn Hws Hf). reflexivity.
Qed.

Lemma fold_read_line_warnings (w : nat) (rest : list text) :
  Forall (fun l => blank_line sep l = false) rest ->
  forall (ls : list (list text)) (n : nat) (wn : list Pd.bad_line),
    2 <= List.length ls -> List.length (last ls []) = w ->
    List.length (Pd.t_warn (fold_left (read_line sep) rest (at_record ls n wn)))
    = List.length wn
      + List.length (filter (fun l => w <? List.length (split sep l)) rest).
Proof.
  induction 1 as [| r rest Hr _ IH]; intros ls n wn Hlen Hlast;
    [cbn; lia |].
  cbn [fold_left filter]. unfold read_line at 2. rewrite Hr.
  cbn [Pd.t_lines Pd.t_file_lines Pd.t_warn at_record].
  unfold add_row, add_warning. rewrite Hlast.
  destruct (Nat.leb_spec 2 (List.length ls)) as [_ | Hlt]; [| lia].
  cbn [andb].
  destruct (Nat.ltb_spec w (List.length (split sep r))) as [Hlong | Hfits].
  - rewrite IH by assumption. rewrite length_app. cbn [List.length]. lia.
  - destruct (Nat.leb_spec 1 (List.length ls)) as [_ | Hlt]; [| lia].
    rewrite IH; [reflexivity | rewrite length_app; cbn; lia |].
    rewrite last_last. unfold pad. rewrite length_app, repeat_length. lia.
Qed.

End Rows.

Lemma read_line_row (sep : ascii) (t : Pd.tok) (line : text) :
  blank_line sep line = false ->
  read_line sep t line
  = at_record (add_row (Pd.t_lines t) (split sep line))
              (S (Pd.t_file_lines t))
              (add_warning (Pd.t_lines t) (Pd.t_file_lines t) (Pd.t_warn t)
                 (split sep line)).
Proof. intros H. unfold read_line. now rewrite H. Qed.

Lemma rows_of_not_blank (sep : ascii) (lines : list text) :
  Forall (fun l => blank_line sep l = false) lines ->
  rows_of sep lines = map (split sep) lines.
Proof.
  intros H. unfold rows_of. f_equal.
  induction H as [| l ls Hl _ IH]; [reflexivity |].
  cbn [filter]. rewrite Hl. cbn [negb]. now rewrite IH.
Qed.

Lemma header_line_parts (sep : ascii) (lines : list text) :
  Forall (fun l => header_line sep l = true) lines ->
  Forall (fun l => plain_line l = true) lines
  /\ Forall (fun l => blank_line sep l = false) lines.
Proof.
  intros H. split; eapply Forall_impl; try exact H; cbn beta;
    intros l Hl; unfold header_line in Hl;
    apply andb_true_iff in Hl as [H1 H2]; [exact H1 |].
  now apply negb_true_iff in H2.
Qed.

(** What [read_csv] builds from a text without quoting. *)
Lemma read_csv_plain_text (sep : ascii) (ic : option nat)
  (dt : option Pd.dtype_arg) (lines : list text) (l : text) :
  Forall (fun x => plain_line x = true) (lines ++ [l]) ->
  snd (Pd.read_csv sep ic dt (unlines lines ++ l))
  = match keep_rows (rows_of sep (lines ++ [l])) with
    | [] => Raised EmptyDataError
    | header :: data => Pd.build_frame ic dt header data
    end.
Proof.
  intros H. destruct (tokenize_plain_text sep lines l H) as (t & Ht & Hl).
  unfold Pd.read_csv. rewrite Ht. cbn [snd]. rewrite Hl.
  destruct (keep_rows _) as [| header data]; [reflexivity |].
  now destruct (Pd.build_frame ic dt header data).
Qed.

Lemma read_block_of_read_csv (self : Parser) (data1 data2 source : text) :
  (forall ic dt, snd (Pd.read_csv (sep self) ic dt data1)
                 = snd (Pd.read_csv (sep self) ic dt data2)) ->
  read_block self data1 source = read_block self data2 source.
Proof.
  intros H. rewrite !read_block_eq. now rewrite H.
Qed.

Lemma Forall_filter_keep {A : Type} (P : A -> Prop) (p : A -> bool) (xs : list A) :
  Forall P xs -> Forall P (filter p xs).
Proof.
  induction 1 as [| x xs Hx _ IH]; [constructor |].
  cbn [filter]. destruct (p x); [now constructor | exact IH].
Qed.

Lemma filter_map_filter {A B : Type} (f : A -> B) (p : B -> bool) (xs : list A) :
  filter p (map f (filter (fun x => p (f x)) xs)) = filter p (map f xs).
Proof.
  induction xs as [| x xs IH]; [reflexivity |].
  cbn [map filter]. destruct (p (f x)) eqn:E.
  - cbn [map filter]. rewrite E. now rewrite IH.
  - exact IH.
Qed.

(** X9.  A line after the second with more fields than the header and
    the first row is skipped by the reader, and nothing of it reaches the
    logger, the warning of the reader being of the category that
    [_parse_frame] ignores: a block of lines without quoting is read, the
    frame and the records handed to the logger, as the block without its
    over-long lines is. *)
Theorem over_long_lines_are_skipped
  (self : Parser) (source header first : text) (rest : list text) :
  Forall (fun l => header_line (sep self) l = true) (header :: first :: rest) ->
  let w := Nat.max (List.length (split (sep self) header))
                   (List.length (split (sep self) first)) in
  let fits := fun l => List.length (split (sep self) l) <=? w in
  read_block self (unlines (header :: first :: rest)) source
  = read_block self (unlines (header :: first :: filter fits rest)) source.
Proof.
  intros Hall w fits.
  destruct (header_line_parts _ _ Hall) as [Hplain Hnb].
  assert (Hall' : Forall (fun l => header_line (sep self) l = true)
                    (header :: first :: filter fits rest)).
  { inversion Hall as [| ? ? Hh Ht]; subst. inversion Ht as [| ? ? Hf Hr]; subst.
    constructor; [exact Hh |]. constructor; [exact Hf |].
    now apply Forall_filter_keep. }
  destruct (header_line_parts _ _ Hall') as [Hplain' Hnb'].
  apply read_block_of_read_csv. intros ic dt.
  rewrite <- (app_nil_r (unlines (header :: first :: rest))).
  rewrite <- (app_nil_r (unlines (header :: first :: filter fits rest))).
  rewrite !read_csv_plain_text
    by (apply Forall_app; split; [assumption | repeat constructor]).
  assert (E : forall ls, Forall (fun l => blank_line (sep self) l = false) ls ->
                rows_of (sep self) (ls ++ [[]]) = map (split (sep self)) ls).
  { intros ls Hls. unfold rows_of. rewrite filter_app, map_app. cbn.
    rewrite app_nil_r. now apply rows_of_not_blank. }
  rewrite !E by assumption. cbn [map keep_rows]. fold w.
  unfold fits.
  now rewrite (filter_map_filter (split (sep self))
                 (fun r => List.length r <=? w) rest).
Qed.



(** ** The default column filter *)


Lemma existsb_pointwise {A : Type} (f g : A -> bool) (xs : list A) :
  (forall x, f x = g x) -> existsb f xs = existsb g xs.
Proof.
  intros H. induction xs as [| x xs IH]; [reflexivity |].
  cbn [existsb]. now rewrite H, IH.
Qed.

Lemma existsb_nth_error {A : Type} (f : option A -> bool) (s : list A) :
  existsb (fun p => f (nth_error s p)) (seq 0 (S (List.length s)))
  = existsb (fun c => f (Some c)) s || f None.
Proof.
  induction s as [| c s IH]; [cbn; now rewrite orb_false_r |].
  cbn [List.length]. rewrite <- cons_seq, <- seq_shift.
  cbn [existsb nth_error]. rewrite <- orb_assoc. f_equal.
  rewrite <- IH. clear IH.
  generalize (seq 0 (S (List.length s))). intros ps.
  induction ps as [| p ps IH]; [reflexivity |].
  cbn [map existsb nth_error]. now rewrite IH.
Qed.

Lemma search_dot (label : text) :
  Re.search Re.dot label = has_visible_char label.
Proof.
  unfold Re.search, has_visible_char.
  pose (g := fun o : option ascii =>
               match o with
               | Some c => negb (Ascii.eqb c LF)
               | None => false
               end).
  rewrite (existsb_pointwise _ (fun p => g (nth_error label p))).
  - etransitivity; [apply (existsb_nth_error g label) |]. apply orb_false_r.
  - intros p. rewrite match_at_first. cbn [Re.re_lens Re.dot]. unfold g.
    destruct (nth_error label p) as [c |]; [| reflexivity].
    destruct (Ascii.eqb c LF); reflexivity.
Qed.

(** X10.  With no column regular expression given to [__init__] (or an
    empty one), the filter of [_parse_frame] keeps the columns whose label
    has a character that is not a newline: every column when every label
    has one. *)
Theorem default_column_filter
  (sep : ascii) (encoding : text) (header_string : option text)
  (header_regex column_regex : option Re.regex)
  (process_func : option (Pd.frame -> outcome (option Pd.frame)))
  (default_tz : text) (kw : read_csv_kwargs) (df : Pd.frame) :
  truthy_regex column_regex = None ->
  let self := fst (__init__ sep encoding header_string header_regex column_regex
                     process_func default_tz kw) in
  Pd.filter_regex (RobustCSVParser.column_regex self) df
  = Pd.with_cols df (filter (fun c => has_visible_char (fst c)) (Pd.cols df))
  /\ (Forall (fun c => has_visible_char (fst c) = true) (Pd.cols df) ->
      Pd.filter_regex (RobustCSVParser.column_regex self) df = df).
Proof.
  intros Hcr self.
  assert (E : RobustCSVParser.column_regex self = Re.dot)
    by (unfold self; cbn; now rewrite Hcr).
  rewrite E. unfold Pd.filter_regex.
  assert (F : filter (fun c : text * list Pd.cell => Re.search Re.dot (fst c))
                (Pd.cols df)
              = filter (fun c => has_visible_char (fst c)) (Pd.cols df))
    by (apply filter_ext; intros c; apply search_dot).
  rewrite F. split; [reflexivity |].
  intros Hall.
  replace (filter (fun c => has_visible_char (fst c)) (Pd.cols df))
    with (Pd.cols df).
  - now destruct df.
  - symmetry. apply forallb_filter_id. now apply forallb_forall, Forall_forall.
Qed.

(** ** Every block begins with the marker *)

Lemma chained_weaken (ms : list (nat * nat)) (lo lo' : nat) :
  lo' <= lo -> chained lo ms -> chained lo' ms.
Proof.
  destruct ms as [| [p e] rest]; [auto |].
  cbn. intros H (H1 & H2 & H3). split_all; [lia | exact H2 | exact H3].
Qed.

Lemma scan_chained (r : Re.regex) (s : text) (n : nat) :
  forall p pos, chained (Nat.max p pos) (Re.scan r s n p pos).
Proof.
  induction n as [| n IH]; intros p pos; [exact I |].
  cbn [Re.scan]. destruct (Nat.ltb_spec p pos) as [Hlt | Hge].
  - eapply chained_weaken; [| apply IH]. lia.
  - destruct (Re.match_at r s p false) as [[| l] |].
    + cbn [chained]. split_all; [lia | lia |].
      destruct (Re.match_at r s p true) as [l' |].
      * cbn [chained]. split_all; [lia | lia |].
        eapply chained_weaken; [| apply IH]. lia.
      * eapply chained_weaken; [| apply IH]. lia.
    + cbn [chained]. split_all; [lia | lia |].
      eapply chained_weaken; [| apply IH]. lia.
    + eapply chained_weaken; [| apply IH]. lia.
Qed.

Lemma header_literal_within (h s : text) (p l : nat) :
  p <= List.length s ->
  In l (Re.re_lens (Re.header_pattern (Re.literal h)) s p) ->
  marker_within h s (p, p + l).
Proof.
  intros Hp. cbn [Re.re_lens Re.header_pattern marker_within].
  rewrite in_map_iff.
  intros [e [<- He]]. unfold Re.header_ends in He.
  cbn [Re.re_lens Re.literal] in He.
  apply in_app_or in He as [He | He].
  - destruct (nth_error s p) as [c |] eqn:Ec; [| destruct He].
    destruct (Re.is_quote c) eqn:Eq; [| destruct He].
    destruct (starts_with h (skipn (S p) s)) eqn:Es; [| destruct He].
    destruct He as [<- | []].
    pose proof (starts_with_length _ _ Es) as Hlen.
    rewrite length_skipn in Hlen.
    assert (Hp' : p < List.length s) by (apply nth_error_Some; congruence).
    destruct (eol_spec s (S p + List.length h)) as [Hb _]; [lia |].
    right. exists c. split_all; try reflexivity; try assumption. lia.
  - destruct (starts_with h (skipn p s)) eqn:Es; [| destruct He].
    destruct He as [<- | []].
    pose proof (starts_with_length _ _ Es) as Hlen.
    rewrite length_skipn in Hlen.
    destruct (eol_spec s (p + List.length h)) as [Hb _]; [lia |].
    left. split; [reflexivity | lia].
Qed.

Lemma starts_with_firstn (h s : text) (k : nat) :
  starts_with h s = true -> List.length h <= k ->
  starts_with h (firstn k s) = true.
Proof.
  intros H Hk. apply starts_with_app in H as [rest ->].
  apply starts_with_app. exists (firstn (k - List.length h) rest).
  rewrite firstn_app. rewrite firstn_all2 by exact Hk. reflexivity.
Qed.

Lemma header_at_block (h s : text) (p e k : nat) :
  marker_within h s (p, e) -> e - p <= k ->
  header_at h (firstn k (skipn p s)) 0 = true.
Proof.
  intros [[Hs He] | (c & Hc & Hq & Hs & He)] Hk; unfold header_at.
  - cbn [skipn]. rewrite starts_with_firstn; [reflexivity | exact Hs | lia].
  - apply orb_true_iff. right.
    assert (E0 : nth_error (firstn k (skipn p s)) 0 = Some c).
    { rewrite nth_error_firstn.
      destruct (Nat.ltb_spec 0 k); [| lia].
      now rewrite nth_error_skipn, Nat.add_0_r. }
    rewrite E0, Hq. cbn [andb].
    destruct k as [| k]; [lia |].
    destruct (skipn p s) as [| c' rest] eqn:Esk.
    + cbn in E0. discriminate E0.
    + cbn [firstn skipn].
      assert (Erest : rest = skipn (S p) s).
      { change (S p) with (1 + p). rewrite <- skipn_skipn, Esk. reflexivity. }
      rewrite Erest. apply starts_with_firstn; [exact Hs | lia].
Qed.

Lemma header_at_last_block (h s : text) (p e : nat) :
  marker_within h s (p, e) -> header_at h (skipn p s) 0 = true.
Proof.
  intros H.
  rewrite <- (firstn_all2 (n := Nat.max (e - p) (List.length s)) (skipn p s))
    by (rewrite length_skipn; lia).
  eapply header_at_block; [exact H | lia].
Qed.

Lemma blocks_of_matches (h data : text) (ms : list (nat * nat)) :
  forall p e,
    Forall (marker_within h data) ((p, e) :: ms) ->
    chained p ((p, e) :: ms) ->
    Forall (fun b => header_at h b 0 = true)
      (blocks data (Some p) (map Some (map fst ms) ++ [None])).
Proof.
  induction ms as [| [p2 e2] ms IH]; intros p e Hall Hch.
  - cbn. constructor; [| constructor].
    apply Forall_inv in Hall. eapply header_at_last_block, Hall.
  - cbn [map app blocks Py.slice fst].
    inversion Hall as [| ? ? Hm Hrest]; subst.
    cbn [chained] in Hch. destruct Hch as (_ & Hpe & Hp2 & He2 & Hch).
    constructor.
    + eapply header_at_block; [exact Hm | lia].
    + apply (IH p2 e2 Hrest). cbn [chained]. split_all; [lia | exact He2 | exact Hch].
Qed.

(** X2.  For a literal marker, every block that [parse] hands to
    [_parse_frame] begins with the marker, or with a quote character and
    the marker: the blocks start at the matches, and no match reaches
    into the next block. *)
Theorem blocks_begin_with_the_marker (h data : text) (o : nat) (os : list nat) :
  map fst (Re.finditer (Re.header_pattern (Re.literal h)) data) = o :: os ->
  Forall (fun b => header_at h b 0 = true)
    (blocks data (Some o) (map Some os ++ [None])).
Proof.
  intros Hoff.
  set (r := Re.header_pattern (Re.literal h)) in *.
  destruct (Re.finditer r data) as [| [p e] ms] eqn:Ef; [discriminate Hoff |].
  cbn [map fst] in Hoff. injection Hoff as <- <-.
  apply (blocks_of_matches h data ms p e).
  - apply Forall_forall. intros [q e'] Hin.
    assert (Hq : q <= List.length data).
    { pose proof (finditer_in_text r data) as Hall.
      rewrite Forall_forall in Hall. apply Hall.
      apply in_map_iff. exists (q, e'). split; [reflexivity |].
      rewrite Ef. exact Hin. }
    rewrite <- Ef in Hin. apply scan_matches in Hin as [l [Hl ->]].
    now apply header_literal_within.
  - pose proof (scan_chained r data (S (List.length data)) 0 0) as Hch.
    unfold Re.finditer in Ef. rewrite Ef in Hch.
    cbn [chained] in *. destruct Hch as (_ & H1 & H2). split_all; [lia | exact H1 | exact H2].
Qed.

(** ** Text streams *)


Lemma detect_header_idempotent (self : Parser) (content content' : text) :
  detect_header (detect_header self content) content' = detect_header self content.
Proof.
  destruct self as [s e [r |] [h |] kw cr pf tz]; reflexivity.
Qed.

Lemma detect_header_not_configured (self : Parser) (content : text) :
  configured self = false ->
  detect_header self content = set_header_string self (first_field self content).
Proof.
  destruct self as [s e [r |] [h |] kw cr pf tz]; try discriminate. reflexivity.
Qed.

Lemma detect_header_when_configured (self : Parser) (content : text) :
  configured self = true -> detect_header self content = self.
Proof.
  destruct self as [s e [r |] [h |] kw cr pf tz]; try discriminate; reflexivity.
Qed.

Section Buffers.

Variable tzdb : text -> option Pd.tzinfo.
Variable strptime : option text -> text -> option Z.

Lemma parse_buffer_closed_stream (self : Parser) (fp : StringIO.t) :
  StringIO.closed fp = true ->
  parse_buffer tzdb strptime self fp
  = (self, fp, ([(INFO, Reading_file (StringIO.name fp))], Raised ValueError)).
Proof.
  intros Hc. unfold parse_buffer, read_buffer, FilepathOrBuffer.__enter__,
    FilepathOrBuffer.__exit__, StringIO.readline, StringIO.read.
  rewrite Hc.
  assert (E : StringIO.close fp = fp) by (destruct fp; cbn in *; now subst).
  destruct (header_string self), (header_regex self); now rewrite E.
Qed.

Lemma parse_buffer_open_stream (self : Parser) (fp : StringIO.t) :
  StringIO.closed fp = false ->
  parse_buffer tzdb strptime self fp
  = if configured self
    then (self, drained fp (StringIO.tell fp),
          snd (parse tzdb strptime self
                 {| file_name := StringIO.name fp; file_content := remaining fp |}))
    else
      let self1 := set_header_string self (first_field self (remaining fp)) in
      (self1, drained fp 0, snd (parse tzdb strptime self1 (file_of fp))).
Proof.
  intros Hc. unfold parse_buffer, read_buffer, FilepathOrBuffer.__enter__,
    FilepathOrBuffer.__exit__, StringIO.readline, StringIO.seek, StringIO.read,
    configured.
  rewrite Hc.
  destruct (header_string self) as [h |] eqn:Eh, (header_regex self) as [r |] eqn:Er;
    repeat (cbn [is_some orb StringIO.closed StringIO.at_position StringIO.tell
                 StringIO.getvalue StringIO.name skipn];
            rewrite ?Hc);
    reflexivity.
Qed.

(** X20.  [parse] closes the text stream it is given, whether or not the
    reading succeeds; a second call on the same stream logs that the file
    is read and raises [ValueError], leaving the parser object as it
    is. *)
Theorem stream_is_closed_by_parse (self : Parser) (buffer : StringIO.t) :
  let '(self1, fp1, _) := parse_buffer tzdb strptime self buffer in
  StringIO.closed fp1 = true
  /\ parse_buffer tzdb strptime self1 fp1
     = (self1, fp1,
        ([(INFO, Reading_file (StringIO.name buffer))], Raised ValueError)).
Proof.
  destruct (StringIO.closed buffer) eqn:Hc.
  - rewrite (parse_buffer_closed_stream self buffer Hc).
    split; [exact Hc |]. now apply parse_buffer_closed_stream.
  - rewrite (parse_buffer_open_stream self buffer Hc).
    destruct (configured self); cbn zeta;
      (split; [reflexivity |]);
      now rewrite parse_buffer_closed_stream.
Qed.

(** X21.  [parse] on an open text stream.  With a marker configured the
    text is read from the position of the stream on.  With none, the
    marker is the first field of the line at that position, and the text
    parsed is the whole text, from offset 0.  For a stream at position 0
    this is [parse] on its text. *)
Theorem parse_reads_from_the_position (self : Parser) (buffer : StringIO.t) :
  StringIO.closed buffer = false ->
  (configured self = true ->
   parse_buffer tzdb strptime self buffer
   = (self, drained buffer (StringIO.tell buffer),
      snd (parse tzdb strptime self
             {| file_name := StringIO.name buffer;
                file_content := remaining buffer |})))
  /\ (configured self = false ->
      let self1 := set_header_string self (first_field self (remaining buffer)) in
      parse_buffer tzdb strptime self buffer
      = (self1, drained buffer 0, snd (parse tzdb strptime self1 (file_of buffer))))
  /\ (StringIO.tell buffer = 0 ->
      parse_buffer tzdb strptime self buffer
      = (fst (parse tzdb strptime self (file_of buffer)), drained buffer 0,
         snd (parse tzdb strptime self (file_of buffer)))).
Proof.
  intros Hc. rewrite (parse_buffer_open_stream self buffer Hc). split_all.
  - now intros ->.
  - now intros ->.
  - intros Hp. unfold remaining. rewrite Hp. cbn [skipn].
    change (fst (parse tzdb strptime self (file_of buffer)))
      with (detect_header self (StringIO.getvalue buffer)).
    destruct (configured self) eqn:Ec.
    + rewrite (detect_header_when_configured _ _ Ec). reflexivity.
    + cbn zeta. rewrite (detect_header_not_configured _ _ Ec).
      f_equal. unfold parse. cbn [snd file_of file_name file_content].
      rewrite <- (detect_header_not_configured _ _ Ec).
      now rewrite detect_header_idempotent.
Qed.

End Buffers.

(** ** The function that opens a path *)

Lemma starts_with_rev_suffix (s suffix : text) :
  FilepathOrBuffer.endswith s suffix = true <-> exists stem, s = stem ++ suffix.
Proof.
  unfold FilepathOrBuffer.endswith. rewrite starts_with_app. split.
  - intros [rest H]. exists (rev rest).
    rewrite <- (rev_involutive s), H, rev_app_distr, rev_involutive. reflexivity.
  - intros [stem ->]. exists (rev stem). now rewrite rev_app_distr.
Qed.

(** X22.  A path is opened with [gzip.open] exactly when it ends with
    the two characters [gz], whatever stands before them. *)
Theorem gzip_by_the_last_two_characters (filepath : text) :
  FilepathOrBuffer.open_func_of filepath = FilepathOrBuffer.gzip_open
  <-> exists stem, filepath = stem ++ py "gz".
Proof.
  unfold FilepathOrBuffer.open_func_of. rewrite <- starts_with_rev_suffix.
  destruct (FilepathOrBuffer.endswith filepath (py "gz")); split;
    try reflexivity; discriminate.
Qed.

(** ** The merge of the blocks *)

(** X23.  The merge at the end of [parse] leaves out the blocks whose
    frame is [None], and one block that was read suffices: without
    [process_func] the file then returns a frame, with the rows of the
    frames present in the order of the blocks, the union of their columns,
    and the name of the file as its source. *)
Theorem failed_block_is_left_out
  (self : Parser) (source : text) :
  (forall before after : list (option Pd.frame),
     join_data self source (before ++ None :: after)
     = join_data self source (before ++ after))
  /\ (forall frames : list (option Pd.frame),
        process_func self = None ->
        Pd.not_none frames <> [] ->
        exists m,
          join_data self source frames = ([], Ok (Some m))
          /\ Pd.index m = flat_map Pd.index (Pd.not_none frames)
          /\ Pd.columns m = Pd.union_columns (Pd.not_none frames)
          /\ Pd.attrs_source m = Some source).
Proof.
  split.
  - intros before after. unfold join_data.
    rewrite (concat_not_none (before ++ None :: after) (before ++ after))
      by (now rewrite !not_none_app).
    reflexivity.
  - intros frames Hp Hsome. unfold join_data, Pd.concat. rewrite Hp.
    destruct frames as [| o os]; [now contradiction Hsome |].
    destruct (Pd.not_none (o :: os)) as [| g gs] eqn:E;
      [now contradiction Hsome |].
    eexists. split; [reflexivity |]. unfold Pd.columns at 1.
    cbn [set_source Pd.index Pd.attrs_source Pd.cols].
    split_all; try reflexivity.
    rewrite map_map. cbn [fst]. apply map_id.
Qed.

(** ** The properties on examples *)

Lemma nul_stripped_twin_parses_alike_witness :
  parse tzdb_fixed_only strptime_iso (parser_of None no_kwargs)
    (nul_stripped nul_in_data_file)
  = parse tzdb_fixed_only strptime_iso (parser_of None no_kwargs)
      nul_in_data_file.
Proof.
  apply nul_stripped_twin_parses_alike. right.
  split; [discriminate | reflexivity].
Defined.

Lemma blocks_begin_with_the_marker_witness :
  Forall (fun b => header_at (py "Time") b 0 = true)
    (blocks example_text (Some 0) (map Some [23] ++ [None])).
Proof.
  apply blocks_begin_with_the_marker. vm_compute. reflexivity.
Defined.

Lemma empty_document_witness :
  parse tzdb_fixed_only strptime_iso (parser_of None no_kwargs)
    {| file_name := py "empty.csv"; file_content := [] |}
  = (set_header_string (parser_of None no_kwargs) [],
     ([(INFO, Reading_file (py "empty.csv"));
       (ERROR, Failed_reading_file (py "empty.csv") EmptyDataError);
       (ERROR, All_empty_data (py "empty.csv"))], Ok None)).
Proof.
  apply empty_document; [reflexivity | left; reflexivity].
Defined.

Lemma empty_header_regex_witness :
  parse tzdb_fixed_only strptime_iso
    (fst (__init__ "," (py "utf8") None (Some (Re.literal [])) None None
            (py "UTC") no_kwargs))
    headerless_file
  = (fst (__init__ "," (py "utf8") None (Some (Re.literal [])) None None
            (py "UTC") no_kwargs),
     ([(INFO, Reading_file (py "plain.csv"))], Raised TypeError)).
Proof.
  destruct (empty_header_regex tzdb_fixed_only strptime_iso "," (py "utf8")
              (Re.literal []) None None (py "UTC") no_kwargs eq_refl)
    as [_ H].
  apply (H headerless_file).
Defined.

Lemma default_options_never_raise_witness :
  exists l r,
    snd (parse tzdb_fixed_only strptime_iso
           (set_process_func (parser_of (Some (py "Time")) no_kwargs)
              (Some failing_func))
           example_file)
    = (l, Ok r).
Proof.
  apply default_options_never_raise;
    [reflexivity | discriminate | reflexivity | intros H; discriminate H].
Defined.

Lemma parse_result_or_error_witness :
  exists l',
    [(INFO, Reading_file (py "plain.csv"));
     (ERROR, No_header_found (py "plain.csv"))]
    = l' ++ [(ERROR, No_header_found (py "plain.csv"))]
    \/ [(INFO, Reading_file (py "plain.csv"));
        (ERROR, No_header_found (py "plain.csv"))]
       = l' ++ [(ERROR, All_empty_data (py "plain.csv"))].
Proof.
  apply (parse_result_or_error tzdb_fixed_only strptime_iso
           (parser_of (Some (py "Time")) no_kwargs) headerless_file
           [(INFO, Reading_file (py "plain.csv"));
            (ERROR, No_header_found (py "plain.csv"))] None);
    [reflexivity | vm_compute; reflexivity].
Defined.

Lemma process_func_is_contained_witness :
  exists l,
    snd (parse tzdb_fixed_only strptime_iso
           (set_process_func (parser_of (Some (py "Time")) with_index_col)
              (Some failing_func))
           example_file)
    = (l ++ [(ERROR, Unable_to_process_file (py "example.csv") UserError)],
       Ok None).
Proof.
  destruct (process_func_is_contained tzdb_fixed_only strptime_iso
              (parser_of (Some (py "Time")) with_index_col) failing_func
              example_file) as (_ & _ & _ & H).
  destruct (snd (parse tzdb_fixed_only strptime_iso
                   (set_process_func (parser_of (Some (py "Time")) with_index_col)
                      None)
                   example_file)) as [l [[df |] | e]] eqn:E;
    try (vm_compute in E; discriminate E).
  exists l. destruct (H l df eq_refl) as [_ ->]. reflexivity.
Defined.


Lemma over_long_lines_are_skipped_witness :
  read_block (parser_of None no_kwargs)
    (unlines [py "a,b"; py "1,2"; py "3,4,5"; py "6,7"]) (py "f.csv")
  = read_block (parser_of None no_kwargs)
      (unlines [py "a,b"; py "1,2"; py "6,7"]) (py "f.csv").
Proof.
  apply (over_long_lines_are_skipped (parser_of None no_kwargs) (py "f.csv")
           (py "a,b") (py "1,2") [py "3,4,5"; py "6,7"]).
  repeat constructor.
Defined.

Lemma default_column_filter_witness :
  Pd.filter_regex (column_regex (parser_of None no_kwargs)) utc_plus_2_frame
  = utc_plus_2_frame.
Proof.
  destruct (default_column_filter "," (py "utf8") None None None None (py "UTC")
              no_kwargs utc_plus_2_frame eq_refl) as [_ H].
  apply H. repeat constructor.
Defined.

Lemma dates_need_a_named_index_witness :
  _parse_frame tzdb_fixed_only strptime_iso
    (parser_of (Some (py "Time")) dates_without_index_col)
    (py "Time,A\n1,2\n") (py "f.csv")
  = ([], Raised TypeError).
Proof.
  destruct (dates_need_a_named_index tzdb_fixed_only strptime_iso
              (parser_of (Some (py "Time")) dates_without_index_col)
              eq_refl eq_refl) as [H _].
  eapply H. vm_compute. reflexivity.
Defined.


Lemma cast_of_a_missing_column_witness :
  exists l,
    _parse_frame tzdb_fixed_only strptime_iso
      (parser_of (Some (py "T")) with_dates_mapping)
      (py "T,B\n2020-01-01 02:00:00,5\n") (py "f.csv")
    = (l, Raised KeyError).
Proof.
  eexists.
  eapply (cast_of_a_missing_column tzdb_fixed_only strptime_iso
            (parser_of (Some (py "T")) with_dates_mapping)
            (py "T,B\n2020-01-01 02:00:00,5\n") (py "f.csv")
            _ _ _ _ [(py "A", Pd.Int32)] (py "A")).
  - reflexivity.
  - reflexivity.
  - vm_compute. reflexivity.
  - vm_compute. reflexivity.
  - now left.
  - vm_compute. reflexivity.
Defined.


Lemma dtype_ignored_without_dates_witness :
  _parse_frame tzdb_fixed_only strptime_iso
    (set_dtype (parser_of None no_dates_int8) (Some (Pd.DtAll Pd.Int8)))
    (py "T,A\n1,x\n") (py "f.csv")
  = _parse_frame tzdb_fixed_only strptime_iso
      (set_dtype (parser_of None no_dates_int8) None)
      (py "T,A\n1,x\n") (py "f.csv").
Proof.
  destruct (dtype_ignored_without_dates tzdb_fixed_only strptime_iso
              (parser_of None no_dates_int8) (Some (Pd.DtAll Pd.Int8)) eq_refl)
    as [H _].
  apply H.
Defined.

Lemma batch_merges_in_submission_order_witness :
  snd (snd (parse_multifile tzdb_fixed_only strptime_iso
              (parser_of (Some (py "Time")) with_index_col)
              [example_file; headerless_file] 4))
  = snd (snd (parse_multifile tzdb_fixed_only strptime_iso
                (parser_of (Some (py "Time")) with_index_col)
                [example_file; headerless_file] 1)).
Proof.
  assert (H : exists frames,
            Forall2 (fun f r =>
                       snd (snd (parse tzdb_fixed_only strptime_iso
                                   (parser_of (Some (py "Time")) with_index_col) f))
                       = Ok r)
              [example_file; headerless_file] frames).
  { eexists. apply Forall2_cons; [vm_compute; reflexivity |].
    apply Forall2_cons; [vm_compute; reflexivity | apply Forall2_nil]. }
  destruct H as [frames H].
  destruct (batch_merges_in_submission_order tzdb_fixed_only strptime_iso
              (parser_of (Some (py "Time")) with_index_col)
              [example_file; headerless_file] frames 4 eq_refl H)
    as (_ & -> & _).
  destruct (batch_merges_in_submission_order tzdb_fixed_only strptime_iso
              (parser_of (Some (py "Time")) with_index_col)
              [example_file; headerless_file] frames 1 eq_refl H)
    as (_ & -> & _).
  reflexivity.
Defined.

Lemma failed_file_is_left_out_witness :
  snd (snd (parse_multifile tzdb_fixed_only strptime_iso
              (parser_of (Some (py "Time")) with_index_col)
              ([example_file] ++ headerless_file :: [example_file]) 1))
  = snd (snd (parse_multifile tzdb_fixed_only strptime_iso
                (parser_of (Some (py "Time")) with_index_col)
                ([example_file] ++ [example_file]) 1)).
Proof.
  assert (H : exists r,
            snd (snd (parse tzdb_fixed_only strptime_iso
                        (parser_of (Some (py "Time")) with_index_col)
                        example_file)) = Ok r)
    by (eexists; vm_compute; reflexivity).
  destruct H as [r H].
  apply (failed_file_is_left_out tzdb_fixed_only strptime_iso
           (parser_of (Some (py "Time")) with_index_col)
           [example_file] [example_file] headerless_file [r] [r] 1).
  - reflexivity.
  - vm_compute. reflexivity.
  - repeat constructor. exact H.
  - repeat constructor. exact H.
Defined.

Lemma all_files_fail_witness :
  snd (parse_multifile tzdb_fixed_only strptime_iso
         (parser_of (Some (py "Time")) no_kwargs)
         [headerless_file; headerless_file] 4)
  = ([(INFO, Starting_read 4); (INFO, Done); (ERROR, All_empty_frames)],
     Ok None).
Proof.
  apply (all_files_fail tzdb_fixed_only strptime_iso
           (parser_of (Some (py "Time")) no_kwargs)
           [headerless_file; headerless_file] 4).
  - reflexivity.
  - repeat constructor.
Defined.

Lemma exception_aborts_the_batch_witness :
  snd (snd (parse_multifile tzdb_fixed_only strptime_iso
              (parser_of (Some (py "Time")) dates_without_index_col)
              ([headerless_file] ++ dated_file :: [headerless_file]) 1))
  = Raised TypeError.
Proof.
  apply (exception_aborts_the_batch tzdb_fixed_only strptime_iso
           (parser_of (Some (py "Time")) dates_without_index_col)
           [headerless_file] [headerless_file] dated_file [None] TypeError 1).
  - reflexivity.
  - repeat constructor.
  - vm_compute. reflexivity.
  - reflexivity.
Defined.

Lemma parse_reads_from_the_position_witness :
  parse_buffer tzdb_fixed_only strptime_iso (parser_of None no_kwargs)
    (fresh_stream (py "example.csv") example_text)
  = (fst (parse tzdb_fixed_only strptime_iso (parser_of None no_kwargs)
            (file_of (fresh_stream (py "example.csv") example_text))),
     drained (fresh_stream (py "example.csv") example_text) 0,
     snd (parse tzdb_fixed_only strptime_iso (parser_of None no_kwargs)
            (file_of (fresh_stream (py "example.csv") example_text)))).
Proof.
  destruct (parse_reads_from_the_position tzdb_fixed_only strptime_iso
              (parser_of None no_kwargs)
              (fresh_stream (py "example.csv") example_text) eq_refl)
    as (_ & _ & H).
  exact (H eq_refl).
Defined.

Lemma failed_block_is_left_out_witness :
  join_data (parser_of None no_kwargs) (py "f.csv")
    ([Some utc_plus_2_frame] ++ None :: [Some utc_plus_2_frame])
  = join_data (parser_of None no_kwargs) (py "f.csv")
      ([Some utc_plus_2_frame] ++ [Some utc_plus_2_frame]).
Proof.
  destruct (failed_block_is_left_out (parser_of None no_kwargs) (py "f.csv"))
    as [H _].
  apply H.
Defined.
